(** * WhatsApp Reel AutoSplitter: the Flask back end, embedded and verified

    Source: [flask-api-backend.py].  The development follows the file from
    top to bottom: [allowed_file] and the naming of clips, the segment
    arithmetic of the loop in [split_video], the storage model,
    [cleanup_old_files], [split_video], [create_zip] and the request
    handlers [upload_video] and [split_video_endpoint].

    Modelling conventions.
    - Python [str] is [string]; [str.lower] acts on the ASCII letters.
    - A Python [float] is a binary64 number, [PrimFloat.float]: every
      operation rounds as IEEE 754 does, to nearest with ties to even.  A
      Python [int] is an integer [Z].  [split_duration] is whatever JSON
      value the request holds under that key, and the arithmetic of
      [split_video] raises where Python's does.
    - Sizes in megabytes, and the duration in the dictionary of
      [get_video_info], which is only passed on, are rationals [Q].
    - Time stamps are integers counting microseconds, the resolution of
      [datetime]; one request sees one value of [now].
    - A storage directory is a finite map from entry names to entries; a
      sub-directory holds a finite map of files.
    - The external programs ([ffprobe], [ffmpeg]), [uuid4], [secure_filename]
      and the encoder of the zip format are parameters of the model. *)

From Stdlib Require Import Floats.
From Stdlib Require Import QArith Qround Lqa ZArith Lia String Ascii.
From Stdlib Require Import Decimal DecimalString DecimalNat.
From stdpp Require Import gmap strings list fin_maps sorting.

Local Open Scope string_scope.
Local Open Scope list_scope.

(** ** File names *)

(** [ALLOWED_EXTENSIONS = {'mp4', 'mov', 'avi', 'mkv', 'webm'}] *)
Definition ALLOWED_EXTENSIONS : gset string :=
  {[ "mp4"; "mov"; "avi"; "mkv"; "webm" ]}.

(** ['.' in filename] *)
Fixpoint contains_dot (s : string) : bool :=
  match s with
  | EmptyString => false
  | String c s' => if Ascii.eqb c "." then true else contains_dot s'
  end.

(** [str.lower], on the ASCII range. *)
Definition lower_ascii (c : ascii) : ascii :=
  let n := nat_of_ascii c in
  if (65 <=? n)%nat && (n <=? 90)%nat then ascii_of_nat (n + 32) else c.

Fixpoint lower (s : string) : string :=
  match s with
  | EmptyString => EmptyString
  | String c s' => String (lower_ascii c) (lower s')
  end.

(** The split point of [s.rsplit('.', 1)]: the text before and after the
    last dot, when there is one. *)
Fixpoint rsplit_last_dot (s : string) : option (string * string) :=
  match s with
  | EmptyString => None
  | String c s' =>
      match rsplit_last_dot s' with
      | Some (pre, post) => Some (String c pre, post)
      | None => if Ascii.eqb c "." then Some (EmptyString, s') else None
      end
  end.

(** [s.rsplit('.', 1)]: one piece without a dot, two pieces with one. *)
Definition rsplit_dot_1 (s : string) : list string :=
  match rsplit_last_dot s with
  | Some (pre, post) => [pre; post]
  | None => [s]
  end.

(** [allowed_file]; the index [1] is guarded by the dot test, as in the
    source, where an index out of range would raise. *)
Definition allowed_file (filename : string) : bool :=
  contains_dot filename &&
  match rsplit_dot_1 filename !! 1%nat with
  | Some ext => bool_decide (lower ext ∈ ALLOWED_EXTENSIONS)
  | None => false
  end.

(** [file.endswith('.mp4')] *)
Definition endswith (suffix s : string) : bool :=
  String.prefix (String.rev suffix) (String.rev s).

(** [format(n, '02d')] for a non-negative [n]: decimal digits, padded with
    zeros on the left up to width two. *)
Definition str_of_nat (n : nat) : string :=
  NilZero.string_of_uint (Nat.to_uint n).

Definition fmt_02d (n : nat) : string :=
  let s := str_of_nat n in
  if (String.length s <? 2)%nat then "0" +:+ s else s.

(** Reading a string of decimal digits as a number; leading zeros do not
    count, and a string with another character has no value. *)
Definition nat_of_digits (s : string) : option nat :=
  Nat.of_uint <$> NilZero.uint_of_string s.

(** [f"reel_{i+1:02d}.mp4"], as a function of the clip number [i+1]. *)
Definition reel_filename (number : nat) : string :=
  "reel_" +:+ fmt_02d number +:+ ".mp4".

(** An exception that leaves a function; the text is its message. *)
Inductive outcome (A : Type) :=
| Returned (a : A)
| Raised (msg : string).
Arguments Returned {A} a.
Arguments Raised {A} msg.

(** ** Numbers

    [total_duration] is a [float].  [split_duration] is the value that
    [request.json] holds under the key: any JSON value.  Of an array or an
    object only the kind matters here. *)
Inductive json :=
| JNull
| JBool (b : bool)
| JInt (z : Z)
| JFloat (f : float)
| JString (s : string)
| JArray
| JObject.

(** The Python values that take part in arithmetic: [bool], [int] and
    [float].  A [bool] counts as the integer 0 or 1 and keeps its type
    where it is only passed on. *)
Inductive pynum :=
| NBool (b : bool)
| NInt (z : Z)
| NFloat (f : float).

(** The number a JSON value is, if it is one: the other values make the
    division of line 89 raise [TypeError]. *)
Definition as_number (v : json) : option pynum :=
  match v with
  | JBool b => Some (NBool b)
  | JInt z => Some (NInt z)
  | JFloat f => Some (NFloat f)
  | _ => None
  end.

(** [type(v).__name__] for the values that are no numbers, as the message
    of the [TypeError] names it. *)
Definition type_name (v : json) : string :=
  match v with
  | JNull => "NoneType"
  | JBool _ => "bool"
  | JInt _ => "int"
  | JFloat _ => "float"
  | JString _ => "str"
  | JArray => "list"
  | JObject => "dict"
  end.

(** The integer of a [bool] or an [int]. *)
Definition int_of (x : pynum) : option Z :=
  match x with
  | NBool b => Some (Z.b2z b)
  | NInt z => Some z
  | NFloat _ => None
  end.

(** The conversion of an [int] operand of a [float] operation: the nearest
    binary64 number, ties to even; [OverflowError] when that is beyond the
    largest one. *)
Definition float_of_int (z : Z) : outcome float :=
  match binary_normalize prec emax z 0 false with
  | S754_infinity _ => Raised "int too large to convert to float"
  | x => Returned (SF2Prim x)
  end.

Definition as_float (x : pynum) : outcome float :=
  match x with
  | NBool b => float_of_int (Z.b2z b)
  | NInt z => float_of_int z
  | NFloat f => Returned f
  end.

(** [a / x] for a float [a]: the operand is converted, a zero divisor (of
    either sign) raises [ZeroDivisionError], and the quotient is the
    binary64 one, infinite or NaN as the case may be. *)
Definition float_truediv (a : float) (x : pynum) : outcome float :=
  match as_float x with
  | Raised e => Raised e
  | Returned b =>
      if PrimFloat.eqb b 0 then Raised "float division by zero"
      else Returned (PrimFloat.div a b)
  end.

(** [a - x] for a float [a]. *)
Definition float_sub (a : float) (x : pynum) : outcome pynum :=
  match as_float x with
  | Raised e => Raised e
  | Returned b => Returned (NFloat (PrimFloat.sub a b))
  end.

(** [i * x] for an [int] [i]: an exact product of integers, or the
    binary64 product of the converted [i] and a float. *)
Definition int_mul (i : Z) (x : pynum) : outcome pynum :=
  match x with
  | NBool b => Returned (NInt (i * Z.b2z b))
  | NInt z => Returned (NInt (i * z))
  | NFloat f =>
      match float_of_int i with
      | Raised e => Raised e
      | Returned a => Returned (NFloat (PrimFloat.mul a f))
      end
  end.

(** [x + y]: an exact sum of integers, or the binary64 sum once a float is
    involved. *)
Definition add (x y : pynum) : outcome pynum :=
  match int_of x, int_of y with
  | Some a, Some b => Returned (NInt (a + b))
  | _, _ =>
      match as_float x with
      | Raised e => Raised e
      | Returned a =>
          match as_float y with
          | Raised e => Raised e
          | Returned b => Returned (NFloat (PrimFloat.add a b))
          end
      end
  end.

(** [math.ceil] of a float: the least integer not below it; [ValueError]
    for a NaN and [OverflowError] for an infinity.  A finite float is
    [(-1)^s * m * 2^e]. *)
Definition math_ceil (x : float) : outcome Z :=
  match Prim2SF x with
  | S754_nan => Raised "cannot convert float NaN to integer"
  | S754_infinity _ => Raised "cannot convert float infinity to integer"
  | S754_zero _ => Returned 0%Z
  | S754_finite s m e =>
      let num := (Z.pos m * 2 ^ Z.max e 0)%Z in
      let den := (2 ^ Z.max (- e) 0)%Z in
      Returned (if s then - (num / den) else - (- num / den))%Z
  end.

(** The rational that a finite float is: [(-1)^s * m * 2^e], as a fraction
    with a power of two below. *)
Definition float_value (x : float) : option Q :=
  match Prim2SF x with
  | S754_zero _ => Some 0%Q
  | S754_finite s m e =>
      let num := (Z.pos m * 2 ^ Z.max e 0)%Z in
      let den := (2 ^ Z.max (- e) 0)%Z in
      Some (Qmake (if s then - num else num) (Z.to_pos den))
  | _ => None
  end.



(** ** Segment arithmetic of [split_video] *)

(** [for i in range(n)]: empty when [n] is not positive. *)
Definition range (n : Z) : list nat := seq 0 (Z.to_nat n).

(** [num_clips = math.ceil(total_duration / split_duration)] *)
Definition num_clips (total_duration : float) (split_duration : pynum) : outcome Z :=
  match float_truediv total_duration split_duration with
  | Raised e => Raised e
  | Returned q => math_ceil q
  end.

(** [start_time = i * split_duration] *)
Definition start_time (split_duration : pynum) (i : nat) : outcome pynum :=
  int_mul (Z.of_nat i) split_duration.

(** [clip_duration]: the remainder for the last index, [split_duration]
    otherwise. *)
Definition clip_duration (total_duration : float) (split_duration : pynum) (n : Z)
    (i : nat) (start_time : pynum) : outcome pynum :=
  if (Z.of_nat i =? n - 1)%Z
  then float_sub total_duration start_time
  else Returned split_duration.

(** What one iteration of the loop asks [ffmpeg] to cut, [-ss start -t
    duration] for the index [i], unless the arithmetic raises first. *)
Definition cut (total_duration : float) (split_duration : pynum) (n : Z) (i : nat)
  : outcome (pynum * pynum) :=
  match start_time split_duration i with
  | Raised e => Raised e
  | Returned st =>
      match clip_duration total_duration split_duration n i st with
      | Raised e => Raised e
      | Returned d => Returned (st, d)
      end
  end.

(** No iteration of a loop of [n] rounds raises in its arithmetic. *)
Definition cuts_return (total_duration : float) (split_duration : pynum) (n : Z) : bool :=
  forallb
    (fun i => match cut total_duration split_duration n i with
              | Returned _ => true
              | Raised _ => false
              end)
    (range n).

(** ** Storage *)

(** What a regular file holds: raw bytes (an upload, a clip written by
    [ffmpeg]), or a zip archive, kept as its members [(arcname, bytes)] in
    the order they were written. *)
Inductive content :=
| Raw (bytes : string)
| Archive (members : list (string * string)).

(** Time stamps count microseconds, the resolution of [datetime]. *)
Record file := {
  mtime : Z;
  data : content
}.

(** An entry of a storage folder: a regular file, or a directory with its
    own modification time and its files. *)
Inductive entry :=
| EFile (f : file)
| EDir (dir_mtime : Z) (children : gmap string file).

(** The two folders [UPLOAD_FOLDER] and [OUTPUT_FOLDER]. *)
Record storage := {
  uploads : gmap string entry;
  outputs : gmap string entry
}.

Definition set_uploads (fs : storage) (u : gmap string entry) : storage :=
  {| uploads := u; outputs := outputs fs |}.

Definition set_outputs (fs : storage) (o : gmap string entry) : storage :=
  {| uploads := uploads fs; outputs := o |}.

(** [os.listdir]: the names of a folder, in the order of the map. *)
Definition listdir {A} (folder : gmap string A) : list string :=
  (map_to_list folder).*1.

Definition entry_mtime (e : entry) : Z :=
  match e with
  | EFile f => mtime f
  | EDir t _ => t
  end.

(** ** The retention sweep *)

(** [timedelta(hours=1)] *)
Definition ONE_HOUR : Z := 3600 * 1000000.

(** [now - file_time > timedelta(hours=1)] *)
Definition older_than_hour (now t : Z) : bool := (ONE_HOUR <? now - t)%Z.

(** One iteration of the inner loop of [cleanup_old_files], for the name
    [filename] of the listing: [os.remove] for a file, [shutil.rmtree] for
    a directory, both of which take the entry (and, for a directory, all it
    holds) out of the folder. *)
Definition cleanup_entry (now : Z) (folder : gmap string entry) (filename : string)
  : gmap string entry :=
  match folder !! filename with
  | Some (EFile f) =>
      if older_than_hour now (mtime f) then delete filename folder else folder
  | Some (EDir t _) =>
      if older_than_hour now t then delete filename folder else folder
  | None => folder
  end.

Definition cleanup_folder (now : Z) (folder : gmap string entry) : gmap string entry :=
  fold_left (cleanup_entry now) (listdir folder) folder.

(** [cleanup_old_files], with [now] bound once before both loops. *)
Definition cleanup_old_files (now : Z) (fs : storage) : storage :=
  {| uploads := cleanup_folder now (uploads fs);
     outputs := cleanup_folder now (outputs fs) |}.

(** What the sweep leaves of one entry. *)
Definition kept (now : Z) (e : entry) : option entry :=
  if older_than_hour now (entry_mtime e) then None else Some e.

(** A regular file anywhere under a folder: directly in it, or inside one of
    its directories. *)
Inductive location :=
| Top (name : string)
| Inside (dir name : string).

Definition file_at (folder : gmap string entry) (l : location) : option file :=
  match l with
  | Top name =>
      match folder !! name with
      | Some (EFile f) => Some f
      | _ => None
      end
  | Inside dir name =>
      match folder !! dir with
      | Some (EDir _ ch) => ch !! name
      | _ => None
      end
  end.

(** ** External programs and library calls *)

(** The dictionary built by [get_video_info]. *)
Record video_info := {
  vi_duration : Q;
  vi_size_mb : Q;
  vi_width : option Z;
  vi_height : option Z;
  vi_codec : option string
}.

(** What one [ffmpeg -ss .. -i .. -t .. -c copy -avoid_negative_ts 1 -y out]
    run leaves behind: its return code, and the bytes it wrote to [out], if
    it wrote the file at all. *)
Record ffmpeg_result := {
  returncode : Z;
  written : option string
}.

(** The programs and library functions the back end calls.  A probe that
    makes the Python function raise is [None].  With [-y] the result of
    [ffmpeg] does not depend on an earlier output file, so it is a function
    of the input and of the cut, whose two numbers the command line holds
    as [str(start_time)] and [str(clip_duration)]. *)
Class External := {
  ffprobe_duration : content -> option float;
  ffprobe_info : content -> option video_info;
  ffmpeg_copy : content -> pynum -> pynum -> ffmpeg_result;
  secure_filename : string -> string;
  zip_encode : list (string * string) -> string
}.

(** ** HTTP responses *)

(** One element of [clips_info]. *)
Record clip := {
  number : nat;
  filename : string;
  start : pynum;
  end_ : pynum;
  duration : pynum;
  size_mb : Q
}.

Inductive body :=
| ErrorBody (error : string)
| UploadBody (info : video_info) (job_id filename : string)
| SplitBody (success : bool) (job_id : string) (clips : list clip)
            (total_clips : nat) (zip_size_mb : Q) (download_url : string).

Record response := {
  status : Z;
  payload : body
}.

(** ** Sizes *)

Definition MB : Q := inject_Z (1024 * 1024).

(** [round(x, 2)]: to the nearest hundredth, ties to the even one. *)
Definition round2 (x : Q) : Q :=
  let y := (x * 100)%Q in
  let lo := Qfloor y in
  let frac := (y - inject_Z lo)%Q in
  let up :=
    match (frac ?= 1 # 2)%Q with
    | Lt => false
    | Gt => true
    | Eq => Z.odd lo
    end in
  (inject_Z (if up then lo + 1 else lo) / 100)%Q.

Section Backend.
Context `{External}.

(** The bytes of a file as a program reading it sees them. *)
Definition bytes_of (c : content) : string :=
  match c with
  | Raw b => b
  | Archive ms => zip_encode ms
  end.

(** [os.path.getsize] *)
Definition getsize (c : content) : Z := Z.of_nat (String.length (bytes_of c)).

(** ** [get_video_duration] and [get_video_info]

    [video_name] is the name of the file under [UPLOAD_FOLDER]; a path
    that is not a regular file makes [ffprobe] print nothing and
    [json.loads] raise. *)
Definition read_upload (fs : storage) (video_name : string) : option content :=
  match uploads fs !! video_name with
  | Some (EFile f) => Some (data f)
  | _ => None
  end.

Definition get_video_duration (fs : storage) (video_name : string) : option float :=
  c ← read_upload fs video_name; ffprobe_duration c.

Definition get_video_info (fs : storage) (video_name : string) : option video_info :=
  c ← read_upload fs video_name; ffprobe_info c.

(** ** [split_video] *)

(** [os.makedirs(output_dir, exist_ok=True)] for [OUTPUT_FOLDER/job_id]. *)
Definition makedirs_output (now : Z) (fs : storage) (job_id : string) : outcome storage :=
  match outputs fs !! job_id with
  | Some (EDir _ _) => Returned fs
  | Some (EFile _) => Raised "FileExistsError"
  | None => Returned (set_outputs fs (<[job_id := EDir now ∅]> (outputs fs)))
  end.

(** The files of the job's output directory. *)
Definition job_files (fs : storage) (job_id : string) : gmap string file :=
  match outputs fs !! job_id with
  | Some (EDir _ ch) => ch
  | _ => ∅
  end.

(** A program writes [bytes] to [OUTPUT_FOLDER/job_id/name]: the file gets
    the current time, and so does the directory when the name is new. *)
Definition write_output (now : Z) (fs : storage) (job_id name bytes : string) : storage :=
  match outputs fs !! job_id with
  | Some (EDir t ch) =>
      let t' := match ch !! name with Some _ => t | None => now end in
      set_outputs fs
        (<[job_id := EDir t' (<[name := {| mtime := now; data := Raw bytes |}]> ch)]>
           (outputs fs))
  | _ => fs
  end.

(** [subprocess.run(cmd)] for the [ffmpeg] command of one clip. *)
Definition run_ffmpeg (fs : storage) (video_name : string) (ss t : pynum)
  : ffmpeg_result :=
  match read_upload fs video_name with
  | Some c => ffmpeg_copy c ss t
  | None => {| returncode := 1; written := None |}
  end.

(** The dictionary appended to [clips_info] in iteration [i], for the
    output file [f] found on disk; the sum for [end] is taken while the
    dictionary is built. *)
Definition make_clip (i : nat) (start_time clip_duration : pynum) (f : file)
  : outcome clip :=
  let file_size_mb := (inject_Z (getsize (data f)) / MB)%Q in
  match add start_time clip_duration with
  | Raised e => Raised e
  | Returned end_time =>
      Returned {| number := i + 1;
                  filename := reel_filename (i + 1);
                  start := start_time;
                  end_ := end_time;
                  duration := clip_duration;
                  size_mb := round2 file_size_mb |}
  end.

(** The body of the loop, for the index [i]; the state is the storage and
    [clips_info], or the exception that has ended the loop. *)
Definition split_iteration (now : Z) (video_name : string)
    (total_duration : float) (split_duration : pynum) (n : Z) (job_id : string)
    (st : storage * outcome (list clip)) (i : nat) : storage * outcome (list clip) :=
  match st with
  | (fs, Raised e) => (fs, Raised e)
  | (fs, Returned clips_info) =>
      match start_time split_duration i with
      | Raised e => (fs, Raised e)
      | Returned start_time =>
          match clip_duration total_duration split_duration n i start_time with
          | Raised e => (fs, Raised e)
          | Returned clip_duration =>
              let output_name := reel_filename (i + 1) in
              let result := run_ffmpeg fs video_name start_time clip_duration in
              let fs' :=
                match written result with
                | Some bytes => write_output now fs job_id output_name bytes
                | None => fs
                end in
              match (returncode result =? 0)%Z, job_files fs' job_id !! output_name with
              | true, Some f =>
                  match make_clip i start_time clip_duration f with
                  | Raised e => (fs', Raised e)
                  | Returned c => (fs', Returned (clips_info ++ [c]))
                  end
              | _, _ => (fs', Returned clips_info)
              end
          end
      end
  end.

(** The file at an output path right after an [ffmpeg] run, where [ch] are
    the files of the directory before the run: the file just written, or
    else whatever was there. *)
Definition output_after (now : Z) (ch : gmap string file) (name : string)
    (result : ffmpeg_result) : option file :=
  match written result with
  | Some bytes => Some {| mtime := now; data := Raw bytes |}
  | None => ch !! name
  end.

(** The clip of iteration [i] for the output file [f], if building the
    dictionary does not raise. *)
Definition made_clip (i : nat) (start_time clip_duration : pynum) (f : file)
  : option clip :=
  match make_clip i start_time clip_duration f with
  | Returned c => Some c
  | Raised _ => None
  end.

(** Iteration [i] seen from the storage [fs] the loop starts in: the clip it
    appends, when the run returns 0 and the output file exists. *)
Definition clip_result (now : Z) (fs : storage) (video_name : string)
    (total_duration : float) (split_duration : pynum) (n : Z) (job_id : string)
    (i : nat) : option clip :=
  match cut total_duration split_duration n i with
  | Raised _ => None
  | Returned (start_time, clip_duration) =>
      let result := run_ffmpeg fs video_name start_time clip_duration in
      if (returncode result =? 0)%Z
      then output_after now (job_files fs job_id) (reel_filename (i + 1)) result
             ≫= made_clip i start_time clip_duration
      else None
  end.

(** [split_video]: the storage it leaves, and the pair it returns ([job_id]
    stands for [output_dir]) or the exception it raises.  A
    [split_duration] that is no number makes the division raise. *)
Definition split_video (now : Z) (fs : storage) (video_name : string)
    (split_duration : json) (job_id : string)
  : storage * outcome (list clip * string) :=
  match makedirs_output now fs job_id with
  | Raised e => (fs, Raised e)
  | Returned fs1 =>
      match get_video_duration fs1 video_name with
      | None => (fs1, Raised "ffprobe output could not be read")
      | Some total_duration =>
          match as_number split_duration with
          | None =>
              (fs1, Raised ("unsupported operand type(s) for /: 'float' and '"
                            +:+ type_name split_duration +:+ "'"))
          | Some split_duration =>
              match num_clips total_duration split_duration with
              | Raised e => (fs1, Raised e)
              | Returned n =>
                  match
                    fold_left
                      (split_iteration now video_name total_duration split_duration
                         n job_id)
                      (range n) (fs1, Returned [])
                  with
                  | (fs2, Raised e) => (fs2, Raised e)
                  | (fs2, Returned clips_info) => (fs2, Returned (clips_info, job_id))
                  end
              end
          end
      end
  end.

(** The arithmetic of a whole run of [split_video] on a video of duration
    [D]: the number [S] that [split_duration] is and the count [n], when
    neither line 89 nor an iteration raises. *)
Definition split_arithmetic (D : float) (split_duration : json) (S : pynum) (n : Z)
  : Prop :=
  as_number split_duration = Some S /\
  num_clips D S = Returned n /\
  cuts_return D S n = true.

(** What a run of [split_video] that returns has done: the clips are the
    successful iterations in order, and the job directory holds the output
    files of the iterations next to what it held before. *)
Definition split_effect (now : Z) (fs : storage) (video_name : string) (D : float)
    (S : pynum) (n : Z) (job_id : string) (fs2 : storage) (clips : list clip)
  : Prop :=
  clips = omap (clip_result now fs video_name D S n job_id) (range n) /\
  uploads fs2 = uploads fs /\
  (exists t ch, outputs fs2 !! job_id = Some (EDir t ch)) /\
  (forall k, k <> job_id -> outputs fs2 !! k = outputs fs !! k) /\
  (forall i st d, i ∈ range n -> cut D S n i = Returned (st, d) ->
     job_files fs2 job_id !! reel_filename (i + 1)
     = output_after now (job_files fs job_id) (reel_filename (i + 1))
         (run_ffmpeg fs video_name st d)) /\
  (forall name, (forall i, i ∈ range n -> name <> reel_filename (i + 1)) ->
     job_files fs2 job_id !! name = job_files fs job_id !! name).

(** ** [create_zip] *)

(** The members written by the loop over [os.listdir(output_dir)]: every
    file whose name ends in [.mp4], under its bare name. *)
Definition zip_members (ch : gmap string file) : list (string * string) :=
  map (fun p : string * file => (p.1, bytes_of (data p.2)))
      (List.filter (fun p : string * file => endswith ".mp4" p.1) (map_to_list ch)).

(** [create_zip]: [ZipFile(zip_path, 'w')] creates the archive file first;
    when the listing raises, the [with] block still closes it, empty. *)
Definition create_zip (now : Z) (fs : storage) (output_dir job_id : string)
  : storage * outcome string :=
  let zip_path := job_id +:+ ".zip" in
  match outputs fs !! zip_path with
  | Some (EDir _ _) => (fs, Raised "IsADirectoryError")
  | _ =>
      let put ms :=
        set_outputs fs
          (<[zip_path := EFile {| mtime := now; data := Archive ms |}]> (outputs fs)) in
      match outputs (put []) !! output_dir with
      | Some (EDir _ ch) => (put (zip_members ch), Returned zip_path)
      | Some (EFile _) => (put [], Raised "NotADirectoryError")
      | None => (put [], Raised "FileNotFoundError")
      end
  end.

(** The member names of the archive stored for a job, if there is one. *)
Definition archive_names (fs : storage) (job_id : string) : option (list string) :=
  match outputs fs !! (job_id +:+ ".zip") with
  | Some (EFile {| data := Archive ms |}) => Some ms.*1
  | _ => None
  end.

(** ** [POST /upload] *)

(** [request.files.get('video')]: the client's file name and the bytes. *)
Record upload := {
  up_filename : string;
  up_bytes : string
}.

Definition error_response (code : Z) (msg : string) : response :=
  {| status := code; payload := ErrorBody msg |}.

(** The name under [UPLOAD_FOLDER] of [f"{job_id}_{filename}"]. *)
Definition stored_name (uuid : string) (file : upload) : string :=
  uuid +:+ "_" +:+ secure_filename (up_filename file).

(** [upload_video].  [uuid] is the value drawn by [uuid.uuid4()].  A
    [file.save] onto a directory raises outside the [try]; the framework
    answers 500. *)
Definition upload_video (now : Z) (fs : storage) (video : option upload) (uuid : string)
  : storage * response :=
  let fs := cleanup_old_files now fs in
  match video with
  | None => (fs, error_response 400 "No video file provided")
  | Some file =>
      if String.eqb (up_filename file) EmptyString
      then (fs, error_response 400 "No file selected")
      else if negb (allowed_file (up_filename file))
      then (fs, error_response 400
                  "Invalid file type. Allowed: mp4, mov, avi, mkv, webm")
      else
        let job_id := uuid in
        let filename := secure_filename (up_filename file) in
        let name := stored_name job_id file in
        match uploads fs !! name with
        | Some (EDir _ _) => (fs, error_response 500 "Internal Server Error")
        | _ =>
            let saved :=
              set_uploads fs
                (<[name := EFile {| mtime := now; data := Raw (up_bytes file) |}]>
                   (uploads fs)) in
            match get_video_info saved name with
            | Some info =>
                (saved, {| status := 200; payload := UploadBody info job_id filename |})
            | None =>
                (set_uploads saved (delete name (uploads saved)),
                 error_response 500 "Failed to process video")
            end
        end
  end.

(** ** [POST /split] *)

(** The JSON body: [data.get('job_id')] and [data.get('split_duration')]. *)
Record split_request := {
  req_job_id : option string;
  req_split_duration : option json
}.

(** [split_video_endpoint] *)
Definition split_video_endpoint (now : Z) (fs : storage) (req : split_request)
  : storage * response :=
  let split_duration := default (JInt 30) (req_split_duration req) in
  match req_job_id req with
  | None | Some EmptyString => (fs, error_response 400 "job_id required")
  | Some job_id =>
      let video_files := List.filter (String.prefix job_id) (listdir (uploads fs)) in
      match video_files with
      | [] => (fs, error_response 404 "Video not found. Please upload again.")
      | video_name :: _ =>
          match split_video now fs video_name split_duration job_id with
          | (fs1, Raised e) => (fs1, error_response 500 ("Failed to split video: " +:+ e))
          | (fs1, Returned (clips_info, output_dir)) =>
              match create_zip now fs1 output_dir job_id with
              | (fs2, Raised e) =>
                  (fs2, error_response 500 ("Failed to split video: " +:+ e))
              | (fs2, Returned zip_path) =>
                  match outputs fs2 !! zip_path with
                  | Some (EFile z) =>
                      let zip_size_mb := (inject_Z (getsize (data z)) / MB)%Q in
                      (fs2, {| status := 200;
                               payload := SplitBody true job_id clips_info
                                            (length clips_info) (round2 zip_size_mb)
                                            ("/download/" +:+ job_id) |})
                  | _ => (fs2, error_response 500 "Failed to split video: getsize")
                  end
              end
          end
      end
  end.

(** The request names a job that has an upload: [video_name] is the first
    match of the directory scan. *)
Definition job_found (fs : storage) (req : split_request) (job_id video_name : string)
  : Prop :=
  req_job_id req = Some job_id /\ job_id <> EmptyString /\
  head (List.filter (String.prefix job_id) (listdir (uploads fs))) = Some video_name.

(** The arithmetic of [split_video] raises for the duration [D] and the
    request's value: at line 89, for a value that is no number, a zero or
    too large a divisor, an infinite quotient or a NaN; or later, in one of
    the iterations. *)
Definition split_arithmetic_raises (D : float) (split_duration : json) : Prop :=
  as_number split_duration = None \/
  exists S, as_number split_duration = Some S /\
    ((exists e, num_clips D S = Raised e) \/
     (exists n, num_clips D S = Returned n /\ cuts_return D S n = false)).

(** Why a [/split] request that found its upload answers 500. *)
Definition split_blocked (fs : storage) (req : split_request)
    (job_id video_name : string) : Prop :=
  (exists f, outputs fs !! job_id = Some (EFile f)) \/
  get_video_duration fs video_name = None \/
  (exists D, get_video_duration fs video_name = Some D /\
     split_arithmetic_raises D (default (JInt 30) (req_split_duration req))) \/
  (exists t ch, outputs fs !! (job_id +:+ ".zip") = Some (EDir t ch)).

(** The clips of a response: [clips] of a 200 answer of [/split]. *)
Definition response_clips (r : response) : option (list clip) :=
  match payload r with
  | SplitBody _ _ clips _ _ _ => Some clips
  | _ => None
  end.

End Backend.

(** ** [GET /download/<job_id>] *)

(** What [download_zip] hands back: the file given to [send_file] with its
    MIME type and attachment name, or a JSON answer. *)
Inductive download_answer :=
| SendFile (mimetype download_name : string) (c : content)
| JsonAnswer (r : response).

(** [download_zip].  [os.path.exists] also holds for a directory, on which
    [send_file] raises; the framework answers 500. *)
Definition download_zip (fs : storage) (job_id : string) : download_answer :=
  let zip_path := job_id +:+ ".zip" in
  match outputs fs !! zip_path with
  | None => JsonAnswer (error_response 404 "File not found or expired")
  | Some (EFile f) => SendFile "application/zip" "whatsapp_reels.zip" (data f)
  | Some (EDir _ _) => JsonAnswer (error_response 500 "Internal Server Error")
  end.

(** ** The dictionary of [get_video_info]

    What [json.loads(result.stdout)] yields, as far as the function reads
    it.  A key that may be missing is an [option]; [fmt_duration] is the
    value of [float(data['format']['duration'])] and [fmt_size] that of
    [int(data['format']['size'])], [None] when the key is missing or the
    conversion raises. *)
Record stream := {
  codec_type : option string;
  width : option Z;
  height : option Z;
  codec_name : option string
}.

Record probe_format := {
  fmt_duration : option Q;
  fmt_size : option Z
}.

Record probe_data := {
  pd_format : option probe_format;
  pd_streams : option (list stream)
}.

(** [next((s for s in streams if s['codec_type'] == 'video'), None)]: the
    generator is consumed up to the first match, and a stream without the
    key raises when it is reached. *)
Fixpoint first_video (streams : list stream) : outcome (option stream) :=
  match streams with
  | [] => Returned None
  | s :: rest =>
      match codec_type s with
      | None => Raised "KeyError: 'codec_type'"
      | Some t => if String.eqb t "video" then Returned (Some s) else first_video rest
      end
  end.

(** Lines 73-81 of [get_video_info]: the stream is looked up first, then
    the dictionary is built in the order of its keys. *)
Definition video_info_of (d : probe_data) : outcome video_info :=
  match pd_streams d with
  | None => Raised "KeyError: 'streams'"
  | Some streams =>
      match first_video streams with
      | Raised e => Raised e
      | Returned video_stream =>
          match pd_format d with
          | None => Raised "KeyError: 'format'"
          | Some fmt =>
              match fmt_duration fmt, fmt_size fmt with
              | None, _ => Raised "duration"
              | Some _, None => Raised "size"
              | Some dur, Some size =>
                  Returned {| vi_duration := dur;
                              vi_size_mb := (inject_Z size / MB)%Q;
                              vi_width := video_stream ≫= width;
                              vi_height := video_stream ≫= height;
                              vi_codec := video_stream ≫= codec_name |}
              end
          end
      end
  end.

(** ** Concrete tools and storages used by the examples *)

(** A decimal numeral [digits] or [digits.digits] as a float: the quotient
    of two integers that binary64 holds exactly, when the numeral is
    short. *)
Definition float_of_decimal (s : string) : option float :=
  let ratio (num scale : Z) :=
    PrimFloat.div (SF2Prim (binary_normalize prec emax num 0 false))
                  (SF2Prim (binary_normalize prec emax scale 0 false)) in
  match rsplit_last_dot s with
  | None =>
      i ← NilZero.uint_of_string s;
      Some (ratio (Z.of_nat (Nat.of_uint i)) 1%Z)
  | Some (int_part, frac_part) =>
      i ← NilZero.uint_of_string int_part;
      f ← NilZero.uint_of_string frac_part;
      let scale := (10 ^ Z.of_nat (String.length frac_part))%Z in
      Some (ratio (Z.of_nat (Nat.of_uint i) * scale + Z.of_nat (Nat.of_uint f))%Z scale)
  end.

(** A stand-in for the external programs: a video is a file holding its
    duration as a decimal numeral; [ffmpeg] fails, leaving an empty output
    file, on the cuts that start at one of the integers [bad];
    [secure_filename] keeps the name. *)
Definition demo_tools (bad : list Z) : External := {|
  ffprobe_duration c :=
    match c with
    | Raw (String d ds) => float_of_decimal (String d ds)
    | _ => None
    end;
  ffprobe_info c :=
    match c with
    | Raw (String d ds) =>
        u ← NilZero.uint_of_string (String d ds);
        Some {| vi_duration := inject_Z (Z.of_nat (Nat.of_uint u));
                vi_size_mb := 0; vi_width := Some 1280%Z; vi_height := Some 720%Z;
                vi_codec := Some "h264" |}
    | _ => None
    end;
  ffmpeg_copy c ss t :=
    match int_of ss with
    | Some z =>
        if existsb (Z.eqb z) bad
        then {| returncode := 1; written := Some EmptyString |}
        else {| returncode := 0; written := Some "clip" |}
    | None => {| returncode := 0; written := Some "clip" |}
    end;
  secure_filename s := s;
  zip_encode ms := String.concat "," ms.*1
|}.

Definition minute : Z := 60 * 1000000.

(** One upload of a 95-second video under the job [j1], stored at time 0. *)
Definition one_upload : storage := {|
  uploads := {[ "j1_a.mp4" := EFile {| mtime := 0; data := Raw "95" |} ]};
  outputs := ∅
|}.

Definition split_j1 (S : json) : split_request :=
  {| req_job_id := Some "j1"; req_split_duration := Some S |}.

(** An output folder whose job directory was made two hours ago and holds a
    clip rewritten one minute ago, next to an upload of three hours ago. *)
Definition aged_storage : storage := {|
  uploads := {[ "j0_old.mp4" := EFile {| mtime := 0; data := Raw "95" |} ]};
  outputs := {[ "j0" := EDir (60 * minute)
                  {[ "reel_01.mp4" := {| mtime := 179 * minute; data := Raw "clip" |} ]} ]}
|}.

(** Two uploads: a text file, and a file with an allowed name that is not a
    video. *)
Definition notes_txt : upload := {| up_filename := "notes.txt"; up_bytes := "hello" |}.
Definition broken_mp4 : upload := {| up_filename := "clip.mp4"; up_bytes := "garbage" |}.

(** A storage with the upload of job [j1] and an archive for it written
    two hours before minute 180. *)
Definition archived_storage : storage := {|
  uploads := {[ "j1_a.mp4" := EFile {| mtime := 170 * minute; data := Raw "95" |} ]};
  outputs := {[ "j1.zip" := EFile {| mtime := 60 * minute;
                                      data := Archive [("reel_01.mp4", "clip")] |} ]}
|}.

(** A job directory with one clip and one file that is not a clip. *)
Definition mixed_dir_storage : storage := {|
  uploads := ∅;
  outputs := {[ "j1" := EDir 0
                  {[ "reel_01.mp4" := {| mtime := 0; data := Raw "clip" |};
                     "notes.txt" := {| mtime := 0; data := Raw "text" |} ]} ]}
|}.

Definition good_mp4 : upload := {| up_filename := "holiday.MP4"; up_bytes := "95" |}.

(** The output of the prober for a file with an audio and a video stream. *)
Definition two_streams : probe_data := {|
  pd_format := Some {| fmt_duration := Some 95%Q; fmt_size := Some 2097152%Z |};
  pd_streams := Some
    [ {| codec_type := Some "audio"; width := None; height := None;
         codec_name := Some "aac" |};
      {| codec_type := Some "video"; width := Some 1280%Z; height := Some 720%Z;
         codec_name := Some "h264" |} ]
|}.

(** One upload under the job [j1] of a video whose duration is the numeral
    [seconds]. *)
Definition upload_of (seconds : string) : storage := {|
  uploads := {[ "j1_a.mp4" := EFile {| mtime := 0; data := Raw seconds |} ]};
  outputs := ∅
|}.

(** The JSON number written as the decimal numeral [s]. *)
Definition json_decimal (s : string) : json :=
  match float_of_decimal s with
  | Some f => JFloat f
  | None => JNull
  end.

(** * Properties *)

(** ** File names *)

Lemma append_String c s t : String c s +:+ t = String c (s +:+ t).
Proof. reflexivity. Qed.

Lemma append_empty_l t : EmptyString +:+ t = t.
Proof. reflexivity. Qed.

Lemma rsplit_last_dot_None s :
  rsplit_last_dot s = None <-> contains_dot s = false.
Proof.
  induction s as [|c s IH]; simpl; [done|].
  destruct (rsplit_last_dot s) as [[pre post]|].
  - split; [done|]. intros Hc. destruct (Ascii.eqb c "."); [done|].
    destruct IH as [_ IH]. by specialize (IH Hc).
  - destruct (Ascii.eqb c "."); [done|]. split; [|done]. intros _. by apply IH.
Qed.

Lemma rsplit_last_dot_Some s pre post :
  rsplit_last_dot s = Some (pre, post) ->
  s = pre +:+ "." +:+ post /\ contains_dot post = false.
Proof.
  revert pre post. induction s as [|c s IH]; intros pre post; simpl; [done|].
  destruct (rsplit_last_dot s) as [[pre' post']|] eqn:Hs.
  - intros [= <- <-]. destruct (IH _ _ eq_refl) as [-> Hp]. by rewrite append_String.
  - destruct (Ascii.eqb_spec c "."); [|done].
    intros [= <- <-]. subst c. split; [done|]. by apply rsplit_last_dot_None.
Qed.

Lemma rsplit_last_dot_app pre post :
  contains_dot post = false ->
  rsplit_last_dot (pre +:+ "." +:+ post) = Some (pre, post).
Proof.
  intros Hp. induction pre as [|c pre IH].
  - rewrite append_empty_l, append_String, append_empty_l. simpl.
    apply rsplit_last_dot_None in Hp. by rewrite Hp.
  - rewrite append_String. simpl. by rewrite IH.
Qed.

Lemma contains_dot_app pre post : contains_dot (pre +:+ "." +:+ post) = true.
Proof.
  induction pre as [|c pre IH]; [done|].
  rewrite append_String. simpl. by destruct (Ascii.eqb c ".").
Qed.

(** The extension test in closed form: the name splits at a dot into a
    stem and a dot-free extension whose lower-case form is allowed. *)
Lemma allowed_file_iff filename :
  allowed_file filename = true <->
  exists stem ext,
    filename = stem +:+ "." +:+ ext /\ contains_dot ext = false /\
    lower ext ∈ ALLOWED_EXTENSIONS.
Proof.
  unfold allowed_file, rsplit_dot_1. split.
  - intros [Hd Ha]%andb_true_iff.
    destruct (rsplit_last_dot filename) as [[stem ext]|] eqn:Hs; [|done].
    simpl in Ha. apply bool_decide_eq_true in Ha.
    apply rsplit_last_dot_Some in Hs as [-> Hext]. by exists stem, ext.
  - intros (stem & ext & -> & Hext & Hin).
    rewrite contains_dot_app, (rsplit_last_dot_app _ _ Hext). simpl.
    by apply bool_decide_eq_true.
Qed.

Lemma allowed_file_no_dot filename :
  contains_dot filename = false -> allowed_file filename = false.
Proof. intros Hd. unfold allowed_file. by rewrite Hd. Qed.

Lemma length_append s t :
  String.length (s +:+ t) = (String.length s + String.length t)%nat.
Proof. induction s as [|c s IH]; [done|]. rewrite append_String. simpl. by rewrite IH. Qed.

Lemma append_assoc s t u : s +:+ (t +:+ u) = (s +:+ t) +:+ u.
Proof. induction s as [|c s IH]; [done|]. rewrite !append_String. by rewrite IH. Qed.

Lemma append_inj_r t s1 s2 : s1 +:+ t = s2 +:+ t -> s1 = s2.
Proof.
  revert s2. induction s1 as [|c s1 IH]; intros [|d s2];
    rewrite ?append_String, ?append_empty_l.
  - done.
  - intros Heq. apply (f_equal String.length) in Heq. simpl in Heq.
    rewrite length_append in Heq. lia.
  - intros Heq. apply (f_equal String.length) in Heq. simpl in Heq.
    rewrite length_append in Heq. lia.
  - intros [= -> Heq]. f_equal. by apply IH.
Qed.

(** Reading the digits of [fmt_02d] back gives the number, padded or not. *)
Lemma to_uint_not_Nil n : Nat.to_uint n <> Nil.
Proof.
  intros Hn. pose proof (Unsigned.of_to n) as Hof. rewrite Hn in Hof.
  destruct n as [|n]; [done|]. by vm_compute in Hof.
Qed.

Lemma nat_of_digits_str_of_nat n : nat_of_digits (str_of_nat n) = Some n.
Proof.
  unfold nat_of_digits, str_of_nat.
  rewrite NilZero.usu by apply to_uint_not_Nil. simpl. by rewrite Unsigned.of_to.
Qed.

Lemma nat_of_digits_fmt_02d n : nat_of_digits (fmt_02d n) = Some n.
Proof.
  unfold fmt_02d. destruct (String.length (str_of_nat n) <? 2)%nat.
  - pose proof (nat_of_digits_str_of_nat n) as Hn. unfold nat_of_digits in *.
    destruct (str_of_nat n) as [|c s] eqn:Hs; [done|].
    rewrite append_String, append_empty_l.
    change (NilZero.uint_of_string (String "0" (String c s)))
      with (D0 <$> NilZero.uint_of_string (String c s)).
    destruct (NilZero.uint_of_string (String c s)) as [u|]; [|done].
    simpl in *. by injection Hn as <-.
  - apply nat_of_digits_str_of_nat.
Qed.

Lemma fmt_02d_inj a b : fmt_02d a = fmt_02d b -> a = b.
Proof.
  intros Heq. pose proof (nat_of_digits_fmt_02d a) as Ha.
  rewrite Heq, nat_of_digits_fmt_02d in Ha. by injection Ha.
Qed.

Lemma reel_filename_inj a b : reel_filename a = reel_filename b -> a = b.
Proof.
  unfold reel_filename. intros Heq.
  apply String.app_inj in Heq. apply append_inj_r in Heq. by apply fmt_02d_inj.
Qed.

Lemma fmt_02d_length n : (2 <= String.length (fmt_02d n))%nat.
Proof.
  unfold fmt_02d. destruct (String.length (str_of_nat n) <? 2)%nat eqn:Hl.
  - pose proof (nat_of_digits_str_of_nat n) as Hn.
    destruct (str_of_nat n) as [|c s]; [done|]. rewrite append_String. simpl. lia.
  - apply Nat.ltb_ge in Hl. lia.
Qed.

Lemma fmt_02d_two_digits n : (n < 100)%nat -> String.length (fmt_02d n) = 2%nat.
Proof.
  intros Hn.
  assert (forallb (fun k => (String.length (fmt_02d k) =? 2)%nat) (seq 0 100) = true)
    as Hall by (vm_compute; reflexivity).
  rewrite forallb_forall in Hall. apply Nat.eqb_eq, Hall, in_seq. lia.
Qed.

(** The format pads the numbers below 10 and leaves the others as they
    are. *)
Lemma str_of_nat_length n : (10 <= n)%nat -> (2 <= String.length (str_of_nat n))%nat.
Proof.
  intros Hn. pose proof (nat_of_digits_str_of_nat n) as Hd.
  destruct (str_of_nat n) as [|c [|c' s]]; [done| |simpl; lia].
  assert (forall c k, nat_of_digits (String c EmptyString) = Some k -> (k < 10)%nat)
    as Hone.
  { clear. intros [[] [] [] [] [] [] [] []] k Hk; vm_compute in Hk;
      try discriminate; injection Hk as <-; lia. }
  specialize (Hone c n Hd). lia.
Qed.

Lemma fmt_02d_cases n :
  fmt_02d n = if (n <? 10)%nat then "0" +:+ str_of_nat n else str_of_nat n.
Proof.
  destruct (n <? 10)%nat eqn:Hn.
  - apply Nat.ltb_lt in Hn.
    assert (forallb (fun k => String.eqb (fmt_02d k) ("0" +:+ str_of_nat k)) (seq 0 10)
            = true) as Hall by (vm_compute; reflexivity).
    rewrite forallb_forall in Hall. apply String.eqb_eq, Hall, in_seq. lia.
  - apply Nat.ltb_ge in Hn. unfold fmt_02d.
    pose proof (str_of_nat_length n Hn) as Hl.
    by destruct (Nat.ltb_spec (String.length (str_of_nat n)) 2); [lia|].
Qed.

Lemma endswith_app s t : endswith t (s +:+ t) = true.
Proof.
  unfold endswith.
  assert (forall a b, String.rev (a +:+ b) = String.rev b +:+ String.rev a) as Hrev.
  { intros a b. unfold String.rev. revert b.
    assert (forall a acc b, String.rev_app (a +:+ b) acc
              = String.rev_app b (String.rev_app a acc)) as Hgen.
    { clear. induction a as [|c a IH]; intros acc b; [done|].
      rewrite append_String. simpl. apply IH. }
    assert (forall a acc, String.rev_app a acc = String.rev_app a EmptyString +:+ acc) as Hacc.
    { clear. induction a as [|c a IH]; intros acc; [done|]. simpl.
      rewrite (IH (String c acc)), (IH (String c EmptyString)).
      by rewrite <- append_assoc. }
    intros b. rewrite Hgen. apply Hacc. }
  rewrite Hrev.
  generalize (String.rev t) (String.rev s). clear.
  intros a b. induction a as [|c a IH]; [by destruct b|].
  rewrite append_String. simpl. destruct (ascii_dec c c); [apply IH|done].
Qed.

Lemma reel_filename_mp4 n : endswith ".mp4" (reel_filename n) = true.
Proof.
  unfold reel_filename. rewrite append_assoc. apply endswith_app.
Qed.

(** ** Segment arithmetic *)

Lemma range_length n : length (range n) = Z.to_nat n.
Proof. unfold range. apply length_seq. Qed.

Lemma range_lookup n i : (i < Z.to_nat n)%nat -> range n !! i = Some i.
Proof. intros Hi. unfold range. by rewrite lookup_seq_lt. Qed.

Lemma range_elem n i : i ∈ range n <-> (i < Z.to_nat n)%nat.
Proof. unfold range. rewrite elem_of_seq. lia. Qed.

Lemma range_snoc n :
  (1 <= n)%Z -> range n = range (n - 1) ++ [Z.to_nat (n - 1)].
Proof.
  intros Hn. unfold range.
  replace (Z.to_nat n) with (S (Z.to_nat (n - 1))) by lia.
  by rewrite seq_S.
Qed.


Lemma num_clips_Returned D S n :
  num_clips D S = Returned n <->
  exists q, float_truediv D S = Returned q /\ math_ceil q = Returned n.
Proof.
  unfold num_clips. destruct (float_truediv D S) as [q|e].
  - split; [by eauto|]. by intros (q' & [= <-] & ?).
  - split; [done|]. by intros (q' & ? & _).
Qed.

Lemma math_ceil_Raised x : (exists e, math_ceil x = Raised e) <-> float_value x = None.
Proof.
  unfold math_ceil, float_value. destruct (Prim2SF x) as [s|s| |s m e]; cbn zeta.
  - split; [by intros [? ?]|done].
  - split; [done|by eauto].
  - split; [done|by eauto].
  - split; [by intros [? ?]|done].
Qed.

(** Line 89 raises when the divisor is too large an integer or a zero, or
    when the quotient is infinite or a NaN. *)
Lemma num_clips_Raised D S :
  (exists e, num_clips D S = Raised e) <->
  (exists e, as_float S = Raised e) \/
  (exists b, as_float S = Returned b /\
     (PrimFloat.eqb b 0 = true \/ float_value (PrimFloat.div D b) = None)).
Proof.
  unfold num_clips, float_truediv. destruct (as_float S) as [b|e].
  - destruct (PrimFloat.eqb b 0) eqn:Hz.
    + split; [intros _; right; by eauto|by eauto].
    + rewrite math_ceil_Raised. split; [by eauto|].
      intros [[e ?]|(b' & [= <-] & [?|?])]; [done|congruence|done].
  - split; [by eauto|by eauto].
Qed.

(** The ceiling of a zero, or of a float with the sign bit set, is not
    positive. *)
Lemma math_ceil_sign x n :
  match Prim2SF x with
  | S754_finite s _ _ => s = true
  | _ => True
  end ->
  math_ceil x = Returned n -> (n <= 0)%Z.
Proof.
  unfold math_ceil. destruct (Prim2SF x) as [s|s| |s m e]; try done.
  - intros _ [= <-]. done.
  - intros -> [= <-].
    assert (0 < 2 ^ Z.max (- e) 0)%Z by (apply Z.pow_pos_nonneg; lia).
    assert (0 <= Z.pos m * 2 ^ Z.max e 0)%Z
      by (apply Z.mul_nonneg_nonneg; [lia|apply Z.pow_nonneg; lia]).
    assert (0 <= Z.pos m * 2 ^ Z.max e 0 / 2 ^ Z.max (- e) 0)%Z
      by (apply Z.div_pos; lia).
    lia.
Qed.

Lemma binary_round_aux_sign sx mx ex lx :
  match binary_round_aux prec emax sx mx ex lx with
  | S754_finite s _ _ => s = sx
  | _ => True
  end.
Proof.
  unfold binary_round_aux.
  destruct (shr_fexp prec emax mx ex lx) as [mrs' e'].
  destruct (shr_fexp prec emax _ e' loc_Exact) as [mrs'' e''].
  destruct (shr_m mrs'') as [|m|m]; [done| |done].
  by destruct (e'' <=? emax - prec)%Z.
Qed.

(** A quotient of a float that is not below zero by one that is below zero
    has the sign bit set, when it is finite and not a zero. *)
Lemma div_negative_sign D b :
  PrimFloat.leb 0 D = true -> PrimFloat.ltb b 0 = true ->
  match Prim2SF (PrimFloat.div D b) with
  | S754_finite s _ _ => s = true
  | _ => True
  end.
Proof.
  rewrite leb_spec, ltb_spec, div_spec.
  change (Prim2SF 0) with (S754_zero false).
  unfold SF64div, SFdiv, SFleb, SFltb, SFcompare.
  destruct (Prim2SF D) as [sd|sd| |sd md ed], (Prim2SF b) as [sb|sb| |sb mb eb];
    try done.
  destruct sd; [done|]. destruct sb; [|done]. intros _ _.
  destruct (SFdiv_core_binary _ _ _ _ _ _) as [[mz ez] lz].
  apply binary_round_aux_sign.
Qed.

(** With a negative [split_duration] and a duration that is not negative,
    the count that line 89 returns is not positive. *)
Lemma num_clips_nonpositive D S b n :
  as_float S = Returned b -> PrimFloat.ltb b 0 = true ->
  PrimFloat.leb 0 D = true ->
  num_clips D S = Returned n -> (n <= 0)%Z.
Proof.
  intros Hb Hneg HD (q & Hq & Hceil)%num_clips_Returned.
  unfold float_truediv in Hq. rewrite Hb in Hq.
  destruct (PrimFloat.eqb b 0); [done|]. injection Hq as <-.
  eapply math_ceil_sign; [|done]. by apply div_negative_sign.
Qed.

Lemma cut_Returned D S n i st d :
  cut D S n i = Returned (st, d) <->
  start_time S i = Returned st /\ clip_duration D S n i st = Returned d.
Proof.
  unfold cut. destruct (start_time S i) as [st'|e]; [|split; [done|by intros [? _]]].
  destruct (clip_duration D S n i st') as [d'|e] eqn:Hd.
  - split; [by intros [= <- <-]|]. intros [[= <-] Hd']. congruence.
  - split; [done|]. intros [[= <-] Hd']. congruence.
Qed.

Lemma cut_Raised D S n i e :
  cut D S n i = Raised e <->
  start_time S i = Raised e \/
  exists st, start_time S i = Returned st /\ clip_duration D S n i st = Raised e.
Proof.
  unfold cut. destruct (start_time S i) as [st|e'].
  - destruct (clip_duration D S n i st) as [d|e''] eqn:Hd.
    + split; [done|]. intros [?|(st' & [= <-] & Hd')]; congruence.
    + split; [intros [= <-]; right; eauto|].
      intros [?|(st' & [= <-] & Hd')]; congruence.
  - split; [intros [= <-]; by left|]. intros [[= <-]|(st & ? & _)]; done.
Qed.

(** The start of a cut is an integer for a [bool] or [int]
    [split_duration], and a float for a float. *)
Lemma start_time_int S z i :
  int_of S = Some z -> start_time S i = Returned (NInt (Z.of_nat i * z)).
Proof. by destruct S; intros [= <-]. Qed.

Lemma start_time_float f i st :
  start_time (NFloat f) i = Returned st -> exists a, st = NFloat a.
Proof.
  unfold start_time, int_mul. destruct (float_of_int _); intros [= <-]; eauto.
Qed.

(** The sum for [end] does not raise once the cut has been computed: an
    integer start is converted a second time, with the same result. *)
Lemma add_after_cut D S n i st d :
  cut D S n i = Returned (st, d) -> exists e, add st d = Returned e.
Proof.
  intros [Hst Hd]%cut_Returned. unfold clip_duration, float_sub in Hd.
  destruct (int_of S) as [z|] eqn:Hz.
  - rewrite (start_time_int _ _ _ Hz) in Hst. injection Hst as <-.
    destruct (Z.of_nat i =? n - 1)%Z.
    + cbn [as_float] in Hd. unfold add. cbn [int_of as_float].
      destruct (float_of_int (Z.of_nat i * z)) as [a|]; [|done].
      injection Hd as <-. cbn. eauto.
    + injection Hd as <-. unfold add. cbn [int_of]. rewrite Hz. eauto.
  - destruct S as [b|z|f]; [done..|].
    apply start_time_float in Hst as [a ->].
    destruct (Z.of_nat i =? n - 1)%Z; injection Hd as <-; unfold add; cbn; eauto.
Qed.

Lemma cuts_return_true D S n :
  cuts_return D S n = true <->
  forall i, i ∈ range n -> exists st d, cut D S n i = Returned (st, d).
Proof.
  unfold cuts_return. rewrite forallb_forall. split.
  - intros Hall i Hi%list_elem_of_In. specialize (Hall i Hi).
    destruct (cut D S n i) as [[st d]|]; [eauto|done].
  - intros Hall i Hi%list_elem_of_In. by destruct (Hall i Hi) as (st & d & ->).
Qed.

Lemma forallb_false {A} (p : A -> bool) (l : list A) :
  forallb p l = false -> exists x, x ∈ l /\ p x = false.
Proof.
  induction l as [|x l IH]; [done|]. cbn [forallb].
  destruct (p x) eqn:Hx.
  - intros (y & Hy & Hp)%IH. exists y. split; [by right|done].
  - intros _. exists x. split; [by left|done].
Qed.

Lemma cuts_return_false D S n :
  cuts_return D S n = false <->
  exists i e, i ∈ range n /\ cut D S n i = Raised e.
Proof.
  split.
  - intros (i & Hi & Hc)%forallb_false. exists i.
    destruct (cut D S n i) as [|e]; [done|]. eauto.
  - intros (i & e & Hi & Hc). apply not_true_iff_false.
    rewrite cuts_return_true. intros Hall.
    destruct (Hall i Hi) as (st & d & Hr). congruence.
Qed.

(** ** The retention sweep *)

Lemma cleanup_entry_lookup now folder a k :
  cleanup_entry now folder a !! k =
  if decide (k = a) then folder !! k ≫= kept now else folder !! k.
Proof.
  unfold cleanup_entry, kept. case_decide as Hk.
  - subst k. destruct (folder !! a) as [[f|t ch]|] eqn:Ha; simpl;
      try destruct (older_than_hour _ _); by rewrite ?lookup_delete_eq, ?Ha.
  - destruct (folder !! a) as [[f|t ch]|] eqn:Ha; simpl;
      try destruct (older_than_hour _ _); by rewrite ?lookup_delete_ne.
Qed.

Lemma kept_idem now (o : option entry) :
  (o ≫= kept now) ≫= kept now = o ≫= kept now.
Proof.
  destruct o as [e|]; [|done]. simpl. unfold kept.
  destruct (older_than_hour now (entry_mtime e)) eqn:Ho; [done|]. simpl. by rewrite Ho.
Qed.

Lemma cleanup_names_lookup now names folder k :
  fold_left (cleanup_entry now) names folder !! k =
  if decide (k ∈ names) then folder !! k ≫= kept now else folder !! k.
Proof.
  revert folder. induction names as [|a names IH]; intros folder; cbn [fold_left].
  - destruct (decide (k ∈ [])) as [Hin|_]; [by apply elem_of_nil in Hin|done].
  - rewrite IH, cleanup_entry_lookup.
    destruct (decide (k = a)) as [->|Hka].
    + rewrite kept_idem. rewrite (decide_True (P := a ∈ a :: names)) by left.
      by destruct (decide (a ∈ names)).
    + destruct (decide (k ∈ names)) as [Hin|Hin].
      * by rewrite decide_True by (by right).
      * rewrite decide_False; [done|].
        intros Hc. apply elem_of_cons in Hc. by destruct Hc.
Qed.

(** The sweep of a folder, entry by entry. *)
Lemma cleanup_folder_lookup now folder k :
  cleanup_folder now folder !! k = folder !! k ≫= kept now.
Proof.
  unfold cleanup_folder. rewrite cleanup_names_lookup.
  case_decide as Hin; [done|].
  destruct (folder !! k) as [e|] eqn:Hk; [|done].
  exfalso. apply Hin. unfold listdir. apply list_elem_of_fmap.
  exists (k, e). split; [done|]. by apply elem_of_map_to_list.
Qed.

Lemma older_than_hour_spec now t :
  older_than_hour now t = true <-> (ONE_HOUR < now - t)%Z.
Proof. unfold older_than_hour. apply Z.ltb_lt. Qed.

Lemma older_than_hour_false now t :
  older_than_hour now t = false <-> (now - t <= ONE_HOUR)%Z.
Proof. unfold older_than_hour. apply Z.ltb_ge. Qed.

Lemma cleanup_folder_removed now folder name e :
  folder !! name = Some e -> (ONE_HOUR < now - entry_mtime e)%Z ->
  cleanup_folder now folder !! name = None.
Proof.
  intros He Hold. rewrite cleanup_folder_lookup, He. simpl. unfold kept.
  by apply older_than_hour_spec in Hold as ->.
Qed.

Lemma cleanup_folder_retained now folder name e :
  folder !! name = Some e -> (now - entry_mtime e <= ONE_HOUR)%Z ->
  cleanup_folder now folder !! name = Some e.
Proof.
  intros He Hnew. rewrite cleanup_folder_lookup, He. simpl. unfold kept.
  by apply older_than_hour_false in Hnew as ->.
Qed.

Lemma cleanup_folder_remaining now folder name e :
  cleanup_folder now folder !! name = Some e ->
  folder !! name = Some e /\ (now - entry_mtime e <= ONE_HOUR)%Z.
Proof.
  rewrite cleanup_folder_lookup. destruct (folder !! name) as [e'|]; [|done].
  simpl. unfold kept. destruct (older_than_hour _ _) eqn:Ho; [done|].
  intros [= ->]. split; [done|]. by apply older_than_hour_false.
Qed.

Lemma cleanup_folder_fresh now folder :
  (forall name e, folder !! name = Some e -> (now - entry_mtime e <= ONE_HOUR)%Z) ->
  cleanup_folder now folder = folder.
Proof.
  intros Hall. apply map_eq. intros k. rewrite cleanup_folder_lookup.
  destruct (folder !! k) as [e|] eqn:Hk; [|done]. simpl. unfold kept.
  by rewrite (proj2 (older_than_hour_false _ _) (Hall _ _ Hk)).
Qed.

(** ** The request handlers *)

Section BackendProperties.
Context `{External}.

(** *** [upload_video] and the storage *)

Lemma get_video_info_saved fs name bytes t :
  get_video_info
    (set_uploads fs (<[name := EFile {| mtime := t; data := Raw bytes |}]> (uploads fs)))
    name = ffprobe_info (Raw bytes).
Proof.
  unfold get_video_info, read_upload. simpl. by rewrite lookup_insert_eq.
Qed.

(** The uploads folder after any upload request: what the sweep left, with
    at most the new file added. *)
Lemma upload_video_uploads now fs video uuid name e :
  uploads (upload_video now fs video uuid).1 !! name = Some e ->
  cleanup_folder now (uploads fs) !! name = Some e \/ entry_mtime e = now.
Proof.
  unfold upload_video. destruct video as [file|]; [|by left].
  destruct (String.eqb (up_filename file) EmptyString); [by left|].
  destruct (negb (allowed_file (up_filename file))); [by left|].
  set (key := stored_name uuid file).
  destruct (uploads (cleanup_old_files now fs) !! key) as [[f|t ch]|] eqn:Hkey;
    [|by left|]; rewrite get_video_info_saved;
    (destruct (ffprobe_info _); simpl;
     [ destruct (decide (name = key)) as [->|Hne];
       [ rewrite lookup_insert_eq; intros [= <-]; by right
       | rewrite lookup_insert_ne by done; by left ]
     | destruct (decide (name = key)) as [->|Hne];
       [ by rewrite lookup_delete_eq
       | rewrite lookup_delete_ne, lookup_insert_ne by done; by left ] ]).
Qed.

Lemma upload_video_outputs now fs video uuid :
  outputs (upload_video now fs video uuid).1 = cleanup_folder now (outputs fs).
Proof.
  unfold upload_video. destruct video as [file|]; [|done].
  destruct (String.eqb (up_filename file) EmptyString); [done|].
  destruct (negb (allowed_file (up_filename file))); [done|].
  destruct (uploads (cleanup_old_files now fs) !! _) as [[f|t ch]|]; simpl;
    try done; by destruct (get_video_info _ _).
Qed.

(** C8, as the code has it.  The sweep works on the entries listed directly in the
    two storage folders.  Such an entry whose own modification time is more
    than one hour old is deleted, a directory with everything in it; such an
    entry at most one hour old is kept as it is; what remains was there
    before and is at most one hour old.  Every upload request starts with
    the sweep: after the request no listed entry of either folder is older
    than one hour. *)
Theorem C8_sweep_listed_entries (now : Z) (fs : storage)
    (folder : storage -> gmap string entry) :
  folder = uploads \/ folder = outputs ->
  let before := folder fs in
  let after := folder (cleanup_old_files now fs) in
  (forall name e, before !! name = Some e -> (ONE_HOUR < now - entry_mtime e)%Z ->
     after !! name = None /\ forall x, file_at after (Inside name x) = None) /\
  (forall name e, before !! name = Some e -> (now - entry_mtime e <= ONE_HOUR)%Z ->
     after !! name = Some e) /\
  (forall name e, after !! name = Some e ->
     before !! name = Some e /\ (now - entry_mtime e <= ONE_HOUR)%Z) /\
  (forall video uuid name e,
     folder (upload_video now fs video uuid).1 !! name = Some e ->
     (now - entry_mtime e <= ONE_HOUR)%Z).
Proof.
  intros Hfolder before after.
  assert (after = cleanup_folder now before) as ->
    by (destruct Hfolder as [-> | ->]; reflexivity).
  split.
  { intros name e He Hold.
    pose proof (cleanup_folder_removed now before name e He Hold) as Hgone.
    split; [done|]. intros x. simpl. by rewrite Hgone. }
  split; [intros name e; apply cleanup_folder_retained|].
  split; [intros name e; apply cleanup_folder_remaining|].
  intros video uuid name e Hafter. destruct Hfolder as [-> | ->].
  - apply upload_video_uploads in Hafter as [Hswept | ->].
    + by apply cleanup_folder_remaining in Hswept as [_ ?].
    + unfold ONE_HOUR. lia.
  - rewrite upload_video_outputs in Hafter.
    by apply cleanup_folder_remaining in Hafter as [_ ?].
Qed.

(** *** Rejected and failed uploads *)

Lemma not_allowed_iff filename :
  allowed_file filename = false <->
  (forall stem ext,
     filename = stem +:+ "." +:+ ext -> contains_dot ext = false ->
     lower ext ∉ ALLOWED_EXTENSIONS).
Proof.
  split.
  - intros Hno stem ext Hname Hext Hin.
    assert (allowed_file filename = true) as Hyes
      by (apply allowed_file_iff; by exists stem, ext).
    congruence.
  - intros Hnone. destruct (allowed_file filename) eqn:Ha; [|done].
    apply allowed_file_iff in Ha as (stem & ext & Hname & Hext & Hin).
    by destruct (Hnone stem ext).
Qed.

(** C5, as the code has it.  An upload whose file name has no allowed extension (no
    dot at all, or a part after the last dot that is, in lower case, none of
    mp4, mov, avi, mkv, webm) is answered with 400 and nothing is stored:
    the storage after the request is the storage as the retention sweep
    leaves it, so the uploads folder holds no new entry, and it is
    unchanged when none of its entries is older than one hour. *)
Theorem C5_disallowed_upload_rejected (now : Z) (fs : storage) (file : upload)
    (uuid : string) :
  (forall stem ext,
     up_filename file = stem +:+ "." +:+ ext -> contains_dot ext = false ->
     lower ext ∉ ALLOWED_EXTENSIONS) ->
  let r := upload_video now fs (Some file) uuid in
  status r.2 = 400%Z /\
  r.1 = cleanup_old_files now fs /\
  (forall name e, uploads r.1 !! name = Some e -> uploads fs !! name = Some e) /\
  ((forall name e, uploads fs !! name = Some e ->
      (now - entry_mtime e <= ONE_HOUR)%Z) ->
   uploads r.1 = uploads fs).
Proof.
  intros Hext%not_allowed_iff r.
  assert (status r.2 = 400%Z /\ r.1 = cleanup_old_files now fs) as [Hst Hfs].
  { subst r. unfold upload_video. rewrite Hext. simpl.
    by destruct (String.eqb (up_filename file) EmptyString). }
  split; [done|]. split; [done|]. rewrite Hfs. simpl. split.
  - intros name e Hl. by apply cleanup_folder_remaining in Hl as [? _].
  - apply cleanup_folder_fresh.
Qed.

(** C6, as the code has it.  When the upload passes the checks and is stored, and the
    metadata probe then raises, the handler deletes the stored file and
    answers 500: the stored name is absent afterwards, and when that name
    was free (a fresh job identifier) the uploads folder is exactly what the
    retention sweep left, hence as before the request when no entry was
    older than one hour. *)
Theorem C6_probe_failure_removes_upload (now : Z) (fs : storage) (file : upload)
    (uuid : string) :
  up_filename file <> EmptyString ->
  allowed_file (up_filename file) = true ->
  (forall t ch,
     uploads (cleanup_old_files now fs) !! stored_name uuid file <> Some (EDir t ch)) ->
  ffprobe_info (Raw (up_bytes file)) = None ->
  let r := upload_video now fs (Some file) uuid in
  status r.2 = 500%Z /\
  uploads r.1 !! stored_name uuid file = None /\
  uploads r.1 = delete (stored_name uuid file) (cleanup_folder now (uploads fs)) /\
  outputs r.1 = cleanup_folder now (outputs fs) /\
  (cleanup_folder now (uploads fs) !! stored_name uuid file = None ->
   uploads r.1 = cleanup_folder now (uploads fs)) /\
  (cleanup_folder now (uploads fs) !! stored_name uuid file = None ->
   (forall name e, uploads fs !! name = Some e ->
      (now - entry_mtime e <= ONE_HOUR)%Z) ->
   uploads r.1 = uploads fs).
Proof.
  intros Hname Hallowed Hnodir Hprobe r.
  assert (status r.2 = 500%Z /\
          uploads r.1 = delete (stored_name uuid file) (cleanup_folder now (uploads fs)) /\
          outputs r.1 = cleanup_folder now (outputs fs)) as (Hst & Hup & Hout).
  { subst r. unfold upload_video.
    apply String.eqb_neq in Hname as ->. rewrite Hallowed. simpl.
    destruct (cleanup_folder now (uploads fs) !! stored_name uuid file)
      as [[f|t ch]|] eqn:Hkey.
    - rewrite get_video_info_saved, Hprobe. simpl.
      by rewrite delete_insert_eq.
    - by destruct (Hnodir t ch).
    - rewrite get_video_info_saved, Hprobe. simpl.
      by rewrite delete_insert_eq. }
  split; [done|]. split; [by rewrite Hup, lookup_delete_eq|].
  split; [done|]. split; [done|].
  split.
  - intros Hfree. by rewrite Hup, delete_id.
  - intros Hfree Hfresh. rewrite Hup, delete_id by done.
    by apply cleanup_folder_fresh.
Qed.

(** C10.  [allowed_file] accepts a name exactly when it splits at a dot into
    a stem and a dot-free rest (so the dot is the last one) whose lower-case
    form is in the allowed set; the test therefore ignores case
    ([VIDEO.MP4] passes), and an upload whose name has no dot is answered
    with 400. *)
Theorem C10_extension_check :
  (forall filename,
     allowed_file filename = true <->
     exists stem ext,
       filename = stem +:+ "." +:+ ext /\ contains_dot ext = false /\
       lower ext ∈ ALLOWED_EXTENSIONS) /\
  (forall stem ext ext',
     contains_dot ext = false -> contains_dot ext' = false ->
     lower ext = lower ext' ->
     allowed_file (stem +:+ "." +:+ ext) = allowed_file (stem +:+ "." +:+ ext')) /\
  allowed_file "VIDEO.MP4" = true /\
  (forall now fs file uuid,
     contains_dot (up_filename file) = false ->
     status (upload_video now fs (Some file) uuid).2 = 400%Z).
Proof.
  split; [exact allowed_file_iff|]. split.
  { intros stem ext ext' He He' Hlow. unfold allowed_file, rsplit_dot_1.
    rewrite !contains_dot_app, !rsplit_last_dot_app by done. simpl.
    by rewrite Hlow. }
  split; [by vm_compute|].
  intros now fs file uuid Hdot. unfold upload_video.
  rewrite (allowed_file_no_dot _ Hdot). simpl.
  by destruct (String.eqb (up_filename file) EmptyString).
Qed.

(** *** The loop of [split_video] *)

Lemma run_ffmpeg_uploads fs fs' video_name ss t :
  uploads fs' = uploads fs ->
  run_ffmpeg fs' video_name ss t = run_ffmpeg fs video_name ss t.
Proof. intros Hu. unfold run_ffmpeg, read_upload. by rewrite Hu. Qed.

Lemma job_files_dir fs job_id t ch :
  outputs fs !! job_id = Some (EDir t ch) -> job_files fs job_id = ch.
Proof. intros Hd. unfold job_files. by rewrite Hd. Qed.

Lemma make_clip_after_cut D S n i st d f :
  cut D S n i = Returned (st, d) ->
  exists e,
    add st d = Returned e /\
    make_clip i st d f =
    Returned {| number := i + 1; filename := reel_filename (i + 1);
                start := st; end_ := e; duration := d;
                size_mb := round2 (inject_Z (getsize (data f)) / MB) |}.
Proof.
  intros [e He]%add_after_cut. exists e. split; [done|].
  unfold make_clip. by rewrite He.
Qed.

Lemma made_clip_after_cut D S n i st d f :
  cut D S n i = Returned (st, d) ->
  exists c, make_clip i st d f = Returned c /\ made_clip i st d f = Some c.
Proof.
  intros Hcut. destruct (make_clip_after_cut D S n i st d f Hcut) as (e & _ & Hmk).
  unfold made_clip. rewrite Hmk. eauto.
Qed.

(** An iteration whose arithmetic raises ends the loop where it stands. *)
Lemma split_iteration_raised now video_name D S n job_id fs clips i e :
  cut D S n i = Raised e ->
  split_iteration now video_name D S n job_id (fs, Returned clips) i = (fs, Raised e).
Proof.
  intros [Hst|(st & Hst & Hd)]%cut_Raised; unfold split_iteration; rewrite Hst;
    [done|by rewrite Hd].
Qed.

Lemma split_loop_stuck now video_name D S n job_id l fs e :
  fold_left (split_iteration now video_name D S n job_id) l (fs, Raised e)
  = (fs, Raised e).
Proof. induction l as [|i l IH]; [done|]. cbn [fold_left]. exact IH. Qed.

(** One iteration whose arithmetic returns, from a storage whose job
    directory holds [ch]. *)
Lemma split_iteration_spec now video_name D S n job_id fs clips i t ch st d :
  outputs fs !! job_id = Some (EDir t ch) ->
  cut D S n i = Returned (st, d) ->
  let name := reel_filename (i + 1) in
  let r := run_ffmpeg fs video_name st d in
  let s := split_iteration now video_name D S n job_id (fs, Returned clips) i in
  uploads s.1 = uploads fs /\
  (exists t',
     outputs s.1 !! job_id =
     Some (EDir t' match written r with
                   | Some b => <[name := {| mtime := now; data := Raw b |}]> ch
                   | None => ch
                   end)) /\
  (forall k, k <> job_id -> outputs s.1 !! k = outputs fs !! k) /\
  job_files s.1 job_id !! name = output_after now ch name r /\
  s.2 = Returned
          (clips ++
           match (if (returncode r =? 0)%Z
                  then output_after now ch name r ≫= made_clip i st d
                  else None) with
           | Some c => [c]
           | None => []
           end).
Proof.
  intros Hdir Hcut name r s. subst s. unfold split_iteration.
  pose proof Hcut as [Hst Hd]%cut_Returned. rewrite Hst, Hd.
  fold name. fold r. unfold output_after.
  destruct (written r) as [b|] eqn:Hw.
  - unfold write_output. rewrite Hdir.
    set (fs' := set_outputs fs _).
    assert (outputs fs' !! job_id
            = Some (EDir match ch !! name with Some _ => t | None => now end
                      (<[name := {| mtime := now; data := Raw b |}]> ch))) as Hd'
      by (subst fs'; cbn [outputs set_outputs]; by rewrite lookup_insert_eq).
    assert (job_files fs' job_id !! name = Some {| mtime := now; data := Raw b |})
      as Hf' by (by rewrite (job_files_dir _ _ _ _ Hd'), lookup_insert_eq).
    assert (forall k, k <> job_id -> outputs fs' !! k = outputs fs !! k) as Hother
      by (intros k Hk; subst fs'; cbn [outputs set_outputs]; by rewrite lookup_insert_ne).
    rewrite Hf'.
    destruct (made_clip_after_cut D S n i st d {| mtime := now; data := Raw b |} Hcut)
      as (c & Hmk & Hmade).
    rewrite Hmk. cbn [mbind option_bind]. rewrite Hmade.
    destruct (returncode r =? 0)%Z; cbn [fst snd];
      rewrite ?app_nil_r;
      (split; [reflexivity|]); (split; [eexists; eassumption|]);
      (split; [done|]); by split.
  - rewrite (job_files_dir _ _ _ _ Hdir).
    destruct (ch !! name) as [f|] eqn:Hn.
    + destruct (made_clip_after_cut D S n i st d f Hcut) as (c & Hmk & Hmade).
      rewrite Hmk. cbn [mbind option_bind]. rewrite Hmade.
      destruct (returncode r =? 0)%Z; cbn [fst snd];
        rewrite ?app_nil_r, ?(job_files_dir _ _ _ _ Hdir);
        (split; [reflexivity|]); (split; [eexists; eassumption|]);
        (split; [done|]); by split.
    + destruct (returncode r =? 0)%Z; cbn [fst snd mbind option_bind];
        rewrite ?app_nil_r, ?(job_files_dir _ _ _ _ Hdir);
        (split; [reflexivity|]); (split; [eexists; eassumption|]);
        (split; [done|]); by split.
Qed.

(** The loop over a list of distinct indices whose arithmetic returns,
    started from a storage [fs] that agrees with [fs0] on the uploads and on
    the output files of those indices. *)
Lemma split_loop_spec now video_name D S n job_id fs0 l :
  NoDup l ->
  (forall i, i ∈ l -> exists st d, cut D S n i = Returned (st, d)) ->
  forall fs clips,
    uploads fs = uploads fs0 ->
    (exists t ch, outputs fs !! job_id = Some (EDir t ch)) ->
    (forall i, i ∈ l ->
       job_files fs job_id !! reel_filename (i + 1)
       = job_files fs0 job_id !! reel_filename (i + 1)) ->
    let s :=
      fold_left (split_iteration now video_name D S n job_id) l (fs, Returned clips) in
    s.2 = Returned (clips ++ omap (clip_result now fs0 video_name D S n job_id) l) /\
    uploads s.1 = uploads fs0 /\
    (exists t ch, outputs s.1 !! job_id = Some (EDir t ch)) /\
    (forall k, k <> job_id -> outputs s.1 !! k = outputs fs !! k) /\
    (forall i st d, i ∈ l -> cut D S n i = Returned (st, d) ->
       job_files s.1 job_id !! reel_filename (i + 1)
       = output_after now (job_files fs0 job_id) (reel_filename (i + 1))
           (run_ffmpeg fs0 video_name st d)) /\
    (forall name, (forall i, i ∈ l -> name <> reel_filename (i + 1)) ->
       job_files s.1 job_id !! name = job_files fs job_id !! name).
Proof.
  induction 1 as [|i l Hi Hnd IH]; intros Hcuts fs clips Hup (t & ch & Hdir) Hagree.
  - simpl. rewrite app_nil_r. repeat split; eauto.
    intros i st d Hi. by apply elem_of_nil in Hi.
  - cbn [fold_left].
    destruct (Hcuts i) as (st & d & Hcut); [by left|].
    destruct (split_iteration_spec now video_name D S n job_id fs clips i t ch st d
                Hdir Hcut)
      as (Hup1 & (t1 & Hdir1) & Hother1 & Hfile1 & Hclips1).
    destruct (split_iteration now video_name D S n job_id (fs, Returned clips) i)
      as [fs1 o1] eqn:Hstep.
    cbn [fst snd] in Hup1, Hdir1, Hother1, Hfile1, Hclips1. subst o1.
    rewrite (run_ffmpeg_uploads fs0 fs) in Hdir1, Hfile1 |- * by done.
    assert (job_files fs job_id = ch) as Hch by (by eapply job_files_dir).
    assert (ch !! reel_filename (i + 1)
            = job_files fs0 job_id !! reel_filename (i + 1)) as Hchi
      by (rewrite <- Hch; apply Hagree; left).
    assert (forall name, name <> reel_filename (i + 1) ->
              job_files fs1 job_id !! name = job_files fs job_id !! name) as Hrest.
    { intros name Hne. rewrite (job_files_dir _ _ _ _ Hdir1), Hch.
      destruct (written _); [by rewrite lookup_insert_ne|done]. }
    assert (forall j, j ∈ l -> reel_filename (j + 1) <> reel_filename (i + 1)) as Hdiff.
    { intros j Hj Heq. apply reel_filename_inj in Heq.
      assert (j = i) as -> by lia. done. }
    destruct (IH (fun j Hj => Hcuts j (proj2 (elem_of_cons _ _ _) (or_intror Hj))) fs1
                (clips ++
                 match (if (returncode (run_ffmpeg fs0 video_name st d) =? 0)%Z
                        then output_after now ch (reel_filename (i + 1))
                               (run_ffmpeg fs0 video_name st d) ≫= made_clip i st d
                        else None) with
                 | Some c => [c]
                 | None => []
                 end))
      as (Hc & Hu & Hd & Ho & Hf & Hn).
    { by rewrite Hup1. }
    { eauto. }
    { intros j Hj. rewrite Hrest by by apply Hdiff. apply Hagree. by right. }
    split.
    { rewrite Hc. f_equal. cbn [omap list_omap]. unfold clip_result at 2.
      rewrite Hcut. cbn zeta.
      unfold output_after in *. rewrite <- Hchi.
      rewrite <- app_assoc. f_equal.
      match goal with |- match ?o with _ => _ end ++ _ = _ => by destruct o end. }
    split; [done|]. split; [done|].
    split; [intros k Hk; by rewrite Ho, Hother1|].
    split.
    { intros j st' d' [->|Hj]%elem_of_cons Hcut'; [|by apply Hf].
      rewrite Hcut in Hcut'. injection Hcut' as <- <-.
      rewrite Hn by (intros j Hj; apply not_eq_sym; by apply Hdiff).
      rewrite Hfile1. unfold output_after. by rewrite Hchi. }
    intros name Hname. rewrite Hn by (intros j Hj; apply Hname; by right).
    apply Hrest, Hname. by left.
Qed.

(** One iteration, whatever its arithmetic does: what it leaves alone. *)
Lemma split_iteration_frame now video_name D S n job_id fs o i :
  (exists t ch, outputs fs !! job_id = Some (EDir t ch)) ->
  let s := split_iteration now video_name D S n job_id (fs, o) i in
  uploads s.1 = uploads fs /\
  (exists t ch, outputs s.1 !! job_id = Some (EDir t ch)) /\
  (forall k, k <> job_id -> outputs s.1 !! k = outputs fs !! k) /\
  (forall name f, job_files fs job_id !! name = Some f ->
     is_Some (job_files s.1 job_id !! name)).
Proof.
  intros (t & ch & Hdir) s. subst s.
  destruct o as [clips|e]; [|cbn; by eauto 10].
  destruct (cut D S n i) as [[st d]|e] eqn:Hcut.
  2:{ rewrite (split_iteration_raised _ _ _ _ _ _ _ _ _ _ Hcut). cbn. by eauto 10. }
  destruct (split_iteration_spec now video_name D S n job_id fs clips i t ch st d
              Hdir Hcut) as (Hu & (t' & Hd') & Ho & _ & _).
  split; [done|]. split; [by eauto|]. split; [done|].
  intros name f Hf. rewrite (job_files_dir _ _ _ _ Hdir) in Hf.
  rewrite (job_files_dir _ _ _ _ Hd').
  destruct (written _) as [b|]; [|by eauto].
  destruct (decide (name = reel_filename (i + 1))) as [->|Hne].
  - rewrite lookup_insert_eq. eauto.
  - rewrite lookup_insert_ne by done. eauto.
Qed.

Lemma split_loop_frame now video_name D S n job_id l :
  forall fs o,
    (exists t ch, outputs fs !! job_id = Some (EDir t ch)) ->
    let s := fold_left (split_iteration now video_name D S n job_id) l (fs, o) in
    uploads s.1 = uploads fs /\
    (exists t ch, outputs s.1 !! job_id = Some (EDir t ch)) /\
    (forall k, k <> job_id -> outputs s.1 !! k = outputs fs !! k) /\
    (forall name f, job_files fs job_id !! name = Some f ->
       is_Some (job_files s.1 job_id !! name)).
Proof.
  induction l as [|i l IH]; intros fs o Hdir; [cbn; by eauto 10|].
  cbn [fold_left].
  destruct (split_iteration_frame now video_name D S n job_id fs o i Hdir)
    as (Hu & Hd & Ho & Hm).
  destruct (split_iteration now video_name D S n job_id (fs, o) i) as [fs1 o1].
  cbn [fst] in Hu, Hd, Ho, Hm.
  destruct (IH fs1 o1 Hd) as (Hu' & Hd' & Ho' & Hm').
  split; [congruence|]. split; [done|].
  split; [intros k Hk; by rewrite Ho', Ho|].
  intros name f Hf. destruct (Hm name f Hf) as [f1 Hf1]. by eapply Hm'.
Qed.

(** The loop raises as soon as the arithmetic of one of its iterations
    does. *)
Lemma split_loop_raises now video_name D S n job_id l :
  forall fs clips,
    (exists i e, i ∈ l /\ cut D S n i = Raised e) ->
    exists e,
      (fold_left (split_iteration now video_name D S n job_id) l
         (fs, Returned clips)).2 = Raised e.
Proof.
  induction l as [|i l IH]; intros fs clips (j & e & Hj & Hcut).
  { by apply elem_of_nil in Hj. }
  cbn [fold_left]. destruct (cut D S n i) as [[st d]|e'] eqn:Hi.
  - assert (j ∈ l) as Hjl.
    { apply elem_of_cons in Hj as [->|Hj]; [congruence|done]. }
    assert (exists fs1 clips1,
              split_iteration now video_name D S n job_id (fs, Returned clips) i
              = (fs1, Returned clips1)) as (fs1 & clips1 & ->).
    { pose proof Hi as [Hst Hd]%cut_Returned. unfold split_iteration.
      rewrite Hst, Hd. cbn zeta.
      destruct (returncode _ =? 0)%Z; [|by eauto].
      destruct (job_files _ _ !! _) as [f|]; [|by eauto].
      destruct (made_clip_after_cut D S n i st d f Hi) as (c & -> & _). eauto. }
    apply IH. eauto.
  - rewrite (split_iteration_raised _ _ _ _ _ _ _ _ _ _ Hi), split_loop_stuck.
    eauto.
Qed.

(** *** [split_video] as a whole *)

Lemma makedirs_output_spec now fs job_id fs1 :
  makedirs_output now fs job_id = Returned fs1 ->
  uploads fs1 = uploads fs /\
  (exists t ch, outputs fs1 !! job_id = Some (EDir t ch)) /\
  job_files fs1 job_id = job_files fs job_id /\
  (forall k, k <> job_id -> outputs fs1 !! k = outputs fs !! k).
Proof.
  unfold makedirs_output, job_files.
  destruct (outputs fs !! job_id) as [[f|t ch]|] eqn:Hj; intros [= <-].
  - rewrite Hj. eauto 10.
  - cbn [uploads outputs set_outputs]. rewrite lookup_insert_eq.
    repeat split; eauto. intros k Hk. by rewrite lookup_insert_ne.
Qed.

Lemma get_video_duration_uploads fs fs' video_name :
  uploads fs' = uploads fs ->
  get_video_duration fs' video_name = get_video_duration fs video_name.
Proof. intros Hu. unfold get_video_duration, read_upload. by rewrite Hu. Qed.

Lemma range_NoDup n : NoDup (range n).
Proof. apply NoDup_seq. Qed.

(** [split_video] past the directory and the probe: the arithmetic and
    the loop, from the storage [fs1] that [os.makedirs] left. *)
Lemma split_video_unfold now fs video_name split_duration job_id fs1 D :
  makedirs_output now fs job_id = Returned fs1 ->
  get_video_duration fs video_name = Some D ->
  split_video now fs video_name split_duration job_id =
  match as_number split_duration with
  | None =>
      (fs1, Raised ("unsupported operand type(s) for /: 'float' and '"
                    +:+ type_name split_duration +:+ "'"))
  | Some sd =>
      match num_clips D sd with
      | Raised e => (fs1, Raised e)
      | Returned n =>
          match
            fold_left (split_iteration now video_name D sd n job_id) (range n)
              (fs1, Returned [])
          with
          | (fs2, Raised e) => (fs2, Raised e)
          | (fs2, Returned clips_info) => (fs2, Returned (clips_info, job_id))
          end
      end
  end.
Proof.
  intros Hmk Hprobe. unfold split_video. rewrite Hmk.
  destruct (makedirs_output_spec _ _ _ _ Hmk) as (Hu1 & _).
  by rewrite (get_video_duration_uploads fs fs1), Hprobe.
Qed.

Lemma makedirs_output_nofile now fs job_id :
  (forall f, outputs fs !! job_id <> Some (EFile f)) ->
  exists fs1, makedirs_output now fs job_id = Returned fs1.
Proof.
  intros Hnofile. unfold makedirs_output.
  destruct (outputs fs !! job_id) as [[f|t ch]|] eqn:Hj; [|by eauto..].
  by destruct (Hnofile f).
Qed.

Lemma split_video_returns now fs video_name split_duration job_id D S n :
  (forall f, outputs fs !! job_id <> Some (EFile f)) ->
  get_video_duration fs video_name = Some D ->
  split_arithmetic D split_duration S n ->
  exists fs2 clips,
    split_video now fs video_name split_duration job_id
    = (fs2, Returned (clips, job_id)) /\
    split_effect now fs video_name D S n job_id fs2 clips.
Proof.
  intros Hnofile Hprobe (HS & Hn & Hcuts).
  destruct (makedirs_output_nofile now fs job_id Hnofile) as [fs1 Hmk].
  rewrite (split_video_unfold _ _ _ _ _ _ _ Hmk Hprobe), HS, Hn.
  destruct (makedirs_output_spec _ _ _ _ Hmk) as (Hu1 & Hd1 & Hj1 & Ho1).
  assert (forall i, i ∈ range n ->
            job_files fs1 job_id !! reel_filename (i + 1)
            = job_files fs job_id !! reel_filename (i + 1)) as Hagree
    by (intros i _; by rewrite Hj1).
  pose proof (split_loop_spec now video_name D S n job_id fs (range n)
                (range_NoDup _) (proj1 (cuts_return_true D S n) Hcuts)
                fs1 [] Hu1 Hd1 Hagree) as Hloop.
  destruct (fold_left _ _ _) as [fs2 o].
  cbn [fst snd app] in Hloop. destruct Hloop as (-> & Hu & Hd & Ho & Hf & Hm).
  eexists fs2, _. split; [done|]. unfold split_effect.
  split; [done|]. split; [done|]. split; [done|].
  split; [intros k Hk; by rewrite Ho, Ho1|].
  split; [done|]. intros name Hname. by rewrite Hm, Hj1.
Qed.

Lemma split_arithmetic_or_raises D split_duration :
  split_arithmetic_raises D split_duration \/
  exists S n, split_arithmetic D split_duration S n.
Proof.
  unfold split_arithmetic_raises, split_arithmetic.
  destruct (as_number split_duration) as [S|]; [|by left; left].
  destruct (num_clips D S) as [n|e] eqn:Hn; [|by left; right; eauto 10].
  destruct (cuts_return D S n) eqn:Hc; [right; by eauto 10|].
  left; right. eauto 10.
Qed.

Lemma split_arithmetic_not_both D split_duration S n :
  split_arithmetic D split_duration S n ->
  ~ split_arithmetic_raises D split_duration.
Proof.
  intros (HS & Hn & Hc) [Hnone | (S' & HS' & [[e He] | (n' & Hn' & Hc')])];
    congruence.
Qed.

(** When the arithmetic raises, [split_video] raises, having made the
    directory and perhaps run some iterations. *)
Lemma split_video_arithmetic_raises now fs video_name split_duration job_id D :
  (forall f, outputs fs !! job_id <> Some (EFile f)) ->
  get_video_duration fs video_name = Some D ->
  split_arithmetic_raises D split_duration ->
  exists fs2 e,
    split_video now fs video_name split_duration job_id = (fs2, Raised e) /\
    uploads fs2 = uploads fs /\
    (exists t ch, outputs fs2 !! job_id = Some (EDir t ch)) /\
    (forall k, k <> job_id -> outputs fs2 !! k = outputs fs !! k).
Proof.
  intros Hnofile Hprobe Hraises.
  destruct (makedirs_output_nofile now fs job_id Hnofile) as [fs1 Hmk].
  rewrite (split_video_unfold _ _ _ _ _ _ _ Hmk Hprobe).
  destruct (makedirs_output_spec _ _ _ _ Hmk) as (Hu1 & Hd1 & Hj1 & Ho1).
  destruct Hraises as [-> | (S & -> & [[e ->] | (n & -> & Hc)])]; [by eauto 10..|].
  apply cuts_return_false in Hc.
  destruct (split_loop_raises now video_name D S n job_id (range n) fs1 [] Hc)
    as [e He].
  destruct (split_loop_frame now video_name D S n job_id (range n) fs1
              (Returned []) Hd1) as (Hu & Hd & Ho & _).
  destruct (fold_left _ _ _) as [fs2 o]. cbn [fst snd] in He, Hu, Hd, Ho.
  subst o. exists fs2, e. split; [done|]. split; [congruence|]. split; [done|].
  intros k Hk. by rewrite Ho, Ho1.
Qed.

Lemma split_video_inv now fs video_name split_duration job_id fs2 clips out :
  split_video now fs video_name split_duration job_id = (fs2, Returned (clips, out)) ->
  out = job_id /\
  (forall f, outputs fs !! job_id <> Some (EFile f)) /\
  exists D S n,
    get_video_duration fs video_name = Some D /\
    split_arithmetic D split_duration S n /\
    split_effect now fs video_name D S n job_id fs2 clips.
Proof.
  intros Hsv.
  assert (forall f, outputs fs !! job_id <> Some (EFile f)) as Hnofile.
  { intros f Hf. unfold split_video, makedirs_output in Hsv. by rewrite Hf in Hsv. }
  destruct (get_video_duration fs video_name) as [D|] eqn:Hprobe.
  2:{ unfold split_video in Hsv.
      destruct (makedirs_output now fs job_id) as [fs1|e] eqn:Hmk; [|done].
      destruct (makedirs_output_spec _ _ _ _ Hmk) as (Hu1 & _).
      by rewrite (get_video_duration_uploads fs fs1), Hprobe in Hsv. }
  destruct (split_arithmetic_or_raises D split_duration) as [Hraises|(S & n & Har)].
  { destruct (split_video_arithmetic_raises now fs video_name split_duration job_id D
                Hnofile Hprobe Hraises) as (fs2' & e & Heq & _). congruence. }
  destruct (split_video_returns now fs video_name split_duration job_id D S n
              Hnofile Hprobe Har) as (fs2' & clips' & Heq & Heff).
  rewrite Heq in Hsv. injection Hsv as <- <- <-. eauto 10.
Qed.

(** *** [create_zip] and [split_video_endpoint] *)

Lemma zip_path_ne job_id : job_id +:+ ".zip" <> job_id.
Proof.
  intros Heq. apply (f_equal String.length) in Heq.
  rewrite length_append in Heq. simpl in Heq. lia.
Qed.

Lemma create_zip_spec now fs job_id t ch :
  outputs fs !! job_id = Some (EDir t ch) ->
  create_zip now fs job_id job_id =
  match outputs fs !! (job_id +:+ ".zip") with
  | Some (EDir _ _) => (fs, Raised "IsADirectoryError")
  | _ =>
      (set_outputs fs
         (<[job_id +:+ ".zip" :=
              EFile {| mtime := now; data := Archive (zip_members ch) |}]> (outputs fs)),
       Returned (job_id +:+ ".zip"))
  end.
Proof.
  intros Hdir. unfold create_zip.
  assert (forall ms,
            outputs (set_outputs fs
                       (<[job_id +:+ ".zip" :=
                            EFile {| mtime := now; data := Archive ms |}]> (outputs fs)))
              !! job_id = Some (EDir t ch)) as Hkeep.
  { intros ms. cbn [outputs set_outputs].
    rewrite lookup_insert_ne by apply zip_path_ne. exact Hdir. }
  destruct (outputs fs !! (job_id +:+ ".zip")) as [[f|t' ch']|];
    [by rewrite Hkeep|done|by rewrite Hkeep].
Qed.


Lemma split_video_frame now fs video_name split_duration job_id :
  let r := split_video now fs video_name split_duration job_id in
  uploads r.1 = uploads fs /\
  (forall k, k <> job_id -> outputs r.1 !! k = outputs fs !! k) /\
  (forall name f, job_files fs job_id !! name = Some f ->
     is_Some (job_files r.1 job_id !! name)) /\
  ((forall f, outputs fs !! job_id <> Some (EFile f)) ->
   exists t ch, outputs r.1 !! job_id = Some (EDir t ch)) /\
  (forall f, outputs fs !! job_id = Some (EFile f) -> r.1 = fs).
Proof.
  intros r. subst r.
  destruct (makedirs_output now fs job_id) as [fs1|e] eqn:Hmk.
  2:{ unfold split_video. rewrite Hmk. cbn [fst].
      unfold makedirs_output in Hmk.
      destruct (outputs fs !! job_id) as [[f|t ch]|] eqn:Hj; try done.
      split; [done|]. split; [done|]. split; [by eauto|].
      split; [|done]. intros Hno. by destruct (Hno f). }
  destruct (makedirs_output_spec _ _ _ _ Hmk) as (Hu1 & Hd1 & Hj1 & Ho1).
  assert (forall f, outputs fs !! job_id = Some (EFile f) ->
            (split_video now fs video_name split_duration job_id).1 = fs) as Hfile.
  { intros f Hf. unfold makedirs_output in Hmk. by rewrite Hf in Hmk. }
  assert (forall fs2,
            uploads fs2 = uploads fs1 ->
            (exists t ch, outputs fs2 !! job_id = Some (EDir t ch)) ->
            (forall k, k <> job_id -> outputs fs2 !! k = outputs fs1 !! k) ->
            (forall name f, job_files fs1 job_id !! name = Some f ->
               is_Some (job_files fs2 job_id !! name)) ->
            (split_video now fs video_name split_duration job_id).1 = fs2 ->
            uploads (split_video now fs video_name split_duration job_id).1
            = uploads fs /\
            (forall k, k <> job_id ->
               outputs (split_video now fs video_name split_duration job_id).1 !! k
               = outputs fs !! k) /\
            (forall name f, job_files fs job_id !! name = Some f ->
               is_Some (job_files
                          (split_video now fs video_name split_duration job_id).1
                          job_id !! name)) /\
            ((forall f, outputs fs !! job_id <> Some (EFile f)) ->
             exists t ch,
               outputs (split_video now fs video_name split_duration job_id).1
                 !! job_id = Some (EDir t ch)) /\
            (forall f, outputs fs !! job_id = Some (EFile f) ->
               (split_video now fs video_name split_duration job_id).1 = fs))
    as Hstop.
  { intros fs2 Hu Hd Ho Hm Heq. rewrite Heq. split; [congruence|].
    split; [intros k Hk; by rewrite Ho, Ho1|].
    split; [intros name f Hf; apply (Hm name f); by rewrite Hj1|].
    split; [done|]. intros f Hf. rewrite <- Heq. by apply (Hfile f). }
  assert (forall name f, job_files fs1 job_id !! name = Some f ->
            is_Some (job_files fs1 job_id !! name)) as Hsame by eauto.
  destruct (get_video_duration fs video_name) as [D|] eqn:Hprobe.
  2:{ apply (Hstop fs1); try done. unfold split_video.
      by rewrite Hmk, (get_video_duration_uploads fs fs1), Hprobe. }
  pose proof (split_video_unfold now fs video_name split_duration job_id fs1 D
                Hmk Hprobe) as Heq.
  destruct (as_number split_duration) as [sd|];
    [|apply (Hstop fs1); try done; by rewrite Heq].
  destruct (num_clips D sd) as [n|e];
    [|apply (Hstop fs1); try done; by rewrite Heq].
  destruct (split_loop_frame now video_name D sd n job_id (range n) fs1
              (Returned []) Hd1) as (Hu & Hd & Ho & Hm).
  destruct (fold_left _ _ _) as [fs2 [clips|e]]; cbn [fst] in Hu, Hd, Ho, Hm;
    apply (Hstop fs2); try done; by rewrite Heq.
Qed.

Lemma split_endpoint_found now fs req job_id video_name :
  job_found fs req job_id video_name ->
  split_video_endpoint now fs req =
  match split_video now fs video_name (default (JInt 30) (req_split_duration req))
          job_id with
  | (fs1, Raised e) => (fs1, error_response 500 ("Failed to split video: " +:+ e))
  | (fs1, Returned (clips_info, output_dir)) =>
      match create_zip now fs1 output_dir job_id with
      | (fs2, Raised e) => (fs2, error_response 500 ("Failed to split video: " +:+ e))
      | (fs2, Returned zip_path) =>
          match outputs fs2 !! zip_path with
          | Some (EFile z) =>
              (fs2, {| status := 200;
                       payload :=
                         SplitBody true job_id clips_info (length clips_info)
                           (round2 (inject_Z (getsize (data z)) / MB))
                           ("/download/" +:+ job_id) |})
          | _ => (fs2, error_response 500 "Failed to split video: getsize")
          end
      end
  end.
Proof.
  intros (Hreq & Hne & Hhead). unfold split_video_endpoint. rewrite Hreq.
  destruct job_id as [|c job_id]; [done|].
  destruct (List.filter _ _) as [|v rest]; [done|].
  by injection Hhead as ->.
Qed.

Lemma split_endpoint_not_found now now' fs req :
  (forall job_id video_name, ~ job_found fs req job_id video_name) ->
  split_video_endpoint now fs req = split_video_endpoint now' fs req /\
  (split_video_endpoint now fs req).1 = fs.
Proof.
  intros Hnone. unfold split_video_endpoint.
  destruct (req_job_id req) as [[|c job_id]|] eqn:Hreq; [done| |done].
  destruct (List.filter _ _) as [|v rest] eqn:Hfilter; [done|].
  destruct (Hnone (String c job_id) v). unfold job_found. by rewrite Hfilter.
Qed.

Lemma job_found_or_not fs req :
  (exists job_id video_name, job_found fs req job_id video_name) \/
  (forall job_id video_name, ~ job_found fs req job_id video_name).
Proof.
  unfold job_found.
  destruct (req_job_id req) as [[|c j]|];
    [right; by intros ?? ([= <-] & ? & _)| |right; by intros ?? (? & _)].
  destruct (head (List.filter (String.prefix (String c j)) (listdir (uploads fs))))
    as [v|] eqn:Hhead.
  - left. by exists (String c j), v.
  - right. intros job_id video_name ([= <-] & _ & Hh). congruence.
Qed.


(** A successful [/split]: the answer and the storage it leaves. *)
Lemma split_endpoint_ok now fs req job_id video_name D S n :
  job_found fs req job_id video_name ->
  (forall f, outputs fs !! job_id <> Some (EFile f)) ->
  get_video_duration fs video_name = Some D ->
  split_arithmetic D (default (JInt 30) (req_split_duration req)) S n ->
  (forall t ch, outputs fs !! (job_id +:+ ".zip") <> Some (EDir t ch)) ->
  exists fs1 clips t ch zip_size_mb,
    split_effect now fs video_name D S n job_id fs1 clips /\
    outputs fs1 !! job_id = Some (EDir t ch) /\
    split_video_endpoint now fs req =
    (set_outputs fs1
       (<[job_id +:+ ".zip" :=
            EFile {| mtime := now; data := Archive (zip_members ch) |}]> (outputs fs1)),
     {| status := 200;
        payload := SplitBody true job_id clips (length clips) zip_size_mb
                     ("/download/" +:+ job_id) |}).
Proof.
  intros Hfound Hnofile Hprobe Har Hzip.
  rewrite (split_endpoint_found _ _ _ _ _ Hfound).
  destruct (split_video_returns now fs video_name _ job_id D S n Hnofile Hprobe Har)
    as (fs1 & clips & -> & Heff).
  pose proof Heff as (_ & _ & (t & ch & Hdir) & Hother & _).
  rewrite (create_zip_spec _ _ _ _ _ Hdir), Hother by apply zip_path_ne.
  exists fs1, clips, t, ch.
  destruct (outputs fs !! (job_id +:+ ".zip")) as [[f|t' ch']|] eqn:Hz;
    [|by destruct (Hzip t' ch')|];
    cbn [outputs set_outputs]; rewrite lookup_insert_eq; eauto.
Qed.

(** Conversely, a 200 answer or an answer with clips comes from that path. *)
Lemma split_endpoint_ok_inv now fs req :
  is_Some (response_clips (split_video_endpoint now fs req).2) ->
  exists job_id video_name D S n,
    job_found fs req job_id video_name /\
    (forall f, outputs fs !! job_id <> Some (EFile f)) /\
    get_video_duration fs video_name = Some D /\
    split_arithmetic D (default (JInt 30) (req_split_duration req)) S n /\
    (forall t ch, outputs fs !! (job_id +:+ ".zip") <> Some (EDir t ch)).
Proof.
  intros Hclips.
  destruct (req_job_id req) as [[|c job_id]|] eqn:Hreq;
    [by unfold split_video_endpoint in Hclips; rewrite Hreq in Hclips;
        destruct Hclips
    | | by unfold split_video_endpoint in Hclips; rewrite Hreq in Hclips;
           destruct Hclips].
  destruct (head (List.filter (String.prefix (String c job_id)) (listdir (uploads fs))))
    as [video_name|] eqn:Hhead.
  2:{ unfold split_video_endpoint in Hclips. rewrite Hreq in Hclips.
      destruct (List.filter _ _); [by destruct Hclips|done]. }
  assert (job_found fs req (String c job_id) video_name) as Hfound by done.
  rewrite (split_endpoint_found _ _ _ _ _ Hfound) in Hclips.
  destruct (split_video _ _ _ _ _) as [fs1 [[clips out]|e]] eqn:Hsv;
    [|by destruct Hclips].
  apply split_video_inv in Hsv as (-> & Hnofile & D & S & n & Hprobe & Har & Heff).
  exists (String c job_id), video_name, D, S, n. do 4 (split; [done|]).
  intros t' ch' Hz.
  pose proof Heff as (_ & _ & (t & ch & Hdir) & Hother & _).
  rewrite (create_zip_spec _ _ _ _ _ Hdir), Hother, Hz in Hclips
    by apply zip_path_ne.
  by destruct Hclips.
Qed.

(** *** The clips of a split *)

Lemma clip_result_Some now fs video_name D S n job_id i c :
  clip_result now fs video_name D S n job_id i = Some c <->
  exists st d f,
    cut D S n i = Returned (st, d) /\
    returncode (run_ffmpeg fs video_name st d) = 0%Z /\
    output_after now (job_files fs job_id) (reel_filename (i + 1))
      (run_ffmpeg fs video_name st d) = Some f /\
    make_clip i st d f = Returned c.
Proof.
  unfold clip_result. destruct (cut D S n i) as [[st d]|e] eqn:Hcut.
  2:{ split; [done|]. by intros (? & ? & ? & ? & _). }
  cbn zeta. destruct (returncode _ =? 0)%Z eqn:Hrc.
  - apply Z.eqb_eq in Hrc. destruct (output_after _ _ _ _) as [f|] eqn:Hf;
      cbn [mbind option_bind].
    + destruct (made_clip_after_cut D S n i st d f Hcut) as (c' & Hmk & ->).
      split.
      * intros [= <-]. eauto 10.
      * intros (st' & d' & f' & [= <- <-] & _ & Hf' & Hmk'). congruence.
    + split; [done|]. intros (st' & d' & f' & [= <- <-] & _ & Hf' & _). congruence.
  - apply Z.eqb_neq in Hrc. split; [done|].
    intros (st' & d' & f' & [= <- <-] & ? & _). done.
Qed.

Lemma sorted_lookup_lt (l : list nat) j k a b :
  StronglySorted lt l -> l !! j = Some a -> l !! k = Some b -> (j < k)%nat ->
  (a < b)%nat.
Proof.
  intros Hsorted. revert j k. induction Hsorted as [|x l Hsorted IH Hall];
    intros j k Ha Hb Hjk; [done|].
  destruct k as [|k]; [lia|]. destruct j as [|j]; simpl in Ha, Hb.
  - injection Ha as ->. rewrite Forall_forall in Hall.
    apply Hall. by eapply list_elem_of_lookup_2.
  - apply (IH j k); [done..|lia].
Qed.

Lemma seq_sorted a m : StronglySorted lt (seq a m).
Proof.
  revert a. induction m as [|m IH]; intros a; simpl; constructor; [apply IH|].
  apply Forall_forall. intros x Hx%elem_of_seq. lia.
Qed.

Lemma omap_numbers_sorted (f : nat -> option clip) l :
  (forall i c, f i = Some c -> number c = (i + 1)%nat) ->
  StronglySorted lt l ->
  StronglySorted lt (number <$> omap f l).
Proof.
  intros Hnum. induction 1 as [|i l Hsorted IH Hall]; [constructor|].
  cbn [omap list_omap]. destruct (f i) as [c|] eqn:Hc; [|exact IH].
  cbn [fmap list_fmap]. constructor; [exact IH|].
  apply Forall_forall. intros x (c' & -> & Hin)%list_elem_of_fmap.
  apply list_elem_of_omap in Hin as (i' & Hi' & Hc').
  rewrite Forall_forall in Hall. specialize (Hall i' Hi').
  rewrite (Hnum _ _ Hc), (Hnum _ _ Hc'). lia.
Qed.


(** The record of one clip against the loop index it was made in. *)
Lemma make_clip_consistent i st d f c :
  make_clip i st d f = Returned c ->
  number c = (i + 1)%nat /\
  start c = st /\ duration c = d /\
  add (start c) (duration c) = Returned (end_ c) /\
  filename c = reel_filename (number c).
Proof.
  unfold make_clip. destruct (add st d) as [e|] eqn:He; [|done].
  intros [= <-]. by cbn.
Qed.

(** C3.  For a [/split] request that finds its upload, reads its duration,
    computes its cuts and can write its outputs, the answer is 200 whatever
    the individual [ffmpeg] runs do, and the clip of segment [i] is in the
    returned list exactly when the run for that segment returned 0 and its
    output file exists after the run; every returned clip is such a
    segment, so a segment whose extraction fails is left out without
    failing the request. *)
Theorem C3_clips_are_successful_extractions (now : Z) (fs : storage)
    (req : split_request) (job_id video_name : string) (D : float) (S : pynum)
    (n : Z) :
  job_found fs req job_id video_name ->
  (forall f, outputs fs !! job_id <> Some (EFile f)) ->
  get_video_duration fs video_name = Some D ->
  split_arithmetic D (default (JInt 30) (req_split_duration req)) S n ->
  (forall t ch, outputs fs !! (job_id +:+ ".zip") <> Some (EDir t ch)) ->
  let ran st d := run_ffmpeg fs video_name st d in
  let on_disk i st d :=
    output_after now (job_files fs job_id) (reel_filename (i + 1)) (ran st d) in
  let r := (split_video_endpoint now fs req).2 in
  status r = 200%Z /\
  exists clips,
    response_clips r = Some clips /\
    (forall i, (i < Z.to_nat n)%nat ->
       exists st d,
         cut D S n i = Returned (st, d) /\
         ((exists c, c ∈ clips /\ number c = (i + 1)%nat) <->
          (returncode (ran st d) = 0%Z /\ is_Some (on_disk i st d)))) /\
    (forall c, c ∈ clips ->
       exists i st d f,
         (i < Z.to_nat n)%nat /\ cut D S n i = Returned (st, d) /\
         returncode (ran st d) = 0%Z /\ on_disk i st d = Some f /\
         make_clip i st d f = Returned c).
Proof.
  intros Hfound Hnofile Hprobe Har Hzip ran on_disk r.
  destruct (split_endpoint_ok now fs req job_id video_name D S n
              Hfound Hnofile Hprobe Har Hzip)
    as (fs1 & clips & t & ch & zsize & (Hclips & _) & _ & Hresp).
  subst r. rewrite Hresp. cbn [snd status response_clips payload].
  split; [done|]. exists clips. split; [done|].
  destruct Har as (_ & _ & Hcuts). rewrite cuts_return_true in Hcuts. split.
  - intros i Hi. destruct (Hcuts i) as (st & d & Hcut); [by apply range_elem|].
    exists st, d. split; [done|]. split.
    + intros (c & Hc & Hnum). rewrite Hclips in Hc.
      apply list_elem_of_omap in Hc as (i' & _ & Hres).
      apply clip_result_Some in Hres as (st' & d' & f & Hcut' & Hrc & Hf & Hmk).
      apply make_clip_consistent in Hmk as (Hnum' & _).
      assert (i' = i) as -> by lia.
      rewrite Hcut in Hcut'. injection Hcut' as <- <-.
      split; [done|]. by exists f.
    + intros (Hrc & f & Hf).
      destruct (made_clip_after_cut D S n i st d f Hcut) as (c & Hmk & _).
      exists c. split; [|by apply make_clip_consistent in Hmk as (? & _)].
      rewrite Hclips. apply list_elem_of_omap. exists i.
      split; [by apply range_elem|]. apply clip_result_Some. eauto 10.
  - intros c Hc. rewrite Hclips in Hc.
    apply list_elem_of_omap in Hc as (i & Hi%range_elem & Hres).
    apply clip_result_Some in Hres as (st & d & f & Hcut & Hrc & Hf & Hmk).
    eauto 10.
Qed.

Lemma split_clips_consistent now fs video_name D S n job_id :
  let clips := omap (clip_result now fs video_name D S n job_id) (range n) in
  (forall c, c ∈ clips ->
     add (start c) (duration c) = Returned (end_ c) /\
     int_mul (Z.of_nat (number c) - 1) S = Returned (start c) /\
     (1 <= number c <= Z.to_nat n)%nat /\
     clip_duration D S n (number c - 1) (start c) = Returned (duration c) /\
     filename c = reel_filename (number c)) /\
  StronglySorted lt (number <$> clips).
Proof.
  intros clips. split.
  - intros c (i & Hi%range_elem & Hres)%list_elem_of_omap.
    apply clip_result_Some in Hres as (st & d & f & Hcut & _ & _ & Hmk).
    apply make_clip_consistent in Hmk as (Hnum & Hst & Hd & Hend & Hname).
    apply cut_Returned in Hcut as [Hstart Hdur].
    rewrite Hnum, Hst, Hd in *.
    replace (i + 1 - 1)%nat with i by lia.
    split; [done|]. split.
    { unfold start_time in Hstart. by replace (Z.of_nat (i + 1) - 1)%Z with (Z.of_nat i) by lia. }
    split; [lia|]. by split.
  - apply omap_numbers_sorted; [|apply seq_sorted].
    intros i c (st & d & f & _ & _ & _ & Hmk)%clip_result_Some.
    by apply make_clip_consistent in Hmk as (? & _).
Qed.

(** The clips of a run of [split_video] or of a [/split] answer are the
    successful iterations of one loop. *)
Lemma clips_of_split now fs split_duration clips :
  (exists video_name job_id fs2 out,
     split_video now fs video_name split_duration job_id
     = (fs2, Returned (clips, out))) \/
  (exists req,
     split_duration = default (JInt 30) (req_split_duration req) /\
     response_clips (split_video_endpoint now fs req).2 = Some clips) ->
  exists video_name D S n job_id,
    as_number split_duration = Some S /\
    clips = omap (clip_result now fs video_name D S n job_id) (range n).
Proof.
  intros [(video_name & job_id & fs2 & out & Hsv) | (req & -> & Hresp)].
  - apply split_video_inv in Hsv as (_ & _ & D & S & n & _ & (HS & _) & Heff & _).
    eauto 10.
  - destruct (split_endpoint_ok_inv now fs req) as
      (job_id & video_name & D & S & n & Hfound & Hnofile & Hprobe & Har & Hzip);
      [by rewrite Hresp|].
    destruct (split_endpoint_ok now fs req job_id video_name D S n
                Hfound Hnofile Hprobe Har Hzip)
      as (fs1 & clips' & t & ch & zsize & (Hclips & _) & _ & Heq).
    rewrite Heq in Hresp. cbn in Hresp. injection Hresp as <-.
    destruct Har as (HS & _). eauto 10.
Qed.

(** C9, amended.  Every clip record that [split_video] returns, and hence
    every record of a [/split] answer, is consistent: [end] is the sum
    [start + duration] as Python computes it; [start] is the product
    [(number - 1) * split_duration]; the file name is [reel_], the number
    in decimal, padded with a zero to two digits when it is below 10 and
    as it is from 10 on, and [.mp4]; and the numbers grow strictly along
    the list. *)
Theorem C9_clip_records_consistent (now : Z) (fs : storage) (split_duration : json)
    (clips : list clip) :
  (exists video_name job_id fs2 out,
     split_video now fs video_name split_duration job_id
     = (fs2, Returned (clips, out))) \/
  (exists req,
     split_duration = default (JInt 30) (req_split_duration req) /\
     response_clips (split_video_endpoint now fs req).2 = Some clips) ->
  exists S,
    as_number split_duration = Some S /\
    (forall c, c ∈ clips ->
       add (start c) (duration c) = Returned (end_ c) /\
       int_mul (Z.of_nat (number c) - 1) S = Returned (start c) /\
       filename c = reel_filename (number c) /\
       filename c
       = "reel_" +:+ (if (number c <? 10)%nat then "0" +:+ str_of_nat (number c)
                      else str_of_nat (number c)) +:+ ".mp4") /\
    (forall j k a b, clips !! j = Some a -> clips !! k = Some b -> (j < k)%nat ->
       (number a < number b)%nat).
Proof.
  intros (video_name & D & S & n & job_id & HS & ->)%clips_of_split.
  exists S. split; [done|].
  destruct (split_clips_consistent now fs video_name D S n job_id) as [Hall Hsorted].
  split.
  - intros c Hc. destruct (Hall c Hc) as (? & ? & _ & _ & Hname).
    do 3 (split; [done|]). rewrite Hname. unfold reel_filename.
    by rewrite fmt_02d_cases.
  - intros j k a b Ha Hb Hjk.
    apply (sorted_lookup_lt _ j k _ _ Hsorted); [| |done];
      rewrite list_lookup_fmap; by rewrite ?Ha, ?Hb.
Qed.


Lemma clip_duration_inner D S n i st :
  (Z.of_nat i < n - 1)%Z -> clip_duration D S n i st = Returned S.
Proof.
  intros Hi. unfold clip_duration.
  by destruct (Z.eqb_spec (Z.of_nat i) (n - 1)); [lia|].
Qed.

Lemma clip_duration_last D S n i st :
  (Z.of_nat i = n - 1)%Z -> clip_duration D S n i st = float_sub D st.
Proof. intros Hi. unfold clip_duration. by rewrite (proj2 (Z.eqb_eq _ _) Hi). Qed.



(** The run of [split_video] that returns, index by index. *)
Lemma split_video_cuts now fs video_name split_duration job_id fs2 clips out :
  split_video now fs video_name split_duration job_id = (fs2, Returned (clips, out)) ->
  exists D S n,
    get_video_duration fs video_name = Some D /\
    as_number split_duration = Some S /\
    num_clips D S = Returned n /\
    clips = omap (clip_result now fs video_name D S n job_id) (range n) /\
    (forall i, (Z.of_nat i < n)%Z ->
       exists st d,
         cut D S n i = Returned (st, d) /\
         job_files fs2 job_id !! reel_filename (i + 1)
         = output_after now (job_files fs job_id) (reel_filename (i + 1))
             (run_ffmpeg fs video_name st d)) /\
    (forall name, (forall i, (Z.of_nat i < n)%Z -> name <> reel_filename (i + 1)) ->
       job_files fs2 job_id !! name = job_files fs job_id !! name).
Proof.
  intros Hsv.
  apply split_video_inv in Hsv
    as (_ & _ & D & S & n & Hprobe & (HS & Hn & Hcuts) & Heff).
  destruct Heff as (Hclips & _ & _ & _ & Hfiles & Hrest).
  rewrite cuts_return_true in Hcuts.
  exists D, S, n. do 4 (split; [done|]). split.
  - intros i Hi. assert (i ∈ range n) as Hin by (apply range_elem; lia).
    destruct (Hcuts i Hin) as (st & d & Hcut). exists st, d. split; [done|].
    by apply Hfiles.
  - intros name Hname. apply Hrest. intros i Hi%range_elem. apply Hname. lia.
Qed.


(** C2, amended.  For every run of [split_video] that returns, with the
    count [n] that line 89 computes in binary64: the run for every index
    below [n - 1] is cut with the duration [S], exactly the value of the
    request, and the run for the index [n - 1] with the binary64
    difference [D - start], which can be zero; the returned clips carry
    these durations; and no file is written for an index beyond
    [n - 1]. *)
Theorem C2_segment_durations (now : Z) (fs : storage) (video_name : string)
    (split_duration : json) (job_id : string) (fs2 : storage) (clips : list clip)
    (out : string) :
  split_video now fs video_name split_duration job_id = (fs2, Returned (clips, out)) ->
  exists D S n,
    get_video_duration fs video_name = Some D /\
    as_number split_duration = Some S /\
    num_clips D S = Returned n /\
    (forall i, (Z.of_nat i < n)%Z ->
       exists st d,
         cut D S n i = Returned (st, d) /\
         ((Z.of_nat i < n - 1)%Z -> d = S) /\
         ((Z.of_nat i = n - 1)%Z -> float_sub D st = Returned d) /\
         job_files fs2 job_id !! reel_filename (i + 1)
         = output_after now (job_files fs job_id) (reel_filename (i + 1))
             (run_ffmpeg fs video_name st d)) /\
    (forall c, c ∈ clips ->
       (Z.of_nat (number c) <= n)%Z /\
       ((Z.of_nat (number c) < n)%Z -> duration c = S) /\
       ((Z.of_nat (number c) = n)%Z ->
        float_sub D (start c) = Returned (duration c))) /\
    (forall i, (n <= Z.of_nat i)%Z ->
       job_files fs2 job_id !! reel_filename (i + 1)
       = job_files fs job_id !! reel_filename (i + 1)).
Proof.
  intros (D & S & n & Hprobe & HS & Hn & -> & Hcuts & Hrest)%split_video_cuts.
  exists D, S, n. do 3 (split; [done|]).
  destruct (split_clips_consistent now fs video_name D S n job_id) as [Hall _].
  split.
  { intros i Hi. destruct (Hcuts i Hi) as (st & d & Hcut & Hfile).
    exists st, d. split; [done|]. apply cut_Returned in Hcut as [Hst Hd].
    split; [|split; [|done]].
    - intros Hlt. rewrite clip_duration_inner in Hd by done. by injection Hd.
    - intros Heq. by rewrite clip_duration_last in Hd. }
  split.
  { intros c Hc. destruct (Hall c Hc) as (_ & _ & Hnum & Hd & _).
    split; [lia|]. split.
    - intros Hlt. rewrite clip_duration_inner in Hd by lia. by injection Hd.
    - intros Heq. rewrite clip_duration_last in Hd by lia. done. }
  intros i Hi. apply Hrest. intros j Hj Heq%reel_filename_inj. lia.
Qed.

(** *** Splitting the same job again *)

Lemma job_found_uploads fs fs' req job_id video_name :
  uploads fs' = uploads fs ->
  job_found fs req job_id video_name -> job_found fs' req job_id video_name.
Proof. intros Hu. unfold job_found. by rewrite Hu. Qed.

Lemma omap_ext_in {A B} (f g : A -> option B) (l : list A) :
  (forall x, x ∈ l -> f x = g x) -> omap f l = omap g l.
Proof.
  induction l as [|x l IH]; intros Hfg; [done|]. cbn [omap list_omap].
  rewrite (Hfg x) by left. rewrite IH; [done|]. intros y Hy. apply Hfg. by right.
Qed.

(** An iteration run again over the output of its earlier run yields the
    same clip. *)
Lemma clip_result_again now1 now2 fs fs1 video_name D S n job_id i :
  uploads fs1 = uploads fs ->
  (forall st d, cut D S n i = Returned (st, d) ->
     job_files fs1 job_id !! reel_filename (i + 1)
     = output_after now1 (job_files fs job_id) (reel_filename (i + 1))
         (run_ffmpeg fs video_name st d)) ->
  clip_result now2 fs1 video_name D S n job_id i
  = clip_result now1 fs video_name D S n job_id i.
Proof.
  intros Hu Hfile. unfold clip_result.
  destruct (cut D S n i) as [[st d]|e]; [|done]. cbn zeta.
  specialize (Hfile st d eq_refl).
  rewrite (run_ffmpeg_uploads fs fs1) by done.
  destruct (returncode _ =? 0)%Z; [|done].
  unfold output_after in *.
  destruct (written _) as [b|]; [done|]. by rewrite Hfile.
Qed.

Lemma split_blocked_or_not fs req job_id video_name :
  split_blocked fs req job_id video_name \/
  ((forall f, outputs fs !! job_id <> Some (EFile f)) /\
   (exists D S n,
      get_video_duration fs video_name = Some D /\
      split_arithmetic D (default (JInt 30) (req_split_duration req)) S n) /\
   (forall t ch, outputs fs !! (job_id +:+ ".zip") <> Some (EDir t ch))).
Proof.
  unfold split_blocked.
  destruct (outputs fs !! job_id) as [[f|t ch]|] eqn:Hj; [by eauto| |];
    (destruct (get_video_duration fs video_name) as [D|]; [|by eauto]);
    (destruct (split_arithmetic_or_raises D (default (JInt 30) (req_split_duration req)))
       as [Hraises|(S & n & Har)]; [by eauto 10|]);
    (destruct (outputs fs !! (job_id +:+ ".zip")) as [[f'|t' ch']|];
     [|by eauto 10|]); right; eauto 10.
Qed.

Lemma split_endpoint_blocked now fs req job_id video_name :
  job_found fs req job_id video_name ->
  split_blocked fs req job_id video_name ->
  let r := split_video_endpoint now fs req in
  status r.2 = 500%Z /\ response_clips r.2 = None /\
  uploads r.1 = uploads fs /\
  (forall f, outputs fs !! job_id = Some (EFile f) -> r.1 = fs) /\
  outputs r.1 !! (job_id +:+ ".zip") = outputs fs !! (job_id +:+ ".zip").
Proof.
  intros Hfound Hblocked r. subst r.
  rewrite (split_endpoint_found _ _ _ _ _ Hfound).
  destruct (split_video_frame now fs video_name
              (default (JInt 30) (req_split_duration req)) job_id)
    as (Hu & Hother & _ & _ & Hfile).
  destruct (split_video now fs video_name _ job_id) as [fs1 [[clips out]|e]] eqn:Hsv;
    cbn [fst] in Hu, Hother, Hfile.
  - apply split_video_inv in Hsv as (-> & Hnofile & D & S & n & Hprobe & Har & Heff).
    pose proof Heff as (_ & _ & (t & ch & Hdir) & _).
    rewrite (create_zip_spec _ _ _ _ _ Hdir), Hother by apply zip_path_ne.
    destruct Hblocked as [(f & Hf) | [Hnone | [(D' & HD' & Hraises) | (t' & ch' & Hz)]]];
      [by destruct (Hnofile f)|congruence| |].
    { assert (D' = D) as -> by congruence.
      by destruct (split_arithmetic_not_both _ _ _ _ Har). }
    rewrite Hz. cbn. rewrite Hother by apply zip_path_ne. done.
  - cbn. rewrite Hother by apply zip_path_ne. done.
Qed.

Lemma split_blocked_persists now fs req job_id video_name :
  job_found fs req job_id video_name ->
  split_blocked fs req job_id video_name ->
  split_blocked (split_video_endpoint now fs req).1 req job_id video_name.
Proof.
  intros Hfound Hblocked.
  destruct (split_endpoint_blocked now fs req job_id video_name Hfound Hblocked)
    as (_ & _ & Hu & Hfile & Hz).
  unfold split_blocked.
  destruct Hblocked as [(f & Hf) | [Hnone | [(D & HD & Hraises) | (t & ch & Hzd)]]].
  - left. exists f. by rewrite (Hfile f Hf).
  - right; left. by rewrite (get_video_duration_uploads fs).
  - right; right; left. exists D. by rewrite (get_video_duration_uploads fs).
  - right; right; right. exists t, ch. by rewrite Hz.
Qed.

(** C7.  A [/split] request repeated with the same body on the storage the
    first one left gets the same status code and the same list of clips
    (numbers, start and end offsets, durations, sizes), whenever it is
    sent. *)
Theorem C7_resplit_same_clips (now1 now2 : Z) (fs : storage) (req : split_request) :
  let first := split_video_endpoint now1 fs req in
  let second := split_video_endpoint now2 first.1 req in
  status second.2 = status first.2 /\
  response_clips second.2 = response_clips first.2.
Proof.
  intros first second.
  destruct (job_found_or_not fs req) as [(job_id & video_name & Hfound) | Hnone].
  2:{ destruct (split_endpoint_not_found now1 now2 fs req Hnone) as [Heq Hfs].
      subst second. fold first in Heq, Hfs. by rewrite Hfs, <- Heq. }
  destruct (split_blocked_or_not fs req job_id video_name)
    as [Hblocked | (Hnofile & (D & S & n & Hprobe & Har) & Hzip)].
  - pose proof (split_blocked_persists now1 fs req job_id video_name Hfound Hblocked)
      as Hblocked1.
    destruct (split_endpoint_blocked now1 fs req job_id video_name Hfound Hblocked)
      as (Hst & Hcl & Hu & _).
    fold first in Hblocked1, Hst, Hcl, Hu.
    assert (job_found first.1 req job_id video_name) as Hfound1
      by by apply (job_found_uploads fs).
    destruct (split_endpoint_blocked now2 first.1 req job_id video_name
                Hfound1 Hblocked1) as (Hst2 & Hcl2 & _).
    fold second in Hst2, Hcl2. by rewrite Hst, Hcl, Hst2, Hcl2.
  - destruct (split_endpoint_ok now1 fs req job_id video_name D S n
                Hfound Hnofile Hprobe Har Hzip)
      as (fs1 & clips & t & ch & zsize & Heff & Hdir & Hfirst).
    fold first in Hfirst.
    destruct Heff as (Hclips & Hu & _ & Hother & Hfiles & _).
    assert (uploads first.1 = uploads fs) as Hu1 by (by rewrite Hfirst).
    assert (outputs first.1 !! job_id = Some (EDir t ch)) as Hdir1.
    { rewrite Hfirst. cbn [fst outputs set_outputs].
      rewrite lookup_insert_ne by apply zip_path_ne. done. }
    assert (job_files first.1 job_id = job_files fs1 job_id) as Hjf
      by (by rewrite (job_files_dir _ _ _ _ Hdir1), (job_files_dir _ _ _ _ Hdir)).
    destruct (split_endpoint_ok now2 first.1 req job_id video_name D S n)
      as (fs2 & clips2 & t2 & ch2 & zsize2 & Heff2 & _ & Hsecond).
    { by apply (job_found_uploads fs). }
    { intros f. by rewrite Hdir1. }
    { by rewrite (get_video_duration_uploads fs). }
    { done. }
    { intros t' ch'. rewrite Hfirst. cbn [fst outputs set_outputs].
      by rewrite lookup_insert_eq. }
    fold second in Hsecond. destruct Heff2 as (Hclips2 & _).
    assert (clips2 = clips) as ->.
    { rewrite Hclips2, Hclips. apply omap_ext_in. intros i Hi.
      apply clip_result_again; [done|]. intros st d Hcut. rewrite Hjf.
      by apply Hfiles. }
    by rewrite Hsecond, Hfirst.
Qed.


(** *** The archive of a split *)

Lemma zip_members_names ch :
  (zip_members ch).*1 = List.filter (endswith ".mp4") (listdir ch).
Proof.
  unfold zip_members, listdir.
  induction (map_to_list ch) as [|[name f] l IH]; [done|].
  cbn [List.filter fmap list_fmap fst]. destruct (endswith ".mp4" name); cbn; by rewrite IH.
Qed.

Lemma zip_members_elem ch name :
  name ∈ (zip_members ch).*1 <-> is_Some (ch !! name) /\ endswith ".mp4" name = true.
Proof.
  rewrite zip_members_names, list_elem_of_In, filter_In, <- list_elem_of_In.
  unfold listdir. rewrite list_elem_of_fmap. split.
  - intros [([n f] & -> & Hin%elem_of_map_to_list) Hend]. eauto.
  - intros [[f Hf] Hend]. split; [|done]. exists (name, f).
    split; [done|]. by apply elem_of_map_to_list.
Qed.

(** After a successful [/split] the archive of the job holds, under their
    bare names, the files of the job directory whose names end in [.mp4];
    the returned clips are among them. *)
Lemma split_archive_contents now fs req clips :
  response_clips (split_video_endpoint now fs req).2 = Some clips ->
  exists job_id names,
    req_job_id req = Some job_id /\
    archive_names (split_video_endpoint now fs req).1 job_id = Some names /\
    (forall name,
       name ∈ names <->
       is_Some (job_files (split_video_endpoint now fs req).1 job_id !! name) /\
       endswith ".mp4" name = true) /\
    (forall c, c ∈ clips -> filename c ∈ names).
Proof.
  intros Hresp.
  destruct (split_endpoint_ok_inv now fs req) as
    (job_id & video_name & D & S & n & Hfound & Hnofile & Hprobe & Har & Hzip);
    [by rewrite Hresp|].
  destruct (split_endpoint_ok now fs req job_id video_name D S n
              Hfound Hnofile Hprobe Har Hzip)
    as (fs1 & clips' & t & ch & zsize & Heff & Hdir & Heq).
  rewrite Heq in Hresp |- *. cbn in Hresp. injection Hresp as ->.
  cbn [fst]. set (fs2 := set_outputs fs1 _).
  assert (job_files fs2 job_id = ch) as Hjf.
  { apply (job_files_dir _ _ t). subst fs2. cbn [outputs set_outputs].
    by rewrite lookup_insert_ne by apply zip_path_ne. }
  exists job_id, (zip_members ch).*1.
  split; [by destruct Hfound|]. split.
  { unfold archive_names. subst fs2. cbn [outputs set_outputs].
    by rewrite lookup_insert_eq. }
  split; [intros name; rewrite Hjf; apply zip_members_elem|].
  intros c Hc. destruct Heff as (Hclips & _ & _ & _ & Hfiles & _).
  rewrite Hclips in Hc.
  apply list_elem_of_omap in Hc as (i & Hi & Hres).
  apply clip_result_Some in Hres as (st & d & f & Hcut & _ & Hf & Hmk).
  apply make_clip_consistent in Hmk as (Hnum & _ & _ & _ & ->). rewrite Hnum.
  apply zip_members_elem.
  split; [|apply reel_filename_mp4].
  exists f. rewrite <- Hf, <- (Hfiles i st d Hi Hcut).
  by rewrite (job_files_dir _ _ _ _ Hdir).
Qed.

End BackendProperties.


(** C8, as stated, fails on files inside a directory.  A job is split one
    minute after time 0 and split again at minute 62: [ffmpeg -y] rewrites
    the clips in place, which leaves the modification time of the directory
    at minute 1.  The sweep of an upload request at minute 63 removes the
    directory, and with it a clip that is one minute old. *)
Lemma C8_recent_file_deleted :
  let tools := demo_tools [] in
  let s1 := (@split_video_endpoint tools (1 * minute) one_upload (split_j1 (JInt 30))).1 in
  let s2 := (@split_video_endpoint tools (62 * minute) s1 (split_j1 (JInt 30))).1 in
  let now := (63 * minute)%Z in
  let clip := Inside "j1" "reel_01.mp4" in
  exists f,
    file_at (outputs s2) clip = Some f /\
    (now - mtime f <= ONE_HOUR)%Z /\
    file_at (outputs (cleanup_old_files now s2)) clip = None /\
    file_at (outputs (@upload_video tools now s2 None "j2").1) clip = None.
Proof.
  exists {| mtime := 62 * minute; data := Raw "clip" |}.
  split; [by vm_compute|]. split; [by vm_compute|]. split; by vm_compute.
Qed.

Lemma C8_sweep_listed_entries_witness :
  let now := (180 * minute)%Z in
  (outputs = uploads \/ outputs = outputs) /\
  outputs aged_storage !! "j0"
    = Some (EDir (60 * minute)
              {[ "reel_01.mp4" := {| mtime := 179 * minute; data := Raw "clip" |} ]}) /\
  (ONE_HOUR < now - 60 * minute)%Z /\
  outputs (cleanup_old_files now aged_storage) !! "j0" = None.
Proof.
  intros now.
  assert (outputs = uploads \/ outputs = outputs) as Hfolder by (by right).
  assert (ONE_HOUR < now - 60 * minute)%Z as Hold by (by vm_compute).
  split; [exact Hfolder|]. split; [reflexivity|]. split; [exact Hold|].
  pose proof (@C8_sweep_listed_entries (demo_tools []) now aged_storage outputs Hfolder)
    as (Hdel & _).
  exact (proj1 (Hdel "j0" _ eq_refl Hold)).
Defined.

(** C4.  The code at two inputs where the archive and the answer differ.
    A 95-second upload is split into 10-second clips and then again into
    30-second clips: the second answer lists four clips, the archive built
    for it holds all ten files of the directory.  And when the run for the
    second of four segments fails after creating its output file, the answer
    lists three clips and the archive four files. *)
Theorem C4_archive_holds_more_than_returned :
  (let first :=
     @split_video_endpoint (demo_tools []) (2 * minute) one_upload (split_j1 (JInt 10)) in
   let second :=
     @split_video_endpoint (demo_tools []) (5 * minute) first.1 (split_j1 (JInt 30)) in
   status second.2 = 200%Z /\
   (fmap (M := list) filename <$> response_clips second.2)
     = Some (reel_filename <$> seq 1 4) /\
   (list_to_set (C := gset string) <$> @archive_names second.1 "j1")
     = Some (list_to_set (reel_filename <$> seq 1 10))) /\
  (let only :=
     @split_video_endpoint (demo_tools [30%Z]) (2 * minute) one_upload
       (split_j1 (JInt 30)) in
   status only.2 = 200%Z /\
   (fmap (M := list) filename <$> response_clips only.2)
     = Some ["reel_01.mp4"; "reel_03.mp4"; "reel_04.mp4"] /\
   (list_to_set (C := gset string) <$> @archive_names only.1 "j1")
     = Some (list_to_set (reel_filename <$> seq 1 4))).
Proof.
  split.
  - split; [by vm_compute|]. split; [by vm_compute|].
    apply (bool_decide_unpack _). by vm_compute.
  - split; [by vm_compute|]. split; [by vm_compute|].
    apply (bool_decide_unpack _). by vm_compute.
Qed.

(** ** Concrete runs *)

Example allowed_upper : allowed_file "VIDEO.MP4" = true.
Proof. by vm_compute. Qed.

Example allowed_two_dots : allowed_file "a.mp4.txt" = false.
Proof. by vm_compute. Qed.

Example reel_7 : reel_filename 7 = "reel_07.mp4".
Proof. reflexivity. Qed.

Example reel_123 : reel_filename 123 = "reel_123.mp4".
Proof. reflexivity. Qed.

Example endswith_mp4 : endswith ".mp4" "reel_07.mp4" = true.
Proof. reflexivity. Qed.

(** The decimal numerals of the examples are the binary64 numbers that
    Python reads them as. *)
Example decimal_0_1 : json_decimal "0.1" = JFloat 0x1.999999999999ap-4.
Proof. by vm_compute. Qed.

Example decimal_0_3 : json_decimal "0.3" = JFloat 0x1.3333333333333p-2.
Proof. by vm_compute. Qed.

Example decimal_2_1 : float_of_decimal "2.1" = Some 0x1.0cccccccccccdp+1%float.
Proof. by vm_compute. Qed.

(** The example of the specification: 95 seconds in clips of 30. *)
Example cuts_95_30 :
  num_clips 95 (NInt 30) = Returned 4%Z /\
  cut 95 (NInt 30) 4 <$> range 4 =
  [ Returned (NInt 0, NInt 30); Returned (NInt 30, NInt 30);
    Returned (NInt 60, NInt 30); Returned (NInt 90, NFloat 5) ].
Proof. by vm_compute. Qed.

(** An exact multiple gets no empty last segment. *)
Example cuts_90_30 :
  num_clips 90 (NInt 30) = Returned 3%Z /\
  cut 90 (NInt 30) 3 <$> range 3 =
  [ Returned (NInt 0, NInt 30); Returned (NInt 30, NInt 30);
    Returned (NInt 60, NFloat 30) ].
Proof. by vm_compute. Qed.

(** Line 89 on values that make it raise, and on a negative divisor. *)
Example num_clips_raises :
  num_clips 95 (NInt 0) = Raised "float division by zero" /\
  num_clips 95 (NFloat 0x1p-1063) = Raised "cannot convert float infinity to integer" /\
  num_clips 95 (NFloat nan) = Raised "cannot convert float NaN to integer" /\
  num_clips 95 (NInt (10 ^ 400)) = Raised "int too large to convert to float" /\
  num_clips 95 (NInt (-30)) = Returned (-3)%Z.
Proof. by vm_compute. Qed.

(** A run that fails on the second segment: the answer is 200 with the
    clips 1, 3 and 4. *)
Example split_with_failure :
  let r := (@split_video_endpoint (demo_tools [30%Z]) (2 * minute) one_upload
              (split_j1 (JInt 30))).2 in
  status r = 200%Z /\
  (fmap (M := list) number <$> response_clips r) = Some [1; 3; 4]%nat.
Proof. by vm_compute. Qed.



(** C2, as stated, fails in binary64.  2.1 seconds in clips of 0.3: the
    binary64 quotient is above 7, so the loop runs eight times; seven
    clips of 0.3 are followed by an eighth that starts at 2.1, the end of
    the video, with the duration [2.1 - 7 * 0.3], which binary64 rounds to
    zero.  The two decimal numbers have the quotient 7, with a last
    segment of 0.3; the two binary64 numbers have an exact quotient with
    the ceiling 8 and leave a last segment that is not zero. *)
Lemma C2_extra_empty_segment :
  let r := (@split_video_endpoint (demo_tools []) (2 * minute) (upload_of "2.1")
              (split_j1 (json_decimal "0.3"))).2 in
  exists clips c D S exact_D exact_S,
    response_clips r = Some clips /\ length clips = 8%nat /\
    Qceiling ((21 # 10) / (3 # 10)) = 7%Z /\
    @get_video_duration (demo_tools []) (upload_of "2.1") "j1_a.mp4" = Some D /\
    json_decimal "0.3" = JFloat S /\
    num_clips D (NFloat S) = Returned 8%Z /\
    cut D (NFloat S) 8 7 = Returned (NFloat D, NFloat 0) /\
    (forall k c', (k < 7)%nat -> clips !! k = Some c' -> duration c' = NFloat S) /\
    clips !! 7%nat = Some c /\ number c = 8%nat /\
    start c = NFloat D /\ duration c = NFloat 0 /\
    float_value D = Some exact_D /\ float_value S = Some exact_S /\
    Qceiling (exact_D / exact_S) = 8%Z /\ (0 < exact_D - 7 * exact_S)%Q.
Proof.
  do 6 eexists. split; [by vm_compute|]. split; [by vm_compute|].
  split; [by vm_compute|]. split; [by vm_compute|]. split; [by vm_compute|].
  split; [by vm_compute|]. split; [by vm_compute|].
  split.
  { intros k c' Hk. do 7 (destruct k as [|k]; [by intros [= <-]|]). lia. }
  split; [by vm_compute|]. split; [by vm_compute|]. split; [by vm_compute|].
  split; [by vm_compute|]. split; [by vm_compute|]. split; [by vm_compute|].
  split; by vm_compute.
Qed.

Lemma C2_segment_durations_witness :
  let r := @split_video (demo_tools []) (2 * minute) one_upload "j1_a.mp4" (JInt 30)
             "j1" in
  exists clips,
    r.2 = Returned (clips, "j1") /\
    (forall c, c ∈ clips -> (Z.of_nat (number c) < 4)%Z -> duration c = NInt 30).
Proof.
  intros r.
  assert (exists clips, r = (r.1, Returned (clips, "j1"))) as [clips Hr]
    by (eexists; by vm_compute).
  exists clips. split; [by rewrite Hr|].
  destruct (@C2_segment_durations (demo_tools []) (2 * minute) one_upload
              "j1_a.mp4" (JInt 30) "j1" r.1 clips "j1" Hr)
    as (D & S & n & HD & HS & Hn & _ & Hclips & _).
  injection HS as <-.
  assert (D = 95%float) as -> by (vm_compute in HD; by injection HD).
  assert (n = 4%Z) as -> by (vm_compute in Hn; by injection Hn).
  intros c Hc. by apply Hclips.
Defined.

Lemma C3_clips_are_successful_extractions_witness :
  job_found one_upload (split_j1 (JInt 30)) "j1" "j1_a.mp4" /\
  @get_video_duration (demo_tools [30%Z]) one_upload "j1_a.mp4" = Some 95%float /\
  split_arithmetic 95 (JInt 30) (NInt 30) 4 /\
  status (@split_video_endpoint (demo_tools [30%Z]) (2 * minute) one_upload
            (split_j1 (JInt 30))).2 = 200%Z.
Proof.
  assert (job_found one_upload (split_j1 (JInt 30)) "j1" "j1_a.mp4") as Hfound
    by (split; [reflexivity|]; split; [discriminate|by vm_compute]).
  assert (@get_video_duration (demo_tools [30%Z]) one_upload "j1_a.mp4"
          = Some 95%float) as Hprobe by (by vm_compute).
  assert (split_arithmetic 95 (JInt 30) (NInt 30) 4) as Har
    by (split; [reflexivity|]; split; by vm_compute).
  assert (forall f, outputs one_upload !! "j1" <> Some (EFile f)) as Hnofile
    by (intros f Hf; vm_compute in Hf; discriminate).
  assert (forall t ch, outputs one_upload !! ("j1" +:+ ".zip") <> Some (EDir t ch))
    as Hzip by (intros t ch Hz; vm_compute in Hz; discriminate).
  split; [exact Hfound|]. split; [exact Hprobe|]. split; [exact Har|].
  exact (proj1 (@C3_clips_are_successful_extractions (demo_tools [30%Z])
                  (2 * minute) one_upload (split_j1 (JInt 30)) "j1" "j1_a.mp4"
                  95%float (NInt 30) 4 Hfound Hnofile Hprobe Har Hzip)).
Defined.

(** C5, as stated, fails when the folder holds an expired upload: the
    request with a [.txt] file is answered 400, and the three-hour-old
    upload is gone afterwards. *)
Lemma C5_rejected_upload_changes_uploads :
  let r := @upload_video (demo_tools []) (180 * minute) aged_storage
             (Some notes_txt) "j9" in
  allowed_file (up_filename notes_txt) = false /\
  status r.2 = 400%Z /\
  is_Some (uploads aged_storage !! "j0_old.mp4") /\
  uploads r.1 !! "j0_old.mp4" = None /\
  uploads r.1 <> uploads aged_storage.
Proof.
  intros r. split; [by vm_compute|]. split; [by vm_compute|].
  split; [by eexists|]. split; [by vm_compute|].
  intros Heq. apply (f_equal (fun m => m !! "j0_old.mp4")) in Heq.
  vm_compute in Heq. discriminate.
Qed.

Lemma C5_disallowed_upload_rejected_witness :
  let r := @upload_video (demo_tools []) (2 * minute) one_upload (Some notes_txt) "j9" in
  allowed_file (up_filename notes_txt) = false /\
  status r.2 = 400%Z /\ uploads r.1 = uploads one_upload.
Proof.
  intros r.
  assert (allowed_file (up_filename notes_txt) = false) as Hno by (by vm_compute).
  pose proof (@C5_disallowed_upload_rejected (demo_tools []) (2 * minute) one_upload
                notes_txt "j9" (proj1 (not_allowed_iff _) Hno))
    as (Hst & _ & _ & Hsame).
  split; [exact Hno|]. split; [exact Hst|]. apply Hsame.
  intros name e He.
  destruct (decide (name = "j1_a.mp4")) as [->|Hne].
  - vm_compute in He. injection He as <-. by vm_compute.
  - unfold one_upload in He. cbn [uploads] in He.
    by rewrite lookup_singleton_ne in He.
Defined.

(** C6, as stated, fails in the same way: the probe of the new file fails,
    the file is removed and the answer is 500, but the expired upload was
    swept first, so the folder is not as before the request. *)
Lemma C6_failed_upload_changes_uploads :
  let r := @upload_video (demo_tools []) (180 * minute) aged_storage
             (Some broken_mp4) "j9" in
  allowed_file (up_filename broken_mp4) = true /\
  @ffprobe_info (demo_tools []) (Raw (up_bytes broken_mp4)) = None /\
  status r.2 = 500%Z /\
  uploads r.1 !! "j9_clip.mp4" = None /\
  is_Some (uploads aged_storage !! "j0_old.mp4") /\
  uploads r.1 !! "j0_old.mp4" = None /\
  uploads r.1 <> uploads aged_storage.
Proof.
  intros r. split; [by vm_compute|]. split; [by vm_compute|].
  split; [by vm_compute|]. split; [by vm_compute|].
  split; [by eexists|]. split; [by vm_compute|].
  intros Heq. apply (f_equal (fun m => m !! "j0_old.mp4")) in Heq.
  vm_compute in Heq. discriminate.
Qed.

Lemma C6_probe_failure_removes_upload_witness :
  let r := @upload_video (demo_tools []) (2 * minute) one_upload (Some broken_mp4) "j9" in
  up_filename broken_mp4 <> EmptyString /\
  allowed_file (up_filename broken_mp4) = true /\
  @ffprobe_info (demo_tools []) (Raw (up_bytes broken_mp4)) = None /\
  status r.2 = 500%Z /\
  uploads r.1 !! @stored_name (demo_tools []) "j9" broken_mp4 = None.
Proof.
  intros r.
  assert (up_filename broken_mp4 <> EmptyString) as Hname by discriminate.
  assert (allowed_file (up_filename broken_mp4) = true) as Hallowed by (by vm_compute).
  assert (@ffprobe_info (demo_tools []) (Raw (up_bytes broken_mp4)) = None)
    as Hprobe by (by vm_compute).
  assert (forall t ch,
            uploads (cleanup_old_files (2 * minute) one_upload)
              !! @stored_name (demo_tools []) "j9" broken_mp4 <> Some (EDir t ch))
    as Hnodir by (intros t ch Hd; vm_compute in Hd; discriminate).
  pose proof (@C6_probe_failure_removes_upload (demo_tools []) (2 * minute) one_upload
                broken_mp4 "j9" Hname Hallowed Hnodir Hprobe) as (Hst & Hgone & _).
  split; [exact Hname|]. split; [exact Hallowed|]. split; [exact Hprobe|].
  split; [exact Hst|exact Hgone].
Defined.

(** C9, as stated, fails from the hundredth clip on: 100 seconds in clips
    of one second give a clip number 100 named [reel_100.mp4], with three
    digits. *)
Lemma C9_three_digit_name :
  let r := (@split_video_endpoint (demo_tools []) (2 * minute) (upload_of "100")
              (split_j1 (JInt 1))).2 in
  exists clips c,
    response_clips r = Some clips /\
    clips !! 99%nat = Some c /\ number c = 100%nat /\
    filename c = "reel_100.mp4" /\
    (forall d1 d2 : ascii, filename c <> "reel_" +:+ String d1 (String d2 ".mp4")).
Proof.
  do 2 eexists. split; [by vm_compute|]. split; [by vm_compute|].
  split; [by vm_compute|]. split; [by vm_compute|].
  intros d1 d2 Heq. vm_compute in Heq. discriminate.
Qed.

Lemma C9_clip_records_consistent_witness :
  let r := (@split_video_endpoint (demo_tools [30%Z]) (2 * minute) one_upload
              (split_j1 (JInt 30))).2 in
  exists clips,
    response_clips r = Some clips /\
    (forall c, c ∈ clips -> filename c = reel_filename (number c)) /\
    (forall j k a b, clips !! j = Some a -> clips !! k = Some b -> (j < k)%nat ->
       (number a < number b)%nat).
Proof.
  intros r.
  assert (exists clips, response_clips r = Some clips) as [clips Hr]
    by (eexists; by vm_compute).
  exists clips. split; [done|].
  destruct (@C9_clip_records_consistent (demo_tools [30%Z]) (2 * minute)
              one_upload (JInt 30) clips) as (S & _ & Hall & Hsorted).
  { right. exists (split_j1 (JInt 30)). split; [reflexivity|exact Hr]. }
  split; [|exact Hsorted]. intros c Hc. by destruct (Hall c Hc) as (_ & _ & ? & _).
Defined.

Lemma C10_extension_check_witness :
  contains_dot "README" = false /\
  status (@upload_video (demo_tools []) (2 * minute) one_upload
            (Some {| up_filename := "README"; up_bytes := "text" |}) "j9").2 = 400%Z.
Proof.
  split; [reflexivity|].
  exact (proj2 (proj2 (proj2 (@C10_extension_check (demo_tools []))))
           (2 * minute)%Z one_upload
           {| up_filename := "README"; up_bytes := "text" |} "j9" eq_refl).
Defined.

(** * Further properties of the back end *)

(** ** [cleanup_old_files] over time *)

(** X1.  Sweeping at a time and then again at the same or a later time
    leaves what the later sweep alone leaves: nothing that an earlier sweep
    removed would have survived a later one, and a sweep repeated at once
    changes nothing. *)
Theorem sweep_then_later_sweep (now1 now2 : Z) (fs : storage) :
  (now1 <= now2)%Z ->
  cleanup_old_files now2 (cleanup_old_files now1 fs) = cleanup_old_files now2 fs.
Proof.
  intros Hle.
  assert (forall folder,
            cleanup_folder now2 (cleanup_folder now1 folder) = cleanup_folder now2 folder)
    as Hfolder.
  { intros folder. apply map_eq. intros k. rewrite !cleanup_folder_lookup.
    destruct (folder !! k) as [e|]; [|done]. simpl. unfold kept.
    destruct (older_than_hour now1 (entry_mtime e)) eqn:H1; simpl.
    - apply older_than_hour_spec in H1.
      assert (older_than_hour now2 (entry_mtime e) = true) as ->
        by (apply older_than_hour_spec; lia). done.
    - done. }
  unfold cleanup_old_files. cbn [uploads outputs]. by rewrite !Hfolder.
Qed.

Lemma sweep_then_later_sweep_witness :
  (60 * minute <= 180 * minute)%Z /\
  cleanup_old_files (180 * minute) (cleanup_old_files (60 * minute) aged_storage)
  = cleanup_old_files (180 * minute) aged_storage.
Proof.
  assert (60 * minute <= 180 * minute)%Z as Hle by (by vm_compute).
  split; [exact Hle|]. exact (sweep_then_later_sweep _ _ aged_storage Hle).
Defined.

(** ** [get_video_info]: reading the prober's output *)

Lemma first_video_skips (pre : list stream) (rest : list stream) :
  Forall (fun s => exists t, codec_type s = Some t /\ t <> "video") pre ->
  first_video (pre ++ rest) = first_video rest.
Proof.
  induction 1 as [|s pre (t & Ht & Hne) _ IH]; [done|].
  cbn [app first_video]. rewrite Ht.
  by apply String.eqb_neq in Hne as ->.
Qed.

(** X2.  The dimensions and the codec reported for an upload are those of
    the first stream whose type is [video], whatever follows it; when the
    file has no video stream at all the function still returns, with the
    three fields empty.  Duration and size come from the format section. *)
Theorem video_info_first_video_stream (d : probe_data) (fmt : probe_format)
    (dur : Q) (size : Z) (pre post : list stream) :
  pd_format d = Some fmt -> fmt_duration fmt = Some dur -> fmt_size fmt = Some size ->
  Forall (fun s => exists t, codec_type s = Some t /\ t <> "video") pre ->
  (forall v,
     codec_type v = Some "video" -> pd_streams d = Some (pre ++ v :: post) ->
     video_info_of d =
     Returned {| vi_duration := dur; vi_size_mb := (inject_Z size / MB)%Q;
                 vi_width := width v; vi_height := height v;
                 vi_codec := codec_name v |}) /\
  (pd_streams d = Some pre ->
   video_info_of d =
   Returned {| vi_duration := dur; vi_size_mb := (inject_Z size / MB)%Q;
               vi_width := None; vi_height := None; vi_codec := None |}).
Proof.
  intros Hfmt Hdur Hsize Hpre. split.
  - intros v Hv Hstreams. unfold video_info_of.
    rewrite Hstreams, (first_video_skips pre (v :: post) Hpre).
    cbn [first_video]. rewrite Hv. cbn. by rewrite Hfmt, Hdur, Hsize.
  - intros Hstreams. unfold video_info_of.
    rewrite Hstreams, <- (app_nil_r pre), (first_video_skips pre [] Hpre).
    cbn. by rewrite Hfmt, Hdur, Hsize.
Qed.

Lemma video_info_first_video_stream_witness :
  video_info_of two_streams =
  Returned {| vi_duration := 95; vi_size_mb := (inject_Z 2097152 / MB)%Q;
              vi_width := Some 1280%Z; vi_height := Some 720%Z;
              vi_codec := Some "h264" |}.
Proof.
  refine (proj1 (video_info_first_video_stream two_streams
                   {| fmt_duration := Some 95%Q; fmt_size := Some 2097152%Z |}
                   95%Q 2097152%Z
                   [ {| codec_type := Some "audio"; width := None; height := None;
                        codec_name := Some "aac" |} ] [] eq_refl eq_refl eq_refl _)
                 {| codec_type := Some "video"; width := Some 1280%Z;
                    height := Some 720%Z; codec_name := Some "h264" |}
                 eq_refl eq_refl).
  constructor; [|constructor]. exists "audio". split; [reflexivity|discriminate].
Defined.

Lemma first_video_raises (streams : list stream) :
  (exists e, first_video streams = Raised e) <->
  exists pre s post,
    streams = pre ++ s :: post /\ codec_type s = None /\
    Forall (fun s' => exists t, codec_type s' = Some t /\ t <> "video") pre.
Proof.
  split.
  - induction streams as [|s rest IH]; intros [e He]; [done|].
    cbn [first_video] in He. destruct (codec_type s) as [t|] eqn:Ht.
    + destruct (String.eqb_spec t "video") as [->|Hne]; [done|].
      destruct IH as (pre & s' & post & -> & Hs' & Hpre); [by eexists|].
      exists (s :: pre), s', post. split; [done|]. split; [done|].
      constructor; [by exists t|done].
    + exists [], s, rest. by repeat split.
  - intros (pre & s & post & -> & Hs & Hpre).
    rewrite (first_video_skips pre (s :: post) Hpre). cbn [first_video].
    rewrite Hs. by eexists.
Qed.

(** X3.  [get_video_info] raises, which makes the upload fail with 500,
    exactly when the prober's output has no stream list, or a stream without
    a [codec_type] comes before any video stream, or the format section, its
    duration or its size is missing or unreadable.  A stream without the key
    that comes after the first video stream is never looked at. *)
Theorem video_info_raises_iff (d : probe_data) :
  (exists e, video_info_of d = Raised e) <->
  pd_streams d = None \/
  (exists pre s post,
     pd_streams d = Some (pre ++ s :: post) /\ codec_type s = None /\
     Forall (fun s' => exists t, codec_type s' = Some t /\ t <> "video") pre) \/
  pd_format d = None \/
  (exists fmt, pd_format d = Some fmt /\
               (fmt_duration fmt = None \/ fmt_size fmt = None)).
Proof.
  unfold video_info_of.
  destruct (pd_streams d) as [streams|] eqn:Hs; [|split; [by left|by eexists]].
  pose proof (first_video_raises streams) as Hfirst.
  destruct (first_video streams) as [vs|e] eqn:Hfv.
  - assert (~ exists pre s post,
                streams = pre ++ s :: post /\ codec_type s = None /\
                Forall (fun s' => exists t, codec_type s' = Some t /\ t <> "video") pre)
      as Hno by (intros Hex; apply Hfirst in Hex as [e He]; done).
    destruct (pd_format d) as [fmt|] eqn:Hf.
    + destruct (fmt_duration fmt) as [dur|] eqn:Hd, (fmt_size fmt) as [size|] eqn:Hz.
      * split; [by intros [e He]|].
        intros [?|[(pre & s & post & [= ->] & ?)|[?|(fmt' & [= <-] & [?|?])]]];
          try congruence. destruct Hno. eauto 10.
      * split; [intros _|by eexists]. right; right; right. eauto.
      * split; [intros _|by eexists]. right; right; right. eauto.
      * split; [intros _|by eexists]. right; right; right. eauto.
    + split; [intros _; by right; right; left|by eexists].
  - split; [intros _|by eexists]. right; left.
    destruct (proj1 Hfirst) as (pre & s & post & -> & ? & ?); [by eexists|].
    eauto 10.
Qed.

Section BackendMore.
Context `{External}.

(** ** [create_zip]: what the archive holds *)

Lemma listfilter_sublist {A} (p : A -> bool) (l : list A) : List.filter p l `sublist_of` l.
Proof.
  induction l as [|x l IH]; [done|]. cbn [List.filter].
  destruct (p x); [by apply sublist_skip|by apply sublist_cons].
Qed.

Lemma zip_members_NoDup ch : NoDup (zip_members ch).*1.
Proof.
  rewrite zip_members_names.
  eapply sublist_NoDup; [|apply listfilter_sublist]. apply NoDup_fst_map_to_list.
Qed.

Lemma zip_members_member ch name bytes :
  (name, bytes) ∈ zip_members ch <->
  endswith ".mp4" name = true /\
  exists f, ch !! name = Some f /\ bytes = bytes_of (data f).
Proof.
  unfold zip_members. rewrite list_elem_of_In, in_map_iff. split.
  - intros ([n f] & [= <- <-] & [Hin Hend]%filter_In).
    apply list_elem_of_In, elem_of_map_to_list in Hin. eauto.
  - intros (Hend & f & Hf & ->). exists (name, f). split; [done|].
    apply filter_In. split; [|done]. by apply list_elem_of_In, elem_of_map_to_list.
Qed.

(** X4.  For an existing job directory, [create_zip] returns the path
    [<job_id>.zip] and writes there an archive that replaces whatever file
    was at that path: its members are exactly the files of the directory
    whose names end in [.mp4], each under its bare name with the bytes of
    the file, no name twice; files with other names are left out, and no
    other entry of the storage changes. *)
Theorem create_zip_archive (now : Z) (fs : storage) (job_id : string) (t : Z)
    (ch : gmap string file) :
  outputs fs !! job_id = Some (EDir t ch) ->
  (forall t' ch', outputs fs !! (job_id +:+ ".zip") <> Some (EDir t' ch')) ->
  let r := create_zip now fs job_id job_id in
  r.2 = Returned (job_id +:+ ".zip") /\
  uploads r.1 = uploads fs /\
  (forall k, k <> job_id +:+ ".zip" -> outputs r.1 !! k = outputs fs !! k) /\
  exists ms,
    outputs r.1 !! (job_id +:+ ".zip")
      = Some (EFile {| mtime := now; data := Archive ms |}) /\
    NoDup ms.*1 /\
    (forall name bytes,
       (name, bytes) ∈ ms <->
       endswith ".mp4" name = true /\
       exists f, ch !! name = Some f /\ bytes = bytes_of (data f)).
Proof.
  intros Hdir Hzip r. subst r. rewrite (create_zip_spec _ _ _ _ _ Hdir).
  destruct (outputs fs !! (job_id +:+ ".zip")) as [[f|t' ch']|] eqn:Hz;
    [|by destruct (Hzip t' ch')|];
    (split; [done|]; split; [done|]; split;
     [intros k Hk; cbn [fst outputs set_outputs]; by rewrite lookup_insert_ne|];
     exists (zip_members ch); split;
     [cbn [fst outputs set_outputs]; by rewrite lookup_insert_eq|];
     split; [apply zip_members_NoDup|apply zip_members_member]).
Qed.

(** A path that is a directory makes [ZipFile] raise before anything is
    written. *)
Lemma create_zip_on_directory now fs output_dir job_id t ch :
  outputs fs !! (job_id +:+ ".zip") = Some (EDir t ch) ->
  create_zip now fs output_dir job_id = (fs, Raised "IsADirectoryError").
Proof. intros Hz. unfold create_zip. by rewrite Hz. Qed.

(** ** [download_zip] *)

Lemma archive_names_Some fs job_id names :
  archive_names fs job_id = Some names ->
  exists f ms,
    outputs fs !! (job_id +:+ ".zip") = Some (EFile f) /\
    data f = Archive ms /\ names = ms.*1.
Proof.
  unfold archive_names.
  destruct (outputs fs !! (job_id +:+ ".zip")) as [[[mt [b|ms]]|t ch]|]; try done.
  intros [= <-]. eauto.
Qed.

(** X5.  After a [/split] request answered with clips, the download of the
    same job sends the archive that request built, as [application/zip]
    under the name [whatsapp_reels.zip]; its member names are the [.mp4]
    files of the job directory, and every returned clip is among them. *)
Theorem download_after_split (now : Z) (fs : storage) (req : split_request)
    (clips : list clip) :
  response_clips (split_video_endpoint now fs req).2 = Some clips ->
  let fs' := (split_video_endpoint now fs req).1 in
  exists job_id ms,
    req_job_id req = Some job_id /\
    download_zip fs' job_id
      = SendFile "application/zip" "whatsapp_reels.zip" (Archive ms) /\
    (forall name,
       name ∈ ms.*1 <->
       is_Some (job_files fs' job_id !! name) /\ endswith ".mp4" name = true) /\
    (forall c, c ∈ clips -> filename c ∈ ms.*1).
Proof.
  intros Hresp fs'.
  destruct (split_archive_contents now fs req clips Hresp)
    as (job_id & names & Hreq & Hnames & Hiff & Hclips).
  apply archive_names_Some in Hnames as (f & ms & Hz & Hdata & ->).
  exists job_id, ms. split; [done|]. split; [|done].
  unfold download_zip. subst fs'. by rewrite Hz, Hdata.
Qed.

(** X6.  The archive of a job expires with its own modification time: once
    it is more than one hour old, any upload request removes it and the
    download answers 404; while it is at most one hour old it survives every
    upload request and is sent unchanged, whatever happened to the job
    directory and to the upload. *)
Theorem download_after_upload_request (now : Z) (fs : storage)
    (video : option upload) (uuid job_id : string) (f : file) :
  outputs fs !! (job_id +:+ ".zip") = Some (EFile f) ->
  let fs' := (upload_video now fs video uuid).1 in
  ((ONE_HOUR < now - mtime f)%Z ->
   download_zip fs' job_id
   = JsonAnswer (error_response 404 "File not found or expired")) /\
  ((now - mtime f <= ONE_HOUR)%Z ->
   download_zip fs' job_id = SendFile "application/zip" "whatsapp_reels.zip" (data f)).
Proof.
  intros Hz fs'. subst fs'. unfold download_zip. rewrite upload_video_outputs.
  split; intros Hage.
  - by rewrite (cleanup_folder_removed now _ _ (EFile f) Hz Hage).
  - by rewrite (cleanup_folder_retained now _ _ (EFile f) Hz Hage).
Qed.

(** ** [split_video_endpoint]: answers *)

Lemma elem_of_listdir {A} (m : gmap string A) name :
  name ∈ listdir m <-> is_Some (m !! name).
Proof.
  unfold listdir. rewrite list_elem_of_fmap. split.
  - intros ([n x] & -> & Hin%elem_of_map_to_list). by exists x.
  - intros [x Hx]. exists (name, x). split; [done|]. by apply elem_of_map_to_list.
Qed.

Lemma listfilter_nil_iff {A} (p : A -> bool) (l : list A) :
  List.filter p l = [] <-> forall x, x ∈ l -> p x = false.
Proof.
  induction l as [|x l IH]; cbn [List.filter].
  - split; [|done]. intros _ y Hy. by apply elem_of_nil in Hy.
  - destruct (p x) eqn:Hx.
    + split; [done|]. intros Hall. rewrite (Hall x) in Hx by left. done.
    + rewrite IH. split.
      * intros Hall y [->|Hy]%elem_of_cons; [done|by apply Hall].
      * intros Hall y Hy. apply Hall. by right.
Qed.


Lemma split_found_status now fs req job_id video_name :
  job_found fs req job_id video_name ->
  (split_blocked fs req job_id video_name /\
   status (split_video_endpoint now fs req).2 = 500%Z) \/
  (~ split_blocked fs req job_id video_name /\
   exists clips z,
     (split_video_endpoint now fs req).2
     = {| status := 200;
          payload := SplitBody true job_id clips (length clips) z
                       ("/download/" +:+ job_id) |}).
Proof.
  intros Hfound.
  destruct (split_blocked_or_not fs req job_id video_name)
    as [Hblocked | (Hnofile & (D & S & n & Hprobe & Har) & Hzip)].
  - left. split; [done|].
    by destruct (split_endpoint_blocked now fs req job_id video_name Hfound Hblocked).
  - right. split.
    + intros [(f & Hf) | [Hnone | [(D' & HD' & Hraises) | (t & ch & Hz)]]];
        [by destruct (Hnofile f)|congruence| |by destruct (Hzip t ch)].
      assert (D' = D) as -> by congruence.
      by destruct (split_arithmetic_not_both _ _ _ _ Har).
    + destruct (split_endpoint_ok now fs req job_id video_name D S n
                  Hfound Hnofile Hprobe Har Hzip)
        as (fs1 & clips & t & ch & z & _ & _ & ->). eauto.
Qed.


(** X8.  When the job's upload is found, [/split] answers 500 exactly when
    the job's output path is a regular file, the duration probe fails, the
    arithmetic of [split_video] raises, or the archive path is a
    directory; otherwise it answers 200 with [success = true], the job
    identifier, [total_clips] equal to the length of [clips], and the
    download URL [/download/<job_id>].  The arithmetic raises at line 89
    for a [split_duration] that is no number (a JSON null, string, array
    or object), for an integer too large for a float, for a zero, and for
    a quotient that is infinite or a NaN. *)
Theorem split_known_job_status (now : Z) (fs : storage) (req : split_request)
    (job_id video_name : string) :
  job_found fs req job_id video_name ->
  let r := split_video_endpoint now fs req in
  (status r.2 = 500%Z <-> split_blocked fs req job_id video_name) /\
  (status r.2 = 200%Z <-> ~ split_blocked fs req job_id video_name) /\
  (status r.2 = 200%Z ->
   exists clips z,
     payload r.2 = SplitBody true job_id clips (length clips) z
                     ("/download/" +:+ job_id)) /\
  (forall D S,
     (exists e, num_clips D S = Raised e) <->
     (exists e, as_float S = Raised e) \/
     (exists b, as_float S = Returned b /\
        (PrimFloat.eqb b 0 = true \/ float_value (PrimFloat.div D b) = None))).
Proof.
  intros Hfound r. subst r.
  destruct (split_found_status now fs req job_id video_name Hfound)
    as [[Hb Hs] | [Hnb (clips & z & Hs)]]; rewrite Hs.
  - split; [done|]. split; [done|]. split; [done|]. apply num_clips_Raised.
  - cbn. split; [done|]. split; [done|]. split; [by eauto|]. apply num_clips_Raised.
Qed.

Lemma job_files_other_key fs job_id k e :
  k <> job_id ->
  job_files (set_outputs fs (<[k := e]> (outputs fs))) job_id = job_files fs job_id.
Proof.
  intros Hk. unfold job_files. cbn [outputs set_outputs].
  by rewrite lookup_insert_ne.
Qed.

(** X9.  Whatever it answers, a [/split] request leaves the uploads folder
    as it was and changes no entry of the outputs folder other than the
    directory named by its [job_id] and the archive [<job_id>.zip]; and it
    never removes a file from that directory: every file that was there
    before is there afterwards (stale clips of an earlier split stay). *)
Theorem split_touches_only_its_job (now : Z) (fs : storage) (req : split_request) :
  let r := split_video_endpoint now fs req in
  uploads r.1 = uploads fs /\
  (req_job_id req = None -> r.1 = fs) /\
  (forall job_id k,
     req_job_id req = Some job_id -> k <> job_id -> k <> job_id +:+ ".zip" ->
     outputs r.1 !! k = outputs fs !! k) /\
  (forall job_id name f,
     req_job_id req = Some job_id -> job_files fs job_id !! name = Some f ->
     is_Some (job_files r.1 job_id !! name)).
Proof.
  intros r.
  destruct (job_found_or_not fs req) as [(job_id & video_name & Hfound) | Hnone].
  2:{ destruct (split_endpoint_not_found now now fs req Hnone) as [_ Hfs].
      subst r. rewrite Hfs. repeat split; eauto. }
  pose proof Hfound as (Hreq & _ & _).
  assert (uploads r.1 = uploads fs /\
          (forall k, k <> job_id -> k <> job_id +:+ ".zip" ->
             outputs r.1 !! k = outputs fs !! k) /\
          (forall name f, job_files fs job_id !! name = Some f ->
             is_Some (job_files r.1 job_id !! name))) as (Hu & Ho & Hf).
  { subst r. rewrite (split_endpoint_found _ _ _ _ _ Hfound).
    pose proof (split_video_frame now fs video_name
                  (default (JInt 30) (req_split_duration req)) job_id) as Hframe.
    destruct (split_video now fs video_name _ job_id) as [fs1 [[clips out]|e]] eqn:Hsv;
      cbn [fst] in Hframe; destruct Hframe as (Hu & Ho & Hf & Hd & _).
    - apply split_video_inv in Hsv as (-> & Hnofile & _).
      destruct (Hd Hnofile) as (t & ch & Hdir).
      rewrite (create_zip_spec _ _ _ _ _ Hdir).
      destruct (outputs fs1 !! (job_id +:+ ".zip")) as [[z|t' ch']|] eqn:Hz;
        cbn [fst outputs set_outputs]; rewrite ?lookup_insert_eq; cbn [fst];
        try (split; [done|]; split; [by auto|done]);
        (split; [done|]; split;
         [intros k Hk Hkz; cbn [outputs set_outputs];
          rewrite lookup_insert_ne by done; by apply Ho
         |intros name f Hname;
          rewrite job_files_other_key by apply zip_path_ne; by eapply Hf]).
    - cbn [fst]. split; [done|]. split; [by auto|done]. }
  split; [done|]. split; [congruence|]. split.
  - intros j k Hj. assert (j = job_id) as -> by congruence. apply Ho.
  - intros j name f Hj. assert (j = job_id) as -> by congruence. apply Hf.
Qed.

(** X10.  After a [/split] answered with 200, the job directory holds, for
    every segment whose [ffmpeg] run wrote its output, that output under
    the clip's name [reel_NN.mp4], stamped with the time of the request
    (an earlier file of that name is overwritten); the file of a segment
    whose run wrote nothing, and every file with any other name, is as it
    was before the request. *)
Theorem split_output_files (now : Z) (fs : storage) (req : split_request)
    (job_id video_name : string) (D : float) (S : pynum) (n : Z) :
  job_found fs req job_id video_name ->
  (forall f, outputs fs !! job_id <> Some (EFile f)) ->
  get_video_duration fs video_name = Some D ->
  split_arithmetic D (default (JInt 30) (req_split_duration req)) S n ->
  (forall t ch, outputs fs !! (job_id +:+ ".zip") <> Some (EDir t ch)) ->
  let ran st d := run_ffmpeg fs video_name st d in
  let after := job_files (split_video_endpoint now fs req).1 job_id in
  (forall i st d bytes, (i < Z.to_nat n)%nat -> cut D S n i = Returned (st, d) ->
     written (ran st d) = Some bytes ->
     after !! reel_filename (i + 1) = Some {| mtime := now; data := Raw bytes |}) /\
  (forall i st d, (i < Z.to_nat n)%nat -> cut D S n i = Returned (st, d) ->
     written (ran st d) = None ->
     after !! reel_filename (i + 1) = job_files fs job_id !! reel_filename (i + 1)) /\
  (forall i, (i < Z.to_nat n)%nat -> exists st d, cut D S n i = Returned (st, d)) /\
  (forall name,
     (forall i, (i < Z.to_nat n)%nat -> name <> reel_filename (i + 1)) ->
     after !! name = job_files fs job_id !! name).
Proof.
  intros Hfound Hnofile Hprobe Har Hzip ran after.
  destruct (split_endpoint_ok now fs req job_id video_name D S n
              Hfound Hnofile Hprobe Har Hzip)
    as (fs1 & clips & t & ch & z & Heff & Hdir & Heq).
  assert (after = job_files fs1 job_id) as ->.
  { subst after. rewrite Heq. cbn [fst]. apply job_files_other_key, zip_path_ne. }
  destruct Heff as (_ & _ & _ & _ & Hf & Hn).
  destruct Har as (_ & _ & Hcuts). rewrite cuts_return_true in Hcuts.
  split; [|split; [|split]].
  - intros i st d bytes Hi Hcut Hw. rewrite (Hf i st d) by by try apply range_elem.
    unfold output_after. fold (ran st d). by rewrite Hw.
  - intros i st d Hi Hcut Hw. rewrite (Hf i st d) by by try apply range_elem.
    unfold output_after. fold (ran st d). by rewrite Hw.
  - intros i Hi. by apply Hcuts, range_elem.
  - intros name Hname. apply Hn. intros i Hi%range_elem. by apply Hname.
Qed.

(** X11.  A negative split duration is not an error as long as the
    quotient of line 89 is finite: for a video whose duration is not
    negative the count is zero or negative, the loop runs zero times, the
    answer is 200 with an empty clip list and [total_clips = 0], and no
    file of the job directory is written or changed.  (A quotient that
    overflows, as for a negative split duration next to zero, makes
    [math.ceil] raise, and the answer is 500.) *)
Theorem split_negative_duration (now : Z) (fs : storage) (req : split_request)
    (job_id video_name : string) (D : float) (S : pynum) (b : float) (n : Z) :
  job_found fs req job_id video_name ->
  (forall f, outputs fs !! job_id <> Some (EFile f)) ->
  get_video_duration fs video_name = Some D ->
  (forall t ch, outputs fs !! (job_id +:+ ".zip") <> Some (EDir t ch)) ->
  as_number (default (JInt 30) (req_split_duration req)) = Some S ->
  as_float S = Returned b -> PrimFloat.ltb b 0 = true ->
  PrimFloat.leb 0 D = true ->
  num_clips D S = Returned n ->
  let r := split_video_endpoint now fs req in
  (n <= 0)%Z /\
  status r.2 = 200%Z /\
  (exists z, payload r.2 = SplitBody true job_id [] 0 z ("/download/" +:+ job_id)) /\
  job_files r.1 job_id = job_files fs job_id.
Proof.
  intros Hfound Hnofile Hprobe Hzip HS Hb Hneg HD Hn r.
  pose proof (num_clips_nonpositive D S b n Hb Hneg HD Hn) as Hle.
  assert (range n = []) as Hrange.
  { unfold range. by replace (Z.to_nat n) with 0%nat by lia. }
  assert (split_arithmetic D (default (JInt 30) (req_split_duration req)) S n) as Har.
  { split; [done|]. split; [done|]. unfold cuts_return. by rewrite Hrange. }
  destruct (split_endpoint_ok now fs req job_id video_name D S n
              Hfound Hnofile Hprobe Har Hzip)
    as (fs1 & clips & t & ch & z & Heff & Hdir & Heq).
  destruct Heff as (Hclips & _ & _ & _ & _ & Hrest).
  rewrite Hrange in Hclips, Hrest. cbn in Hclips. subst clips.
  subst r. rewrite Heq. cbn [fst snd status payload length].
  split; [done|]. split; [done|]. split; [by eexists|].
  rewrite job_files_other_key by apply zip_path_ne.
  apply map_eq. intros name. apply Hrest. intros i Hi. by apply elem_of_nil in Hi.
Qed.

(** X12.  A [/split] that fails because the duration probe raises or
    because line 89 raises (a split duration that is zero or no number, a
    quotient that is infinite or a NaN) has already run [os.makedirs]: for
    a job that had no output directory the answer is 500 and an empty
    directory named by the [job_id] is left behind. *)
Theorem split_failure_leaves_directory (now : Z) (fs : storage)
    (req : split_request) (job_id video_name : string) :
  job_found fs req job_id video_name ->
  outputs fs !! job_id = None ->
  get_video_duration fs video_name = None \/
  (exists D,
     get_video_duration fs video_name = Some D /\
     (as_number (default (JInt 30) (req_split_duration req)) = None \/
      exists S e,
        as_number (default (JInt 30) (req_split_duration req)) = Some S /\
        num_clips D S = Raised e)) ->
  let r := split_video_endpoint now fs req in
  status r.2 = 500%Z /\
  outputs r.1 !! job_id = Some (EDir now ∅) /\
  r.1 = set_outputs fs (<[job_id := EDir now ∅]> (outputs fs)).
Proof.
  intros Hfound Hnone Hwhy r. subst r.
  rewrite (split_endpoint_found _ _ _ _ _ Hfound).
  unfold split_video, makedirs_output. rewrite Hnone.
  set (fs1 := set_outputs fs _).
  rewrite (get_video_duration_uploads fs fs1) by done.
  assert (outputs fs1 !! job_id = Some (EDir now ∅)) as Hd
    by (subst fs1; cbn [outputs set_outputs]; by rewrite lookup_insert_eq).
  destruct Hwhy as [->|(D & -> & [->|(S & e & -> & ->)])]; done.
Qed.

Lemma omap_all_Forall2 {A B} (f : A -> option B) (R : A -> B -> Prop) (l : list A) :
  (forall x, x ∈ l -> exists y, f x = Some y /\ R x y) ->
  Forall2 R l (omap f l).
Proof.
  induction l as [|x l IH]; intros Hall; [constructor|].
  cbn [omap list_omap]. destruct (Hall x) as (y & -> & Hy); [by left|].
  constructor; [done|]. apply IH. intros z Hz. apply Hall. by right.
Qed.

(** X13.  When every [ffmpeg] run of a request returns 0 and writes its
    output, the 200 answer lists one clip for every index of the loop, in
    order: as many clips as the count of line 89 says, the clip of the
    index [i] numbered [i + 1], with the start and the duration of the cut
    of that iteration and their sum as its end. *)
Theorem split_all_runs_succeed (now : Z) (fs : storage) (req : split_request)
    (job_id video_name : string) (D : float) (S : pynum) (n : Z) :
  job_found fs req job_id video_name ->
  (forall f, outputs fs !! job_id <> Some (EFile f)) ->
  get_video_duration fs video_name = Some D ->
  split_arithmetic D (default (JInt 30) (req_split_duration req)) S n ->
  (forall t ch, outputs fs !! (job_id +:+ ".zip") <> Some (EDir t ch)) ->
  (forall i st d, (i < Z.to_nat n)%nat -> cut D S n i = Returned (st, d) ->
     returncode (run_ffmpeg fs video_name st d) = 0%Z /\
     is_Some (written (run_ffmpeg fs video_name st d))) ->
  exists clips,
    response_clips (split_video_endpoint now fs req).2 = Some clips /\
    length clips = Z.to_nat n /\
    Forall2
      (fun i c =>
         number c = (i + 1)%nat /\
         cut D S n i = Returned (start c, duration c) /\
         add (start c) (duration c) = Returned (end_ c))
      (range n) clips.
Proof.
  intros Hfound Hnofile Hprobe Har Hzip Hall.
  destruct (split_endpoint_ok now fs req job_id video_name D S n
              Hfound Hnofile Hprobe Har Hzip)
    as (fs1 & clips & t & ch & z & (Hclips & _) & _ & Heq).
  exists clips. rewrite Heq. cbn [snd response_clips payload]. split; [done|].
  destruct Har as (_ & _ & Hcuts). rewrite cuts_return_true in Hcuts.
  assert (Forall2
            (fun i c =>
               number c = (i + 1)%nat /\
               cut D S n i = Returned (start c, duration c) /\
               add (start c) (duration c) = Returned (end_ c))
            (range n) clips) as Hplan.
  { rewrite Hclips. apply omap_all_Forall2. intros i Hi.
    destruct (Hcuts i Hi) as (st & d & Hcut).
    destruct (Hall i st d) as [Hrc [bytes Hw]]; [by apply range_elem|done|].
    destruct (made_clip_after_cut D S n i st d {| mtime := now; data := Raw bytes |}
                Hcut) as (c & Hmk & _).
    exists c. split.
    - apply clip_result_Some. exists st, d, {| mtime := now; data := Raw bytes |}.
      split; [done|]. split; [done|]. split; [|done].
      unfold output_after. by rewrite Hw.
    - apply make_clip_consistent in Hmk as (Hnum & Hst & Hd & Hend & _).
      split; [done|]. split; [by rewrite Hst, Hd|done]. }
  split; [|done].
  apply Forall2_length in Hplan. by rewrite range_length in Hplan.
Qed.

(** ** [upload_video]: answers and what is stored *)

Lemma upload_video_accepted now fs file uuid :
  up_filename file <> EmptyString ->
  allowed_file (up_filename file) = true ->
  (forall t ch,
     uploads (cleanup_old_files now fs) !! stored_name uuid file <> Some (EDir t ch)) ->
  upload_video now fs (Some file) uuid =
  let saved :=
    set_uploads (cleanup_old_files now fs)
      (<[stored_name uuid file :=
           EFile {| mtime := now; data := Raw (up_bytes file) |}]>
         (uploads (cleanup_old_files now fs))) in
  match ffprobe_info (Raw (up_bytes file)) with
  | Some info =>
      (saved, {| status := 200;
                 payload := UploadBody info uuid (secure_filename (up_filename file)) |})
  | None =>
      (set_uploads saved (delete (stored_name uuid file) (uploads saved)),
       error_response 500 "Failed to process video")
  end.
Proof.
  intros Hname Hallowed Hnodir. unfold upload_video.
  apply String.eqb_neq in Hname as ->. rewrite Hallowed. cbn [negb].
  destruct (uploads (cleanup_old_files now fs) !! stored_name uuid file)
    as [[f|t ch]|] eqn:Hkey; [|by destruct (Hnodir t ch)|];
    by rewrite get_video_info_saved.
Qed.

(** X14.  [/upload] answers 400 exactly when the request has no [video]
    part, or its file name is empty or fails the extension check; it
    answers 200 exactly when the name passes, the file can be saved and the
    metadata probe returns; every other request gets 500.  No other status
    occurs. *)
Theorem upload_status (now : Z) (fs : storage) (video : option upload)
    (uuid : string) :
  let r := upload_video now fs video uuid in
  (status r.2 = 400%Z <->
   video = None \/
   exists file, video = Some file /\
     (up_filename file = EmptyString \/ allowed_file (up_filename file) = false)) /\
  (status r.2 = 200%Z <->
   exists file info,
     video = Some file /\ up_filename file <> EmptyString /\
     allowed_file (up_filename file) = true /\
     (forall t ch,
        uploads (cleanup_old_files now fs) !! stored_name uuid file
        <> Some (EDir t ch)) /\
     ffprobe_info (Raw (up_bytes file)) = Some info) /\
  (status r.2 = 400%Z \/ status r.2 = 200%Z \/ status r.2 = 500%Z).
Proof.
  intros r. subst r. destruct video as [file|].
  2:{ cbn. split; [split; [by left|done]|]. split; [|by left].
      split; [done|]. by intros (file & info & ? & _). }
  destruct (String.eqb_spec (up_filename file) EmptyString) as [Hempty|Hname].
  { unfold upload_video. rewrite Hempty. cbn.
    split; [split; [|done]; intros _; right; exists file; by eauto|].
    split; [|by left]. split; [done|].
    intros (f & info & [= <-] & Hne & _). done. }
  destruct (allowed_file (up_filename file)) eqn:Hallowed.
  2:{ unfold upload_video. apply String.eqb_neq in Hname as Hneq.
      rewrite Hneq, Hallowed. cbn.
      split; [split; [|done]; intros _; right; exists file; by eauto|].
      split; [|by left]. split; [done|].
      intros (f & info & [= <-] & _ & Ha & _). congruence. }
  assert (~ (Some file = None \/
             exists f, Some file = Some f /\
               (up_filename f = EmptyString \/ allowed_file (up_filename f) = false)))
    as Hnot400.
  { intros [?|(f & [= <-] & [?|?])]; congruence. }
  assert ((exists t ch,
             uploads (cleanup_old_files now fs) !! stored_name uuid file
             = Some (EDir t ch)) \/
          (forall t ch,
             uploads (cleanup_old_files now fs) !! stored_name uuid file
             <> Some (EDir t ch))) as [(t & ch & Hkey) | Hnodir].
  { destruct (uploads (cleanup_old_files now fs) !! stored_name uuid file)
      as [[f|t ch]|]; [by right|left; by eauto|by right]. }
  { unfold upload_video. apply String.eqb_neq in Hname as Hneq.
    rewrite Hneq, Hallowed. cbn [negb]. cbn zeta. rewrite Hkey. cbn.
    split; [split; [done|by intros ?%Hnot400]|]. split; [|by right; right].
    split; [done|]. intros (f' & info & [= <-] & _ & _ & Hnodir & _).
    by destruct (Hnodir t ch). }
  rewrite upload_video_accepted by done. cbn zeta.
  destruct (ffprobe_info (Raw (up_bytes file))) as [info|] eqn:Hprobe; cbn.
  - split; [split; [done|by intros ?%Hnot400]|]. split; [|by eauto].
    split; [|done]. intros _. exists file, info. by repeat split.
  - split; [split; [done|by intros ?%Hnot400]|]. split; [|by eauto].
    split; [done|]. intros (f' & info & [= <-] & _ & _ & _ & Hp). congruence.
Qed.

(** X15.  An accepted upload, of any size, is answered with 200, the
    probe's metadata, the job identifier and the sanitised file name, and
    is stored under [<job_id>_<filename>] with exactly the uploaded bytes
    and the time of the request; reading that path back gives the bytes.
    The other entries of the uploads folder are those the sweep left, and
    the outputs folder is what the sweep left. *)
Theorem upload_success (now : Z) (fs : storage) (file : upload) (uuid : string)
    (info : video_info) :
  up_filename file <> EmptyString ->
  allowed_file (up_filename file) = true ->
  (forall t ch,
     uploads (cleanup_old_files now fs) !! stored_name uuid file <> Some (EDir t ch)) ->
  ffprobe_info (Raw (up_bytes file)) = Some info ->
  let r := upload_video now fs (Some file) uuid in
  r.2 = {| status := 200;
           payload := UploadBody info uuid (secure_filename (up_filename file)) |} /\
  uploads r.1 !! stored_name uuid file
    = Some (EFile {| mtime := now; data := Raw (up_bytes file) |}) /\
  read_upload r.1 (stored_name uuid file) = Some (Raw (up_bytes file)) /\
  (forall name, name <> stored_name uuid file ->
     uploads r.1 !! name = cleanup_folder now (uploads fs) !! name) /\
  outputs r.1 = cleanup_folder now (outputs fs).
Proof.
  intros Hname Hallowed Hnodir Hprobe r. subst r.
  rewrite upload_video_accepted by done. cbn zeta. rewrite Hprobe.
  cbn [fst snd uploads outputs set_uploads cleanup_old_files].
  split; [done|]. split; [by rewrite lookup_insert_eq|].
  split; [unfold read_upload; cbn [uploads set_uploads]; by rewrite lookup_insert_eq|].
  split; [|done]. intros name Hne. by rewrite lookup_insert_ne.
Qed.

Lemma prefix_of_append s t : String.prefix s (s +:+ t) = true.
Proof.
  induction s as [|c s IH]; [by destruct t|].
  rewrite append_String. simpl. by destruct (ascii_dec c c).
Qed.

(** X16.  The job identifier returned by an accepted upload leads [/split]
    to that upload: when no other name in the uploads folder starts with
    the identifier, the directory scan picks the file just stored, the
    duration is probed on the uploaded bytes, and the request is answered
    neither 400 nor 404. *)
Theorem upload_then_split_finds_video (now now' : Z) (fs : storage) (file : upload)
    (uuid : string) (info : video_info) (req : split_request) :
  up_filename file <> EmptyString ->
  allowed_file (up_filename file) = true ->
  (forall t ch,
     uploads (cleanup_old_files now fs) !! stored_name uuid file <> Some (EDir t ch)) ->
  ffprobe_info (Raw (up_bytes file)) = Some info ->
  uuid <> EmptyString ->
  (forall name, name <> stored_name uuid file ->
     is_Some (cleanup_folder now (uploads fs) !! name) ->
     String.prefix uuid name = false) ->
  req_job_id req = Some uuid ->
  let fs' := (upload_video now fs (Some file) uuid).1 in
  job_found fs' req uuid (stored_name uuid file) /\
  get_video_duration fs' (stored_name uuid file) = ffprobe_duration (Raw (up_bytes file)) /\
  status (split_video_endpoint now' fs' req).2 <> 400%Z /\
  status (split_video_endpoint now' fs' req).2 <> 404%Z.
Proof.
  intros Hname Hallowed Hnodir Hprobe Huuid Hothers Hreq fs'.
  destruct (upload_success now fs file uuid info Hname Hallowed Hnodir Hprobe)
    as (_ & Hstored & Hread & Hrest & _).
  fold fs' in Hstored, Hread, Hrest.
  assert (job_found fs' req uuid (stored_name uuid file)) as Hfound.
  { split; [done|]. split; [done|].
    set (l := List.filter (String.prefix uuid) (listdir (uploads fs'))).
    assert (stored_name uuid file ∈ l) as Hin.
    { apply list_elem_of_In, filter_In. split.
      - apply list_elem_of_In, elem_of_listdir. by rewrite Hstored.
      - apply prefix_of_append. }
    destruct l as [|x l'] eqn:Hl; [by apply elem_of_nil in Hin|].
    cbn [head]. f_equal.
    assert (x ∈ List.filter (String.prefix uuid) (listdir (uploads fs'))) as Hx
      by (fold l; rewrite Hl; left).
    apply list_elem_of_In, filter_In in Hx as [Hxin Hxp].
    apply list_elem_of_In, elem_of_listdir in Hxin.
    destruct (decide (x = stored_name uuid file)) as [->|Hne]; [done|].
    rewrite Hrest in Hxin by done. rewrite (Hothers x Hne Hxin) in Hxp. done. }
  split; [done|]. split.
  { unfold get_video_duration. by rewrite Hread. }
  destruct (split_found_status now' fs' req uuid _ Hfound)
    as [[_ Hs] | [_ (clips & z & Hs)]]; rewrite Hs; done.
Qed.

Lemma upload_video_uploads_name now fs video uuid name e :
  uploads (upload_video now fs video uuid).1 !! name = Some e ->
  cleanup_folder now (uploads fs) !! name = Some e \/
  exists file, video = Some file /\ name = stored_name uuid file.
Proof.
  unfold upload_video. destruct video as [file|]; [|by left].
  destruct (String.eqb (up_filename file) EmptyString); [by left|].
  destruct (negb (allowed_file (up_filename file))); [by left|].
  set (key := stored_name uuid file).
  destruct (uploads (cleanup_old_files now fs) !! key) as [[f|t ch]|] eqn:Hkey;
    [|by left|]; rewrite get_video_info_saved;
    (destruct (ffprobe_info _); simpl;
     [ destruct (decide (name = key)) as [->|Hne];
       [ intros _; right; by eauto
       | rewrite lookup_insert_ne by done; by left ]
     | destruct (decide (name = key)) as [->|Hne];
       [ by rewrite lookup_delete_eq
       | rewrite lookup_delete_ne, lookup_insert_ne by done; by left ] ]).
Qed.

(** X17.  An upload does not outlive the retention: when every name in
    the uploads folder that starts with a job identifier is more than one
    hour old, then after any upload request (whose own stored name does not
    start with that identifier) a [/split] for the job is answered 404. *)
Theorem split_after_expiry (now now' : Z) (fs : storage) (video : option upload)
    (uuid : string) (req : split_request) (job_id : string) :
  req_job_id req = Some job_id -> job_id <> EmptyString ->
  (forall name e,
     uploads fs !! name = Some e -> String.prefix job_id name = true ->
     (ONE_HOUR < now - entry_mtime e)%Z) ->
  (forall file, video = Some file ->
     String.prefix job_id (stored_name uuid file) = false) ->
  let fs' := (upload_video now fs video uuid).1 in
  status (split_video_endpoint now' fs' req).2 = 404%Z /\
  (split_video_endpoint now' fs' req).1 = fs'.
Proof.
  intros Hreq Hne Hold Hnew fs'.
  assert (List.filter (String.prefix job_id) (listdir (uploads fs')) = []) as Hfilter.
  { apply listfilter_nil_iff. intros name [e He]%elem_of_listdir.
    apply upload_video_uploads_name in He as [Hswept | (file & Hv & ->)].
    - apply cleanup_folder_remaining in Hswept as [Hbefore Hfresh].
      destruct (String.prefix job_id name) eqn:Hp; [|done].
      specialize (Hold _ _ Hbefore Hp). lia.
    - by apply Hnew. }
  unfold split_video_endpoint. rewrite Hreq, Hfilter.
  by destruct job_id.
Qed.

End BackendMore.

Lemma split_known_job_status_witness :
  job_found one_upload (split_j1 JNull) "j1" "j1_a.mp4" /\
  status (@split_video_endpoint (demo_tools []) (2 * minute) one_upload
            (split_j1 JNull)).2 = 500%Z.
Proof.
  assert (job_found one_upload (split_j1 JNull) "j1" "j1_a.mp4") as Hfound
    by (split; [reflexivity|]; split; [discriminate|by vm_compute]).
  split; [exact Hfound|].
  apply (proj1 (@split_known_job_status (demo_tools []) (2 * minute) one_upload
                  (split_j1 JNull) "j1" "j1_a.mp4" Hfound)).
  right; right; left. exists 95%float. split; [by vm_compute|]. by left.
Defined.

Lemma create_zip_archive_witness :
  outputs mixed_dir_storage !! "j1"
    = Some (EDir 0 {[ "reel_01.mp4" := {| mtime := 0; data := Raw "clip" |};
                      "notes.txt" := {| mtime := 0; data := Raw "text" |} ]}) /\
  (@create_zip (demo_tools []) (2 * minute) mixed_dir_storage "j1" "j1").2
  = Returned "j1.zip".
Proof.
  assert (outputs mixed_dir_storage !! "j1"
    = Some (EDir 0 {[ "reel_01.mp4" := {| mtime := 0; data := Raw "clip" |};
                      "notes.txt" := {| mtime := 0; data := Raw "text" |} ]}))
    as Hdir by reflexivity.
  assert (forall t' ch', outputs mixed_dir_storage !! ("j1" +:+ ".zip")
                         <> Some (EDir t' ch')) as Hzip
    by (intros t' ch' Hz; vm_compute in Hz; discriminate).
  split; [exact Hdir|].
  exact (proj1 (@create_zip_archive (demo_tools []) (2 * minute) mixed_dir_storage
                  "j1" 0 _ Hdir Hzip)).
Defined.

Lemma download_after_split_witness :
  let r := @split_video_endpoint (demo_tools []) (2 * minute) one_upload
             (split_j1 (JInt 30)) in
  exists clips job_id ms,
    response_clips r.2 = Some clips /\
    download_zip r.1 job_id
    = SendFile "application/zip" "whatsapp_reels.zip" (Archive ms).
Proof.
  intros r. eexists.
  assert (response_clips r.2 = Some _) as Hresp by (by vm_compute).
  destruct (@download_after_split (demo_tools []) (2 * minute) one_upload
              (split_j1 (JInt 30)) _ Hresp) as (job_id & ms & _ & Hdl & _).
  exists job_id, ms. split; [exact Hresp|exact Hdl].
Defined.

Lemma download_after_upload_request_witness :
  outputs archived_storage !! ("j1" +:+ ".zip")
    = Some (EFile {| mtime := 60 * minute;
                     data := Archive [("reel_01.mp4", "clip")] |}) /\
  (ONE_HOUR < 180 * minute - 60 * minute)%Z /\
  download_zip (@upload_video (demo_tools []) (180 * minute) archived_storage None "j9").1
    "j1"
  = JsonAnswer (error_response 404 "File not found or expired").
Proof.
  assert (outputs archived_storage !! ("j1" +:+ ".zip")
    = Some (EFile {| mtime := 60 * minute;
                     data := Archive [("reel_01.mp4", "clip")] |})) as Hz
    by reflexivity.
  assert (ONE_HOUR < 180 * minute - 60 * minute)%Z as Hold by (by vm_compute).
  split; [exact Hz|]. split; [exact Hold|].
  exact (proj1 (@download_after_upload_request (demo_tools []) (180 * minute)
                  archived_storage None "j9" "j1" _ Hz) Hold).
Defined.

Lemma one_upload_found (S : json) : job_found one_upload (split_j1 S) "j1" "j1_a.mp4".
Proof. split; [reflexivity|]. split; [discriminate|by vm_compute]. Defined.

Lemma one_upload_no_file : forall f, outputs one_upload !! "j1" <> Some (EFile f).
Proof. intros f Hf. vm_compute in Hf. discriminate. Defined.

Lemma one_upload_no_zip_dir :
  forall t ch, outputs one_upload !! ("j1" +:+ ".zip") <> Some (EDir t ch).
Proof. intros t ch Hz. vm_compute in Hz. discriminate. Defined.

Lemma one_upload_duration tools_bad :
  @get_video_duration (demo_tools tools_bad) one_upload "j1_a.mp4" = Some 95%float.
Proof. by vm_compute. Defined.

Lemma arithmetic_95_30 : split_arithmetic 95 (JInt 30) (NInt 30) 4.
Proof. split; [reflexivity|]. split; by vm_compute. Defined.

Lemma split_output_files_witness :
  job_files (@split_video_endpoint (demo_tools []) (2 * minute) one_upload
               (split_j1 (JInt 30))).1 "j1" !! reel_filename (0 + 1)
  = Some {| mtime := 2 * minute; data := Raw "clip" |}.
Proof.
  refine (proj1 (@split_output_files (demo_tools []) (2 * minute) one_upload
                   (split_j1 (JInt 30)) "j1" "j1_a.mp4" 95%float (NInt 30) 4
                   (one_upload_found (JInt 30)) one_upload_no_file
                   (one_upload_duration []) arithmetic_95_30
                   one_upload_no_zip_dir) 0%nat (NInt 0) (NInt 30) "clip" _ _ _);
    [vm_compute; lia|by vm_compute|by vm_compute].
Defined.

Lemma split_negative_duration_witness :
  as_float (NInt (-30)) = Returned (-30)%float /\
  PrimFloat.ltb (-30) 0 = true /\ PrimFloat.leb 0 95 = true /\
  num_clips 95 (NInt (-30)) = Returned (-3)%Z /\
  status (@split_video_endpoint (demo_tools []) (2 * minute) one_upload
            (split_j1 (JInt (-30)))).2 = 200%Z.
Proof.
  assert (as_float (NInt (-30)) = Returned (-30)%float) as Hb by (by vm_compute).
  assert (PrimFloat.ltb (-30) 0 = true) as Hneg by (by vm_compute).
  assert (PrimFloat.leb 0 95 = true) as HD by (by vm_compute).
  assert (num_clips 95 (NInt (-30)) = Returned (-3)%Z) as Hn by (by vm_compute).
  split; [exact Hb|]. split; [exact Hneg|]. split; [exact HD|]. split; [exact Hn|].
  exact (proj1 (proj2
           (@split_negative_duration (demo_tools []) (2 * minute) one_upload
              (split_j1 (JInt (-30))) "j1" "j1_a.mp4" 95%float (NInt (-30))
              (-30)%float (-3)%Z
              (one_upload_found (JInt (-30))) one_upload_no_file
              (one_upload_duration []) one_upload_no_zip_dir eq_refl Hb Hneg HD Hn))).
Defined.

Lemma split_failure_leaves_directory_witness :
  outputs one_upload !! "j1" = None /\
  @get_video_duration (demo_tools []) one_upload "j1_a.mp4" = Some 95%float /\
  num_clips 95 (NInt 0) = Raised "float division by zero" /\
  outputs (@split_video_endpoint (demo_tools []) (2 * minute) one_upload
             (split_j1 (JInt 0))).1 !! "j1" = Some (EDir (2 * minute) ∅).
Proof.
  assert (outputs one_upload !! "j1" = None) as Hnone by reflexivity.
  assert (num_clips 95 (NInt 0) = Raised "float division by zero") as Hn
    by (by vm_compute).
  split; [exact Hnone|]. split; [exact (one_upload_duration [])|].
  split; [exact Hn|].
  refine (proj1 (proj2 (@split_failure_leaves_directory (demo_tools []) (2 * minute)
                          one_upload (split_j1 (JInt 0)) "j1" "j1_a.mp4"
                          (one_upload_found (JInt 0)) Hnone _))).
  right. exists 95%float. split; [exact (one_upload_duration [])|].
  right. exists (NInt 0), "float division by zero". split; [reflexivity|exact Hn].
Defined.

Lemma split_all_runs_succeed_witness :
  exists clips,
    response_clips (@split_video_endpoint (demo_tools []) (2 * minute) one_upload
                      (split_j1 (JInt 30))).2 = Some clips /\
    length clips = 4%nat.
Proof.
  destruct (@split_all_runs_succeed (demo_tools []) (2 * minute) one_upload
              (split_j1 (JInt 30)) "j1" "j1_a.mp4" 95%float (NInt 30) 4
              (one_upload_found (JInt 30)) one_upload_no_file
              (one_upload_duration []) arithmetic_95_30
              one_upload_no_zip_dir) as (clips & Hresp & Hlen & _).
  { intros i st d _ _. destruct st; (split; [by vm_compute|]); eexists; by vm_compute. }
  exists clips. split; [exact Hresp|exact Hlen].
Defined.

Lemma good_mp4_accepted :
  up_filename good_mp4 <> EmptyString /\
  allowed_file (up_filename good_mp4) = true /\
  (forall t ch,
     uploads (cleanup_old_files (2 * minute) one_upload)
       !! @stored_name (demo_tools []) "j9" good_mp4 <> Some (EDir t ch)) /\
  exists info, @ffprobe_info (demo_tools []) (Raw (up_bytes good_mp4)) = Some info.
Proof.
  split; [discriminate|]. split; [by vm_compute|]. split.
  - intros t ch Hd. vm_compute in Hd. discriminate.
  - eexists. by vm_compute.
Defined.

Lemma upload_success_witness :
  status (@upload_video (demo_tools []) (2 * minute) one_upload (Some good_mp4) "j9").2
  = 200%Z /\
  @read_upload (@upload_video (demo_tools []) (2 * minute) one_upload
                  (Some good_mp4) "j9").1 "j9_holiday.MP4" = Some (Raw "95").
Proof.
  destruct good_mp4_accepted as (Hname & Hallowed & Hnodir & info & Hprobe).
  destruct (@upload_success (demo_tools []) (2 * minute) one_upload good_mp4 "j9" info
              Hname Hallowed Hnodir Hprobe) as (Hresp & _ & Hread & _).
  split; [by rewrite Hresp|exact Hread].
Defined.

Lemma upload_then_split_finds_video_witness :
  job_found (@upload_video (demo_tools []) (2 * minute) one_upload (Some good_mp4) "j9").1
    {| req_job_id := Some "j9"; req_split_duration := None |} "j9" "j9_holiday.MP4".
Proof.
  destruct good_mp4_accepted as (Hname & Hallowed & Hnodir & info & Hprobe).
  refine (proj1 (@upload_then_split_finds_video (demo_tools []) (2 * minute)
                   (3 * minute) one_upload good_mp4 "j9" info
                   {| req_job_id := Some "j9"; req_split_duration := None |}
                   Hname Hallowed Hnodir Hprobe _ _ eq_refl)); [discriminate|].
  intros name _ [e He].
  apply cleanup_folder_remaining in He as [He _].
  unfold one_upload in He. cbn [uploads] in He.
  apply lookup_singleton_Some in He as [<- _]. reflexivity.
Defined.

Lemma split_after_expiry_witness :
  status (@split_video_endpoint (demo_tools []) (181 * minute)
            (@upload_video (demo_tools []) (180 * minute) aged_storage None "j9").1
            {| req_job_id := Some "j0"; req_split_duration := None |}).2 = 404%Z.
Proof.
  refine (proj1 (@split_after_expiry (demo_tools []) (180 * minute) (181 * minute)
                   aged_storage None "j9"
                   {| req_job_id := Some "j0"; req_split_duration := None |} "j0"
                   eq_refl _ _ _)); [discriminate| |done].
  intros name e He _. unfold aged_storage in He. cbn [uploads] in He.
  apply lookup_singleton_Some in He as [_ <-]. by vm_compute.
Defined.

